(** * markdown_forge: the Markdown normalisation passes, embedded and verified

    A shallow embedding of the line-oriented passes of
    [tools/pdf_markdown_cleanup.py], [tools/epub_markdown_cleanup.py],
    [tools/pdf_to_markdown.py] and [tools/acrobat-pdf-markdown_cleanup.py],
    with the properties the specification states about them.

    Text is modelled with Rocq's [string]: a sequence of characters whose
    code points lie in 0..255 (the Latin-1 range of Python's [str]).  The
    character classes below are Python's, restricted to that range. *)

From Stdlib Require Import Ascii String QArith.
From stdpp Require Import gmap strings list.

Local Open Scope bool_scope.

(** ** Python's built-in string operations *)

Module Py.

Definition code (c : ascii) : nat := nat_of_ascii c.

Definition in_range (lo hi : nat) (c : ascii) : bool :=
  (lo <=? code c) && (code c <=? hi).

Definition chr (n : nat) : ascii := ascii_of_nat n.

(** [str.isspace] on one character, also the class [\s] of [re]:
    TAB..CR, FS..US, SPACE, NEL and NBSP. *)
Definition isspace (c : ascii) : bool :=
  in_range 9 13 c || in_range 28 32 c || (code c =? 133) || (code c =? 160).

(** The decimal digits [0-9], also the class [\d] on this range. *)
Definition isdigit (c : ascii) : bool := in_range 48 57 c.

Definition is_ascii_upper (c : ascii) : bool := in_range 65 90 c.
Definition is_ascii_lower (c : ascii) : bool := in_range 97 122 c.
Definition is_ascii_alpha (c : ascii) : bool :=
  is_ascii_upper c || is_ascii_lower c.

(** [str.isalnum] on one character of the Latin-1 range. *)
Definition isalnum (c : ascii) : bool :=
  isdigit c || is_ascii_alpha c
  || (code c =? 170) || (code c =? 178) || (code c =? 179)
  || (code c =? 181) || in_range 185 186 c || in_range 188 190 c
  || in_range 192 214 c || in_range 216 246 c || in_range 248 255 c.

(** The class [\w] of [re] for [str] patterns. *)
Definition isword (c : ascii) : bool := isalnum c || (code c =? 95).

(** [str.lower] on one character: A-Z and the Latin-1 capitals. *)
Definition lower_char (c : ascii) : ascii :=
  if is_ascii_upper c || in_range 192 214 c || in_range 216 222 c
  then chr (code c + 32) else c.

(** [str.upper] on one character, for the ASCII letters (the only
    letters it is applied to below). *)
Definition upper_char (c : ascii) : ascii :=
  if is_ascii_lower c then chr (code c - 32) else c.

Fixpoint map_chars (f : ascii -> ascii) (s : string) : string :=
  match s with
  | EmptyString => EmptyString
  | String c s' => String (f c) (map_chars f s')
  end.

Definition lower : string -> string := map_chars lower_char.
Definition upper : string -> string := map_chars upper_char.

Definition is_empty (s : string) : bool :=
  match s with EmptyString => true | _ => false end.

(** [s.lstrip(chars)], the characters given as a predicate. *)
Fixpoint lstrip_with (p : ascii -> bool) (s : string) : string :=
  match s with
  | EmptyString => EmptyString
  | String c s' => if p c then lstrip_with p s' else s
  end.

(** [s.rstrip(chars)]. *)
Fixpoint rstrip_with (p : ascii -> bool) (s : string) : string :=
  match s with
  | EmptyString => EmptyString
  | String c s' =>
      let r := rstrip_with p s' in
      if p c && is_empty r then EmptyString else String c r
  end.

Definition strip_with (p : ascii -> bool) (s : string) : string :=
  rstrip_with p (lstrip_with p s).

Definition lstrip : string -> string := lstrip_with isspace.
Definition rstrip : string -> string := rstrip_with isspace.
Definition strip : string -> string := strip_with isspace.

Definition is_char (a : ascii) (c : ascii) : bool := Ascii.eqb a c.

Definition startswith (s p : string) : bool := String.prefix p s.

Fixpoint endswith (s suf : string) : bool :=
  String.eqb s suf
  || match s with
     | EmptyString => false
     | String _ s' => endswith s' suf
     end.

(** [s[:-1]] *)
Fixpoint drop_last (s : string) : string :=
  match s with
  | EmptyString => EmptyString
  | String c EmptyString => EmptyString
  | String c s' => String c (drop_last s')
  end.

(** [s[1:]] *)
Definition drop_first (s : string) : string :=
  match s with
  | EmptyString => EmptyString
  | String _ s' => s'
  end.

(** [ch in s] *)
Fixpoint contains_char (a : ascii) (s : string) : bool :=
  match s with
  | EmptyString => false
  | String c s' => Ascii.eqb a c || contains_char a s'
  end.

(** [any(p(ch) for ch in s)] *)
Fixpoint any_char (p : ascii -> bool) (s : string) : bool :=
  match s with
  | EmptyString => false
  | String c s' => p c || any_char p s'
  end.

(** [all(p(ch) for ch in s)] *)
Fixpoint all_chars (p : ascii -> bool) (s : string) : bool :=
  match s with
  | EmptyString => true
  | String c s' => p c && all_chars p s'
  end.

(** [sub in s] for a non-empty [sub]. *)
Fixpoint contains (sub s : string) : bool :=
  String.prefix sub s
  || match s with
     | EmptyString => false
     | String _ s' => contains sub s'
     end.

(** [s.replace(a, r)] for a one-character [a]. *)
Fixpoint replace_char (a : ascii) (r : string) (s : string) : string :=
  match s with
  | EmptyString => EmptyString
  | String c s' =>
      if Ascii.eqb a c then r +:+ replace_char a r s'
      else String c (replace_char a r s')
  end.

(** [re.sub] of a one-character class by the empty string. *)
Fixpoint remove_chars (p : ascii -> bool) (s : string) : string :=
  match s with
  | EmptyString => EmptyString
  | String c s' =>
      if p c then remove_chars p s' else String c (remove_chars p s')
  end.

(** [re.sub(r"C+", r, s)]: every maximal run of the class collapses to
    [r]. [inrun] says that the previous character was in the class. *)
Fixpoint collapse_runs_from (p : ascii -> bool) (r : string)
    (inrun : bool) (s : string) : string :=
  match s with
  | EmptyString => EmptyString
  | String c s' =>
      if p c
      then (if inrun then collapse_runs_from p r true s'
            else r +:+ collapse_runs_from p r true s')
      else String c (collapse_runs_from p r false s')
  end.

Definition collapse_runs (p : ascii -> bool) (r : string) : string -> string :=
  collapse_runs_from p r false.

(** [sep.join(parts)] *)
Fixpoint join (sep : string) (parts : list string) : string :=
  match parts with
  | [] => EmptyString
  | [x] => x
  | x :: rest => x +:+ sep +:+ join sep rest
  end.

(** [s.split(sep, 1)] for a one-character separator that occurs in [s]:
    the text before the first occurrence and the text after it;
    [None] when the separator does not occur. *)
Fixpoint split_once (a : ascii) (s : string) : option (string * string) :=
  match s with
  | EmptyString => None
  | String c s' =>
      if Ascii.eqb a c then Some (EmptyString, s')
      else match split_once a s' with
           | Some (l, r) => Some (String c l, r)
           | None => None
           end
  end.

(** The line boundaries of [str.splitlines] in the Latin-1 range, CR LF
    apart: LF, VT, FF, CR, FS, GS, RS and NEL. *)
Definition is_linebreak (c : ascii) : bool :=
  in_range 10 13 c || in_range 28 30 c || (code c =? 133).

(** [s.splitlines()]: [cur] is the line read so far. *)
Fixpoint splitlines_from (cur : string) (s : string) : list string :=
  match s with
  | EmptyString => if is_empty cur then [] else [cur]
  | String c s' =>
      if is_linebreak c then
        match s' with
        | String c' s'' =>
            if (code c =? 13) && (code c' =? 10)
            then cur :: splitlines_from EmptyString s''
            else cur :: splitlines_from EmptyString s'
        | EmptyString => [cur]
        end
      else splitlines_from (cur +:+ String c EmptyString) s'
  end.

Definition splitlines : string -> list string := splitlines_from EmptyString.

(** ['c' * n] *)
Fixpoint repeat_char (c : ascii) (n : nat) : string :=
  match n with
  | O => EmptyString
  | S n' => String c (repeat_char c n')
  end.

(** [str(n)] for a natural number. *)
Definition digit_char (n : nat) : ascii := chr (48 + n).

Fixpoint str_nat_fuel (fuel n : nat) (acc : string) : string :=
  match fuel with
  | O => acc
  | S fuel' =>
      let acc' := String (digit_char (n mod 10)) acc in
      if n <? 10 then acc' else str_nat_fuel fuel' (n / 10) acc'
  end.

Definition str_nat (n : nat) : string := str_nat_fuel (S n) n EmptyString.

End Py.

(** ** tools/pdf_markdown_cleanup.py *)

Module PdfCleanup.

(** [FENCE_PREFIXES] *)
Definition FENCE_PREFIXES : list string := ["```"; "~~~"].

(** [any(s.startswith(prefix) for prefix in FENCE_PREFIXES)] *)
Definition starts_fence (s : string) : bool :=
  existsb (Py.startswith s) FENCE_PREFIXES.

(** [WHITESPACE_RUN_RE.sub(" ", rest)], the pattern being [[ \t]{2,}]:
    [run] counts the blanks and tabs of the run being read, [first] is
    the first character of that run. *)
Definition is_blank_or_tab (c : ascii) : bool :=
  (Py.code c =? 32) || (Py.code c =? 9).

Fixpoint sub_whitespace_runs (first : ascii) (run : nat) (s : string) : string :=
  let flush (k : string) :=
    match run with
    | 0 => k
    | 1 => String first k
    | _ => String " " k
    end in
  match s with
  | EmptyString => flush EmptyString
  | String c s' =>
      if is_blank_or_tab c
      then sub_whitespace_runs (if run =? 0 then c else first) (S run) s'
      else flush (String c (sub_whitespace_runs c 0 s'))
  end.

(** [collapse_internal_whitespace]: the loop body, from the fence
    state and a line to the fence state and the cleaned line. *)
Definition collapse_ws_step (in_code_block : bool) (line : string)
    : bool * string :=
  let stripped := Py.lstrip line in
  if starts_fence stripped then (negb in_code_block, Py.rstrip line)
  else if in_code_block then (in_code_block, Py.rstrip line)
  else
    let rest := Py.lstrip_with (Py.is_char " ") line in
    let leading_len := String.length line - String.length rest in
    let prefix := String.substring 0 leading_len line in
    let rest := sub_whitespace_runs " " 0 rest in
    (in_code_block, Py.rstrip (prefix +:+ rest)).

Fixpoint collapse_ws_loop (in_code_block : bool) (lines : list string)
    : list string :=
  match lines with
  | [] => []
  | line :: rest =>
      let '(st, out) := collapse_ws_step in_code_block line in
      out :: collapse_ws_loop st rest
  end.

Definition collapse_internal_whitespace (lines : list string) : list string :=
  collapse_ws_loop false lines.

(** [collapse_blank_lines]: [blank_streak] is the loop's counter. *)
Fixpoint collapse_blank_loop (blank_streak : nat) (lines : list string)
    : list string :=
  match lines with
  | [] => []
  | line :: rest =>
      if Py.is_empty line then
        if 1 <? S blank_streak
        then collapse_blank_loop (S blank_streak) rest
        else line :: collapse_blank_loop (S blank_streak) rest
      else line :: collapse_blank_loop 0 rest
  end.

Definition collapse_blank_lines (lines : list string) : list string :=
  collapse_blank_loop 0 lines.

(** [LIST_MARKER_RE.match], the pattern being
    [^(?:[-*+]\s+|\d+[.)]\s+|[A-Za-z][.)]\s+)]. *)
Definition is_bullet (c : ascii) : bool :=
  Py.is_char "-" c || Py.is_char "*" c || Py.is_char "+" c.

Definition is_dot_or_paren (c : ascii) : bool :=
  Py.is_char "." c || Py.is_char ")" c.

Definition starts_with_space (s : string) : bool :=
  match s with
  | String c _ => Py.isspace c
  | EmptyString => false
  end.

Definition closes_marker (s : string) : bool :=
  match s with
  | String c s' => is_dot_or_paren c && starts_with_space s'
  | EmptyString => false
  end.

Definition LIST_MARKER_RE_match (s : string) : bool :=
  match s with
  | EmptyString => false
  | String c s' =>
      (is_bullet c && starts_with_space s')
      || (Py.isdigit c && closes_marker (Py.lstrip_with Py.isdigit s'))
      || (Py.is_ascii_alpha c && closes_marker s')
  end.

(** [FOOTNOTE_DEF_RE.match], the pattern being [^\[\^[^\]]+\]:]. *)
Definition not_rbracket (c : ascii) : bool := negb (Py.is_char "]" c).

Definition FOOTNOTE_DEF_RE_match (s : string) : bool :=
  match s with
  | String "[" (String "^" (String c s')) =>
      not_rbracket c
      && Py.startswith (Py.lstrip_with not_rbracket s') "]:"
  | _ => false
  end.

(** [is_paragraph_candidate] *)
Definition is_paragraph_candidate (original_line : string) : bool :=
  let stripped := Py.strip original_line in
  if Py.is_empty stripped then false
  else
    let leading_spaces :=
      String.length original_line
      - String.length (Py.lstrip_with (Py.is_char " ") original_line) in
    if 4 <=? leading_spaces then false
    else if Py.startswith stripped "#" then false
    else if Py.startswith stripped ">" then false
    else if Py.startswith stripped "|" then false
    else if String.eqb stripped "---" || String.eqb stripped "***"
            || String.eqb stripped "___" then false
    else if Py.startswith stripped "<" && Py.endswith stripped ">" then false
    else if LIST_MARKER_RE_match stripped then false
    else if FOOTNOTE_DEF_RE_match stripped then false
    else true.

(** [combine_paragraph_lines]: one turn of the loop, from the
    accumulated text and the next part to the new accumulated text. *)
Definition combine_step (combined part : string) : string :=
  let chunk := Py.strip part in
  if Py.is_empty chunk then combined
  else if negb (Py.is_empty combined) then
    if Py.endswith combined "-" && negb (Py.endswith combined "--")
    then Py.drop_last combined +:+ chunk
    else combined +:+ " " +:+ chunk
  else chunk.

Definition combine_paragraph_lines (lines : list string) : string :=
  fold_left combine_step lines EmptyString.

(** [unwrap_paragraphs]: the variables of the loop. *)
Record unwrap_state := {
  result : list string;
  buffer : list string;
  in_code_block : bool
}.

(** The local function [flush_buffer]. *)
Definition flush_buffer (st : unwrap_state) : unwrap_state :=
  match buffer st with
  | [] => st
  | _ =>
      let paragraph := combine_paragraph_lines (buffer st) in
      {| result := if negb (Py.is_empty paragraph)
                   then result st ++ [paragraph; EmptyString]
                   else result st;
         buffer := [];
         in_code_block := in_code_block st |}
  end.

Definition emit (x : string) (st : unwrap_state) : unwrap_state :=
  {| result := result st ++ [x];
     buffer := buffer st;
     in_code_block := in_code_block st |}.

(** One turn of the loop of [unwrap_paragraphs]. *)
Definition unwrap_step (st : unwrap_state) (line : string) : unwrap_state :=
  let current := Py.rstrip line in
  let stripped_leading := Py.lstrip current in
  if starts_fence stripped_leading then
    let st1 := flush_buffer st in
    emit current {| result := result st1;
                    buffer := buffer st1;
                    in_code_block := negb (in_code_block st1) |}
  else if in_code_block st then emit current st
  else if Py.is_empty (Py.strip current) then
    emit EmptyString (flush_buffer st)
  else if is_paragraph_candidate current then
    {| result := result st;
       buffer := buffer st ++ [current];
       in_code_block := in_code_block st |}
  else emit current (flush_buffer st).

Definition unwrap_loop (st : unwrap_state) (lines : list string)
    : unwrap_state :=
  fold_left unwrap_step lines st.

Definition unwrap_init : unwrap_state :=
  {| result := []; buffer := []; in_code_block := false |}.

(** [result.pop()] when the last element is the empty string. *)
Definition pop_trailing_blank (res : list string) : list string :=
  match last res with
  | Some EmptyString => removelast res
  | _ => res
  end.

Definition unwrap_paragraphs (lines : list string) : list string :=
  pop_trailing_blank (result (flush_buffer (unwrap_loop unwrap_init lines))).

(** [normalise_text] *)
Definition normalise_text (text : string) : string :=
  let text := Py.replace_char (Py.chr 160) " " text in
  let lines := Py.splitlines text in
  let lines := unwrap_paragraphs lines in
  let lines := collapse_internal_whitespace lines in
  let lines := collapse_blank_lines lines in
  let normalised := Py.strip (Py.join (String (Py.chr 10) EmptyString) lines) in
  normalised +:+ String (Py.chr 10) EmptyString.

End PdfCleanup.

(** ** tools/epub_markdown_cleanup.py *)

Module Epub.

(** *** Headings, slugs and the table of contents *)

Definition is_hash (c : ascii) : bool := Py.is_char "#" c.
Definition is_newline (c : ascii) : bool := Py.code c =? 10.

(** [HEADING_PATTERN.match(line)]: the pattern is one to six [#]
    (group 1), then [\s+], then any text up to [$] (group 2).  The
    result is the length of group 1 and the text of group 2.  The dot
    excludes the newline, and [$] also matches before a newline that
    ends the line. *)
Definition HEADING_PATTERN_match (line : string) : option (nat * string) :=
  let after_hashes := Py.lstrip_with is_hash line in
  let hashes := String.length line - String.length after_hashes in
  if (1 <=? hashes) && (hashes <=? 6) && PdfCleanup.starts_with_space after_hashes
  then
    let tail := Py.lstrip after_hashes in
    let group2 :=
      if Py.endswith tail (String (Py.chr 10) EmptyString)
      then Py.drop_last tail else tail in
    if Py.any_char is_newline group2 then None else Some (hashes, group2)
  else None.

(** [slugify_heading] *)
Definition slug_keeps (c : ascii) : bool :=
  Py.isword c || Py.isspace c || Py.is_char "-" c.

Definition slugify_heading (text : string) : string :=
  let slug := Py.lower (Py.strip text) in
  let slug := Py.remove_chars (fun c => negb (slug_keeps c)) slug in
  let slug := Py.collapse_runs Py.isspace "-" slug in
  let slug := Py.collapse_runs (Py.is_char "-") "-" slug in
  Py.strip_with (Py.is_char "-") slug.

(** [normalized in {"table of contents", "table of content"}], with
    [normalized = text.lower().rstrip(":")]. *)
Definition is_toc_title (text : string) : bool :=
  let normalized := Py.rstrip_with (Py.is_char ":") (Py.lower text) in
  String.eqb normalized "table of contents"
  || String.eqb normalized "table of content".

(** The test that opens or closes a fence in [demote_headings]. *)
Definition is_fence_line (line : string) : bool :=
  let stripped := Py.strip line in
  Py.startswith stripped "```" || Py.startswith stripped "~~~".

(** The variables of the loop of [demote_headings]. *)
Record demote_state := {
  in_code_block : bool;
  new_lines : list string;
  toc_entries : list (string * string);
  first_heading_text : option string;
  slug_counts : gmap string nat
}.

Definition demote_init : demote_state :=
  {| in_code_block := false; new_lines := []; toc_entries := [];
     first_heading_text := None; slug_counts := ∅ |}.

(** [base_slug if count == 0 else f"{base_slug}-{count}"] *)
Definition slug_for (base_slug : string) (count : nat) : string :=
  if count =? 0 then base_slug else base_slug +:+ "-" +:+ Py.str_nat count.

(** [slugify_heading(text) or "section"] *)
Definition base_slug_of (text : string) : string :=
  let s := slugify_heading text in
  if Py.is_empty s then "section" else s.

(** The branch of the loop taken on a heading outside a fence. *)
Definition demote_heading (st : demote_state) (level : nat) (group2 : string)
    : demote_state :=
  let text := Py.strip group2 in
  let is_toc := is_toc_title text in
  let first :=
    match first_heading_text st with
    | None => if negb is_toc then Some text else None
    | Some t => Some t
    end in
  let new_level := if level =? 1 then 2 else level in
  let heading := Py.rstrip (Py.repeat_char "#" new_level +:+ " " +:+ text) in
  if (new_level =? 2) && negb is_toc then
    let base_slug := base_slug_of text in
    let count := default 0 (slug_counts st !! base_slug) in
    let slug_id := slug_for base_slug count in
    {| in_code_block := in_code_block st;
       new_lines := new_lines st ++ [heading +:+ " {#" +:+ slug_id +:+ "}"];
       toc_entries := toc_entries st ++ [(text, slug_id)];
       first_heading_text := first;
       slug_counts := <[base_slug := count + 1]> (slug_counts st) |}
  else
    {| in_code_block := in_code_block st;
       new_lines := new_lines st ++ [heading];
       toc_entries := toc_entries st;
       first_heading_text := first;
       slug_counts := slug_counts st |}.

Definition keep_line (st : demote_state) (code : bool) (line : string)
    : demote_state :=
  {| in_code_block := code;
     new_lines := new_lines st ++ [line];
     toc_entries := toc_entries st;
     first_heading_text := first_heading_text st;
     slug_counts := slug_counts st |}.

(** One turn of the loop of [demote_headings]. *)
Definition demote_step (st : demote_state) (line : string) : demote_state :=
  if is_fence_line line then keep_line st (negb (in_code_block st)) line
  else if in_code_block st then keep_line st (in_code_block st) line
  else
    match HEADING_PATTERN_match line with
    | Some (level, group2) => demote_heading st level group2
    | None => keep_line st (in_code_block st) line
    end.

Definition demote_loop (st : demote_state) (lines : list string)
    : demote_state :=
  fold_left demote_step lines st.

(** [demote_headings]: the new lines, the entries of the table of
    contents and the text of the first heading. *)
Definition demote_headings (lines : list string)
    : list string * list (string * string) * option string :=
  let st := demote_loop demote_init lines in
  (new_lines st, toc_entries st, first_heading_text st).

(** [build_toc_lines] *)
Definition toc_item (entry : string * string) : string :=
  "- [" +:+ entry.1 +:+ "](#" +:+ entry.2 +:+ ")".

Definition build_toc_lines (entries : list (string * string)) : list string :=
  match entries with
  | [] => []
  | _ => ["## Table of Contents"; EmptyString] ++ map toc_item entries
         ++ [EmptyString]
  end.

(** [replace_existing_toc] *)
Definition is_heading (line : string) : bool :=
  match HEADING_PATTERN_match line with Some _ => true | None => false end.

(** The test of the outer loop: a level-2 heading whose text is the
    title of a table of contents. *)
Definition is_toc_heading (line : string) : bool :=
  match HEADING_PATTERN_match line with
  | Some (level, group2) =>
      (level =? 2) && is_toc_title (Py.strip group2)
  | None => false
  end.

(** The inner loop: skip the lines that are no headings. *)
Fixpoint skip_to_heading (lines : list string) : list string :=
  match lines with
  | [] => []
  | l :: rest => if is_heading l then lines else skip_to_heading rest
  end.

Fixpoint replace_toc_loop (lines toc_lines : list string)
    : option (list string) :=
  match lines with
  | [] => None
  | l :: rest =>
      if is_toc_heading l then Some (toc_lines ++ skip_to_heading rest)
      else match replace_toc_loop rest toc_lines with
           | Some r => Some (l :: r)
           | None => None
           end
  end.

Definition replace_existing_toc (lines toc_lines : list string)
    : list string * bool :=
  match toc_lines with
  | [] => (lines, false)
  | _ =>
      match replace_toc_loop lines toc_lines with
      | Some r => (r, true)
      | None => (lines, false)
      end
  end.

(** *** ISBN extraction *)

(** The class [[0-9Xx]] *)
Definition is_isbn_char (c : ascii) : bool :=
  Py.isdigit c || Py.is_char "X" c || Py.is_char "x" c.

(** [normalize_isbn]; [raw] is [None] or a string. *)
Definition normalize_isbn (raw : option string) : option string :=
  match raw with
  | None => None
  | Some raw =>
      if Py.is_empty raw then None
      else
        let cleaned := Py.remove_chars (fun c => negb (is_isbn_char c)) raw in
        if (String.length cleaned =? 13) && Py.all_chars Py.isdigit cleaned
        then Some cleaned
        else if (String.length cleaned =? 10)
                && Py.all_chars Py.isdigit (String.substring 0 9 cleaned)
                && Py.all_chars is_isbn_char (String.substring 9 1 cleaned)
        then Some (Py.upper cleaned)
        else None
  end.

(** [ISBN_PATTERN], compiled with [re.IGNORECASE]: a word boundary,
    [ISBN], an optional [-10] or [-13], an optional colon, [\s*], and
    the group: a digit, eight or more of [[0-9Xx\s-]], and one of
    [[0-9Xx]]. *)

(** A prefix compared without regard to case. *)
Fixpoint starts_with_nocase (p s : string) : option string :=
  match p, s with
  | EmptyString, _ => Some s
  | String a p', String c s' =>
      if Ascii.eqb (Py.lower_char a) (Py.lower_char c)
      then starts_with_nocase p' s' else None
  | String _ _, EmptyString => None
  end.

Definition is_isbn_body_char (c : ascii) : bool :=
  is_isbn_char c || Py.isspace c || Py.is_char "-" c.

(** The greedy repetition and the closing character: of the run of
    body characters at the head of [s], the longest prefix of at least
    [9] characters that ends in one of [[0-9Xx]]. *)
Fixpoint isbn_tail (n : nat) (s : string) : option string :=
  match s with
  | EmptyString => None
  | String c s' =>
      if is_isbn_body_char c then
        match isbn_tail (S n) s' with
        | Some r => Some (String c r)
        | None =>
            if is_isbn_char c && (8 <=? n)
            then Some (String c EmptyString) else None
        end
      else None
  end.

(** The optional [(?:-1[03])]. *)
Definition skip_isbn_kind (s : string) : string :=
  match s with
  | String "-" (String "1" (String c s')) =>
      if Py.is_char "0" c || Py.is_char "3" c then s' else s
  | _ => s
  end.

(** The optional [:]. *)
Definition skip_colon (s : string) : string :=
  match s with
  | String ":" s' => s'
  | _ => s
  end.

(** A match of [ISBN_PATTERN] that starts at the head of [s], [prev]
    being the character before it: group 1 and the length of the
    whole match. *)
Definition ISBN_PATTERN_match_at (prev : option ascii) (s : string)
    : option (string * nat) :=
  let boundary :=
    match prev with
    | Some c => negb (Py.isword c)
    | None => true
    end in
  if boundary then
    match starts_with_nocase "ISBN" s with
    | Some s1 =>
        let s2 := Py.lstrip (skip_colon (skip_isbn_kind s1)) in
        match s2 with
        | String d s3 =>
            if Py.isdigit d then
              match isbn_tail 0 s3 with
              | Some r =>
                  let group1 := String d r in
                  Some (group1,
                        String.length s - String.length s2
                        + String.length group1)
              | None => None
              end
            else None
        | EmptyString => None
        end
    | None => None
    end
  else None.

(** [ISBN_PATTERN.finditer(text)], as the list of the group 1 of each
    match: [skip] counts the characters of the last match still to be
    passed. *)
Fixpoint ISBN_PATTERN_finditer_from (prev : option ascii) (skip : nat)
    (s : string) : list string :=
  match s with
  | EmptyString => []
  | String c s' =>
      match skip with
      | S k => ISBN_PATTERN_finditer_from (Some c) k s'
      | O =>
          match ISBN_PATTERN_match_at prev s with
          | Some (group1, len) =>
              group1 :: ISBN_PATTERN_finditer_from (Some c) (len - 1) s'
          | None => ISBN_PATTERN_finditer_from (Some c) 0 s'
          end
      end
  end.

Definition ISBN_PATTERN_finditer (text : string) : list string :=
  ISBN_PATTERN_finditer_from None 0 text.

(** The two loops of [extract_isbn]: the first usable candidate. *)
Fixpoint first_isbn (candidates : list string) : option string :=
  match candidates with
  | [] => None
  | c :: rest =>
      match normalize_isbn (Some c) with
      | Some n => Some n
      | None => first_isbn rest
      end
  end.

(** [extract_isbn] *)
Definition extract_isbn (text : string) (fallback_identifiers : list string)
    : option string :=
  match first_isbn (ISBN_PATTERN_finditer text) with
  | Some n => Some n
  | None => first_isbn fallback_identifiers
  end.

(** *** Front matter *)

(** The values of the metadata dictionary: a scalar or a list. *)
Inductive value : Type :=
| VStr (s : string)
| VList (items : list string).

(** A Python [dict] with string keys: the entries in insertion order. *)
Definition dict : Type := list (string * value).

Fixpoint dict_get (k : string) (m : dict) : option value :=
  match m with
  | [] => None
  | (k', v) :: rest => if String.eqb k k' then Some v else dict_get k rest
  end.

(** [m[k] = v]: an existing key keeps its place. *)
Fixpoint dict_set (k : string) (v : value) (m : dict) : dict :=
  match m with
  | [] => [(k, v)]
  | (k', v') :: rest =>
      if String.eqb k k' then (k, v) :: rest
      else (k', v') :: dict_set k v rest
  end.

Definition dict_keys (m : dict) : list string := map fst m.

(** [k in l] for a list of strings. *)
Definition mem (k : string) (l : list string) : bool :=
  existsb (String.eqb k) l.

Definition dquote : string := String (Py.chr 34) EmptyString.
Definition squote : string := "'".

(** The variables of the loop of [parse_front_matter_block]. *)
Record parse_state := {
  metadata : dict;
  order : list string;
  quoted : gset string;
  current_key : option string
}.

Definition parse_init : parse_state :=
  {| metadata := []; order := []; quoted := ∅; current_key := None |}.

(** One turn of the loop; [None] is the early [return None]. *)
Definition parse_step (st : parse_state) (raw : string) : option parse_state :=
  let stripped := Py.strip raw in
  if Py.is_empty stripped || Py.startswith stripped "#" then Some st
  else if Py.startswith stripped "- " then
    match current_key st with
    | None => None
    | Some key =>
        if Py.is_empty key then None
        else
          match dict_get key (metadata st) with
          | Some (VList items) =>
              let item := Py.strip (Py.drop_first (Py.drop_first stripped)) in
              Some {| metadata := dict_set key (VList (items ++ [item]))
                                           (metadata st);
                      order := order st;
                      quoted := quoted st;
                      current_key := current_key st |}
          | _ => None
          end
    end
  else
    match Py.split_once ":" raw with
    | Some (key_part, value_part) =>
        let key := Py.strip key_part in
        if Py.is_empty key then None
        else
          let value := Py.strip value_part in
          let order' :=
            if mem key (order st) then order st else order st ++ [key] in
          if Py.is_empty value then
            Some {| metadata := dict_set key (VList []) (metadata st);
                    order := order';
                    quoted := quoted st;
                    current_key := Some key |}
          else if (Py.startswith value dquote && Py.endswith value dquote)
                  || (Py.startswith value squote && Py.endswith value squote)
          then
            Some {| metadata :=
                      dict_set key (VStr (Py.drop_first (Py.drop_last value)))
                               (metadata st);
                    order := order';
                    quoted := {[ key ]} ∪ quoted st;
                    current_key := Some key |}
          else
            Some {| metadata := dict_set key (VStr value) (metadata st);
                    order := order';
                    quoted := quoted st;
                    current_key := Some key |}
    | None => None
    end.

Fixpoint parse_loop (st : parse_state) (lines : list string)
    : option parse_state :=
  match lines with
  | [] => Some st
  | raw :: rest =>
      match parse_step st raw with
      | Some st' => parse_loop st' rest
      | None => None
      end
  end.

Definition is_marker (line : string) : bool :=
  String.eqb (Py.strip line) "---".

(** [parse_front_matter_block] *)
Definition parse_front_matter_block (lines : list string)
    : option (dict * list string * gset string) :=
  match lines, last lines with
  | first :: rest, Some final =>
      if negb (is_marker first) || negb (is_marker final) then None
      else
        match parse_loop parse_init (removelast rest) with
        | Some st => Some (metadata st, order st, quoted st)
        | None => None
        end
  | _, _ => None
  end.

(** [needs_quotes] *)
Definition needs_quotes (value : string) : bool :=
  if Py.is_empty value || negb (String.eqb value (Py.strip value)) then true
  else if Py.contains_char ":" value || Py.contains_char "#" value
          || Py.contains_char (Py.chr 34) value
          || Py.contains_char "'" value then true
  else if Py.any_char Py.isspace value
          && (Py.contains "::" value || Py.startswith value "http") then true
  else
    let low := Py.lower value in
    String.eqb low "true" || String.eqb low "false"
    || String.eqb low "null" || String.eqb low "~".

(** [format_scalar_value], the value being a string. *)
Definition format_scalar_value (text : string) (force_quotes : bool) : string :=
  if force_quotes || needs_quotes text then
    let escaped := Py.replace_char (Py.chr 34) ("\" +:+ dquote) text in
    dquote +:+ escaped +:+ dquote
  else text.

(** The lines that [serialize_front_matter] writes for one key;
    a key that the dictionary lacks has the value [None], which is
    formatted as the empty string. *)
Definition serialize_key (m : dict) (q : gset string) (key : string)
    : list string :=
  match dict_get key m with
  | Some (VList items) =>
      (key +:+ ":")
        :: map (fun item => "  - " +:+ format_scalar_value item false) items
  | Some (VStr s) =>
      [key +:+ ": " +:+ format_scalar_value s (bool_decide (key ∈ q))]
  | None =>
      [key +:+ ": " +:+ format_scalar_value EmptyString (bool_decide (key ∈ q))]
  end.

Fixpoint serialize_loop (m : dict) (q : gset string) (seen : list string)
    (keys : list string) : list string :=
  match keys with
  | [] => []
  | key :: rest =>
      if mem key seen then serialize_loop m q seen rest
      else serialize_key m q key ++ serialize_loop m q (key :: seen) rest
  end.

(** [serialize_front_matter] *)
Definition serialize_front_matter (m : dict) (o : list string)
    (q : gset string) : list string :=
  let keys := o ++ filter (fun k => negb (mem k o)) (dict_keys m) in
  ["---"] ++ serialize_loop m q [] keys ++ ["---"].

(** The head of [adjust_headings_and_build_toc]: the lines of the
    front matter, the index at which the body starts, and the parsed
    metadata. *)

(** The [for] loop over [range(1, len(lines))] with its [else]:
    the lines collected, and the index after the closing marker when
    there is one. *)
Fixpoint collect_front_matter (idx : nat) (rest : list string)
    : list string * option nat :=
  match rest with
  | [] => ([], None)
  | l :: rest' =>
      if is_marker l then ([l], Some (idx + 1))
      else
        let '(collected, stop) := collect_front_matter (S idx) rest' in
        (l :: collected, stop)
  end.

Record front_matter := {
  front_matter_lines : list string;
  body_start : nat;
  parsed : option (dict * list string * gset string)
}.

Definition read_front_matter (lines : list string) : front_matter :=
  match lines with
  | first :: rest =>
      if is_marker first then
        let '(collected, stop) := collect_front_matter 1 rest in
        let fm := first :: collected in
        {| front_matter_lines := fm;
           body_start := match stop with
                         | Some i => i
                         | None => length lines
                         end;
           parsed := parse_front_matter_block fm |}
      else {| front_matter_lines := []; body_start := 0; parsed := None |}
  | [] => {| front_matter_lines := []; body_start := 0; parsed := None |}
  end.

(** [body_lines = lines[body_start:]] *)
Definition body_lines (lines : list string) : list string :=
  drop (body_start (read_front_matter lines)) lines.

(** *** Blank lines of the whole text *)

(** One turn of the repeated group of [MULTI_BLANK_PATTERN], blanks and
    tabs and then a newline: the text after it. *)
Definition blank_unit (s : string) : option string :=
  match Py.lstrip_with PdfCleanup.is_blank_or_tab s with
  | String c r => if is_newline c then Some r else None
  | EmptyString => None
  end.

(** The greedy repetition: how many turns follow each other at the head
    of [s], and the text after them. *)
Fixpoint blank_units (fuel : nat) (s : string) : nat * string :=
  match fuel with
  | O => (0, s)
  | S fuel' =>
      match blank_unit s with
      | Some r => let '(n, r') := blank_units fuel' r in (S n, r')
      | None => (0, s)
      end
  end.

(** A match of [MULTI_BLANK_PATTERN] at the head of [s], three turns or
    more: its length. *)
Definition MULTI_BLANK_PATTERN_match_at (s : string) : option nat :=
  let '(n, r) := blank_units (String.length s) s in
  if 3 <=? n then Some (String.length s - String.length r) else None.

(** [MULTI_BLANK_PATTERN.sub("\n\n", text)]: [skip] counts the
    characters of the last match still to be passed. *)
Fixpoint sub_multi_blank (skip : nat) (s : string) : string :=
  match s with
  | EmptyString => EmptyString
  | String c s' =>
      match skip with
      | S k => sub_multi_blank k s'
      | O =>
          match MULTI_BLANK_PATTERN_match_at s with
          | Some len =>
              String (Py.chr 10) (String (Py.chr 10)
                                    (sub_multi_blank (len - 1) s'))
          | None => String c (sub_multi_blank 0 s')
          end
      end
  end.

(** [collapse_blank_lines], on the whole text. *)
Definition collapse_blank_lines (text : string) : string :=
  sub_multi_blank 0 text.

End Epub.

(** ** tools/pdf_to_markdown.py *)

Module PdfToMarkdown.

(** The region tags ["header"], ["body"] and ["footer"]. *)
Inductive region : Type := header | body | footer.

Definition region_eqb (a b : region) : bool :=
  match a, b with
  | header, header | body, body | footer, footer => true
  | _, _ => false
  end.

(** What the page-text extractor hands over: a text line with its
    vertical bounds ([y0] is the bottom, [y1] the top), inside text
    containers, inside pages.  Coordinates are exact rationals. *)
Record LTTextLine := { get_text : string; y0 : Q; y1 : Q }.

Inductive layout_item : Type :=
| TextLine (l : LTTextLine)
| OtherItem.

Inductive layout_element : Type :=
| LTTextContainer (items : list layout_item)
| OtherElement.

Record page_layout := {
  height : option Q;
  elements : list layout_element
}.

(** [ExtractionConfig]; a compiled pattern is its [search] test. *)
Record ExtractionConfig := {
  margin_top : Q;
  margin_bottom : Q;
  min_repeating : Z;
  skip_patterns : list (string -> bool)
}.

(** [should_skip_text] *)
Definition should_skip_text (text : string) (patterns : list (string -> bool))
    : bool :=
  let stripped := Py.strip text in
  if Py.is_empty stripped then true
  else existsb (fun pattern => pattern stripped) patterns.

(** [Counter]: a missing key counts zero. *)
Definition count_of (counts : gmap string nat) (text : string) : nat :=
  default 0 (counts !! text).

Definition increment (counts : gmap string nat) (text : string)
    : gmap string nat :=
  <[text := count_of counts text + 1]> counts.

(** The variables that the first loop of [collect_text_lines] keeps
    across pages. *)
Record collect_state := {
  pages : list (list (string * region));
  header_counts : gmap string nat;
  footer_counts : gmap string nat;
  total_pages : nat
}.

(** The variables of the loops within one page. *)
Record page_state := {
  page_entries : list (string * region);
  page_header_counts : gmap string nat;
  page_footer_counts : gmap string nat
}.

(** The body of the innermost loop, for one item of a container. *)
Definition collect_item (config : ExtractionConfig) (page_height : Q)
    (st : page_state) (item : layout_item) : page_state :=
  match item with
  | OtherItem => st
  | TextLine line =>
      let text := Py.strip (get_text line) in
      if Py.is_empty text then st
      else
        let y_top := y1 line in
        let y_bottom := y0 line in
        if Qle_bool (Qminus page_height y_top) (margin_top config) then
          {| page_entries := page_entries st ++ [(text, header)];
             page_header_counts := increment (page_header_counts st) text;
             page_footer_counts := page_footer_counts st |}
        else if Qle_bool y_bottom (margin_bottom config) then
          {| page_entries := page_entries st ++ [(text, footer)];
             page_header_counts := page_header_counts st;
             page_footer_counts := increment (page_footer_counts st) text |}
        else
          {| page_entries := page_entries st ++ [(text, body)];
             page_header_counts := page_header_counts st;
             page_footer_counts := page_footer_counts st |}
  end.

Definition collect_element (config : ExtractionConfig) (page_height : Q)
    (st : page_state) (element : layout_element) : page_state :=
  match element with
  | OtherElement => st
  | LTTextContainer items =>
      fold_left (collect_item config page_height) items st
  end.

(** The body of the loop over the pages. *)
Definition collect_page (config : ExtractionConfig) (st : collect_state)
    (page : page_layout) : collect_state :=
  let page_height :=
    match height page with
    | Some h => h
    | None => 792 # 1
    end in
  let pst :=
    fold_left (collect_element config page_height) (elements page)
      {| page_entries := [];
         page_header_counts := header_counts st;
         page_footer_counts := footer_counts st |} in
  {| pages := pages st ++ [page_entries pst];
     header_counts := page_header_counts pst;
     footer_counts := page_footer_counts pst;
     total_pages := total_pages st + 1 |}.

Definition collect_init : collect_state :=
  {| pages := []; header_counts := ∅; footer_counts := ∅; total_pages := 0 |}.

(** [min_repeating] after the automatic choice. *)
Definition threshold (config : ExtractionConfig) (total_pages : nat) : nat :=
  if (min_repeating config <=? 0)%Z
  then Nat.max 2 (total_pages / 3)
  else Z.to_nat (min_repeating config).

(** [{text for text, count in counts.items() if count >= min_repeating}] *)
Definition drop_set (counts : gmap string nat) (min_rep : nat) : gset string :=
  dom (filter (fun kv => min_rep ≤ kv.2) counts).

(** The test of the second loop: the entry is kept. *)
Definition keeps (config : ExtractionConfig) (header_drop footer_drop : gset string)
    (entry : string * region) : bool :=
  let '(text, reg) := entry in
  if region_eqb reg header && bool_decide (text ∈ header_drop) then false
  else if region_eqb reg footer && bool_decide (text ∈ footer_drop) then false
  else if should_skip_text text (skip_patterns config) then false
  else true.

(** The body of the second loop, for the entries of one page. *)
Definition emit_page (config : ExtractionConfig)
    (header_drop footer_drop : gset string)
    (output_lines : list string) (entries : list (string * region))
    : list string :=
  let page_lines :=
    map fst (filter (fun e => keeps config header_drop footer_drop e = true)
                    entries) in
  match page_lines with
  | [] => output_lines
  | _ =>
      match last output_lines with
      | Some l =>
          if negb (Py.is_empty l)
          then output_lines ++ [EmptyString] ++ page_lines
          else output_lines ++ page_lines
      | None => output_lines ++ page_lines
      end
  end.

(** The last loop: consecutive blank lines become one. *)
Definition normalize_step (normalized : list string) (line : string)
    : list string :=
  match last normalized with
  | Some EmptyString =>
      if Py.is_empty line then normalized else normalized ++ [line]
  | _ => normalized ++ [line]
  end.

Definition close_output (normalized : list string) : list string :=
  match last normalized with
  | Some l =>
      if negb (Py.is_empty l) then normalized ++ [EmptyString]
      else normalized
  | None => normalized
  end.

(** [collect_text_lines], from the pages that [extract_pages] yields. *)
Definition collect_text_lines (layouts : list page_layout)
    (config : ExtractionConfig) : list string :=
  let st := fold_left (collect_page config) layouts collect_init in
  let min_rep := threshold config (total_pages st) in
  let header_drop := drop_set (header_counts st) min_rep in
  let footer_drop := drop_set (footer_counts st) min_rep in
  let output_lines :=
    fold_left (emit_page config header_drop footer_drop) (pages st) [] in
  close_output (fold_left normalize_step output_lines []).

(** [DEFAULT_SKIP_PATTERNS], each compiled with [re.IGNORECASE] and used
    through [search]. *)

(** [\d+] at the head of [s]: the rest of the text after the digits. *)
Definition eat_digits (s : string) : option string :=
  match s with
  | String c _ =>
      if Py.isdigit c then Some (Py.lstrip_with Py.isdigit s) else None
  | EmptyString => None
  end.

(** [$]: the end of the text, or a newline that ends it. *)
Definition at_end (s : string) : bool :=
  Py.is_empty s || String.eqb s (String (Py.chr 10) EmptyString).

(** [^\d+$] *)
Definition bare_page_number (s : string) : bool :=
  match eat_digits s with
  | Some r => at_end r
  | None => false
  end.

(** [\s*/\s*\d+$] *)
Definition slash_total (s : string) : bool :=
  match Py.lstrip s with
  | String "/" r =>
      match eat_digits (Py.lstrip r) with
      | Some r' => at_end r'
      | None => false
      end
  | _ => false
  end.

(** [^page\s+\d+(\s*/\s*\d+)?$] *)
Definition page_n (s : string) : bool :=
  match Epub.starts_with_nocase "page" s with
  | Some r =>
      if PdfCleanup.starts_with_space r then
        match eat_digits (Py.lstrip r) with
        | Some r' => slash_total r' || at_end r'
        | None => false
        end
      else false
  | None => false
  end.

(** [^\d+\s*/\s*\d+$] *)
Definition n_of_m (s : string) : bool :=
  match eat_digits s with
  | Some r => slash_total r
  | None => false
  end.

(** [^isbn\b.*$] *)
Definition isbn_line (s : string) : bool :=
  match Epub.starts_with_nocase "isbn" s with
  | Some r =>
      let boundary :=
        match r with
        | String c _ => negb (Py.isword c)
        | EmptyString => true
        end in
      let r' := if Py.endswith r (String (Py.chr 10) EmptyString)
                then Py.drop_last r else r in
      boundary && negb (Py.any_char Epub.is_newline r')
  | None => false
  end.

Definition DEFAULT_SKIP_PATTERNS : list (string -> bool) :=
  [bare_page_number; page_n; n_of_m; isbn_line].

End PdfToMarkdown.

(** ** tools/acrobat-pdf-markdown_cleanup.py *)

Module Acrobat.

(** [slugify_heading] *)
Definition slug_keeps (c : ascii) : bool :=
  Py.is_ascii_lower c || Py.isdigit c || Py.isspace c || Py.is_char "-" c.

Definition slugify_heading (title : string) : string :=
  let slug := Py.lower title in
  let slug := Py.remove_chars (fun c => negb (slug_keeps c)) slug in
  let slug := Py.collapse_runs Py.isspace "-" (Py.strip slug) in
  Py.collapse_runs (Py.is_char "-") "-" slug.

(** [heading_re.match(line)]: the pattern is [## ], not followed by
    [#], then a group of one or more characters, as few as possible,
    then [\s*] and [$].  The result is the group once stripped, which
    is all that the function uses of it. *)
Definition heading_re_match (line : string) : option string :=
  match line with
  | String "#" (String "#" (String " " rest)) =>
      match rest with
      | EmptyString => None
      | String c _ =>
          if Py.is_char "#" c then None
          else
            let kept := Py.rstrip rest in
            if Py.is_empty kept
            then (if Epub.is_newline c then None else Some EmptyString)
            else if Py.any_char Epub.is_newline kept then None
            else Some (Py.strip rest)
      end
  | _ => None
  end.

(** The first loop of [insert_table_of_contents]: the titles and
    slugs of the level-2 headings. *)
Fixpoint collect_headings (lines : list string) : list (string * string) :=
  match lines with
  | [] => []
  | line :: rest =>
      match heading_re_match line with
      | Some title =>
          if String.eqb (Py.lower title) "table of contents"
          then collect_headings rest
          else (title, slugify_heading title) :: collect_headings rest
      | None => collect_headings rest
      end
  end.

(** [line.strip().lower() == "## table of contents"] *)
Definition is_toc_line (line : string) : bool :=
  String.eqb (Py.lower (Py.strip line)) "## table of contents".

(** The search for [toc_end]: the lines from the next line that starts
    with [## ] on. *)
Fixpoint skip_to_level_2 (lines : list string) : list string :=
  match lines with
  | [] => []
  | l :: rest => if Py.startswith l "## " then lines else skip_to_level_2 rest
  end.

(** The branch taken when [toc_start] is found:
    [lines[:toc_start] + toc_lines + lines[toc_end:]]; [None] when no
    line is a table-of-contents line. *)
Fixpoint replace_toc (lines toc_lines : list string) : option (list string) :=
  match lines with
  | [] => None
  | l :: rest =>
      if is_toc_line l then Some (toc_lines ++ skip_to_level_2 rest)
      else match replace_toc rest toc_lines with
           | Some r => Some (l :: r)
           | None => None
           end
  end.

(** The branch taken otherwise: [insert_at] is the index of the first
    line that starts a heading, or of the last line. *)
Fixpoint find_insert_at (idx : nat) (lines : list string) : nat :=
  match lines with
  | [] => idx
  | line :: rest =>
      let stripped := Py.strip line in
      if Py.startswith stripped "#"
         && negb (String.eqb (Py.lower stripped) "# table of contents")
      then idx
      else match rest with
           | [] => idx
           | _ => find_insert_at (S idx) rest
           end
  end.

(** [insert_table_of_contents], on the lines of the text; [None]
    stands for the early return of the text as it is. *)
Definition insert_table_of_contents_lines (lines : list string)
    : option (list string) :=
  match collect_headings lines with
  | [] => None
  | headings =>
      let toc_lines :=
        ["## Table of Contents"; EmptyString] ++ map Epub.toc_item headings
        ++ [EmptyString] in
      match replace_toc lines toc_lines with
      | Some r => Some r
      | None =>
          let insert_at := find_insert_at 0 lines in
          Some (take (insert_at + 1) lines ++ [EmptyString] ++ toc_lines
                ++ drop (insert_at + 1) lines)
      end
  end.

(** [insert_table_of_contents] *)
Definition insert_table_of_contents (text : string) : string :=
  match insert_table_of_contents_lines (Py.splitlines text) with
  | Some lines => Py.join (String (Py.chr 10) EmptyString) lines
  | None => text
  end.

End Acrobat.

(** ** tools/epub_markdown_cleanup.py: the passes over the body lines *)

Module EpubPasses.

(** The test for a fence marker that the passes share:
    [line.lstrip()] starts with three backticks or three tildes. *)
Definition is_fence (line : string) : bool :=
  let stripped := Py.lstrip line in
  Py.startswith stripped "```" || Py.startswith stripped "~~~".

(** The loop that the fence-aware passes share: a fence marker toggles
    the state and is copied, a line inside a fence is copied, any other
    line is rewritten by [rewrite]; [test] is the pass's test for a
    fence marker. *)
Fixpoint fenced_map (test : string -> bool) (rewrite : string -> string)
    (in_code_block : bool) (lines : list string) : list string :=
  match lines with
  | [] => []
  | line :: rest =>
      if test line
      then line :: fenced_map test rewrite (negb in_code_block) rest
      else if in_code_block
      then line :: fenced_map test rewrite in_code_block rest
      else rewrite line :: fenced_map test rewrite in_code_block rest
  end.

(** [DASH_RULE_PATTERN.match]: five hyphens or more, up to the end. *)
Definition DASH_RULE_PATTERN_match (s : string) : bool :=
  let rest := Py.lstrip_with (Py.is_char "-") s in
  (5 <=? String.length s - String.length rest) && PdfToMarkdown.at_end rest.

(** [convert_dash_rules] *)
Definition dash_rule_line (line : string) : string :=
  if DASH_RULE_PATTERN_match (Py.strip line) then "<hr>" else line.

Definition convert_dash_rules (lines : list string) : list string :=
  fenced_map is_fence dash_rule_line false lines.

(** [pattern.search(line)] for a pattern that is a literal text,
    compared without regard to case, and a test on what follows it. *)
Fixpoint search_nocase (literal : string) (after : string -> bool)
    (s : string) : bool :=
  match Epub.starts_with_nocase literal s with
  | Some rest => after rest
  | None => false
  end
  || match s with
     | EmptyString => false
     | String _ s' => search_nocase literal after s'
     end.

(** [\b] after a word character: the end, or a character that is no
    word character. *)
Definition word_ends (rest : string) : bool :=
  match rest with
  | EmptyString => true
  | String c _ => negb (Py.isword c)
  end.

(** [SVG_OPEN_PATTERN.search] and [SVG_CLOSE_PATTERN.search] *)
Definition SVG_OPEN_PATTERN_search (line : string) : bool :=
  search_nocase "<svg" word_ends line.

Definition SVG_CLOSE_PATTERN_search (line : string) : bool :=
  search_nocase "</svg>" (fun _ => true) line.

(** [remove_svg_blocks]: [in_svg] is the state of the loop. *)
Fixpoint remove_svg_loop (in_svg : bool) (lines : list string) : list string :=
  match lines with
  | [] => []
  | line :: rest =>
      if negb in_svg && SVG_OPEN_PATTERN_search line
      then remove_svg_loop true rest
      else if in_svg
      then remove_svg_loop (negb (SVG_CLOSE_PATTERN_search line)) rest
      else line :: remove_svg_loop in_svg rest
  end.

Definition remove_svg_blocks (lines : list string) : list string :=
  remove_svg_loop false lines.

(** [HYPHEN_BULLET_PATTERN.match]: white space, a hyphen, white space
    and a character that is no white space. *)
Definition HYPHEN_BULLET_PATTERN_match (line : string) : bool :=
  match Py.lstrip line with
  | String "-" rest =>
      PdfCleanup.starts_with_space rest && negb (Py.is_empty (Py.lstrip rest))
  | _ => false
  end.

(** [ensure_blank_line_after_hyphen_lists]: the empty line goes after a
    bullet outside a fence that is the last line, or that is followed
    by a line with text that is no bullet, when the line just appended
    (the bullet itself) has text. *)
Definition wants_blank_after (rest : list string) : bool :=
  match rest with
  | [] => true
  | next_line :: _ =>
      negb (Py.is_empty (Py.strip next_line))
      && negb (HYPHEN_BULLET_PATTERN_match next_line)
  end.

Fixpoint ensure_blank_loop (in_code_block : bool) (lines : list string)
    : list string :=
  match lines with
  | [] => []
  | line :: rest =>
      if is_fence line
      then line :: ensure_blank_loop (negb in_code_block) rest
      else if in_code_block
      then line :: ensure_blank_loop in_code_block rest
      else if HYPHEN_BULLET_PATTERN_match line && wants_blank_after rest
              && negb (Py.is_empty (Py.strip line))
      then line :: EmptyString :: ensure_blank_loop in_code_block rest
      else line :: ensure_blank_loop in_code_block rest
  end.

Definition ensure_blank_line_after_hyphen_lists (lines : list string)
    : list string :=
  ensure_blank_loop false lines.

(** [str.isalpha] and [str.islower] on one character of the Latin-1
    range. *)
Definition isalpha (c : ascii) : bool :=
  Py.is_ascii_alpha c || (Py.code c =? 170) || (Py.code c =? 181)
  || (Py.code c =? 186) || Py.in_range 192 214 c || Py.in_range 216 246 c
  || Py.in_range 248 255 c.

Definition islower (c : ascii) : bool :=
  Py.is_ascii_lower c || (Py.code c =? 170) || (Py.code c =? 181)
  || (Py.code c =? 186) || Py.in_range 223 246 c || Py.in_range 248 255 c.

(** The test for a fence marker of [bold_uppercase_lines]:
    [line.lstrip(" ")] starts with three backticks or three tildes. *)
Definition is_fence_after_spaces (line : string) : bool :=
  let stripped_leading := Py.lstrip_with (Py.is_char " ") line in
  Py.startswith stripped_leading "```" || Py.startswith stripped_leading "~~~".

(** [stripped.startswith(('#', '-', '*', '+', '>'))] *)
Definition starts_with_marker (stripped : string) : bool :=
  match stripped with
  | String c _ =>
      Py.is_char "#" c || Py.is_char "-" c || Py.is_char "*" c
      || Py.is_char "+" c || Py.is_char ">" c
  | EmptyString => false
  end.

(** [bold_uppercase_lines]: what the loop appends for a line outside a
    fence. *)
Definition bold_line (line : string) : string :=
  let stripped := Py.strip line in
  if Py.is_empty stripped then line
  else if starts_with_marker stripped then line
  else if Py.startswith stripped "**" && Py.endswith stripped "**"
          && (4 <? String.length stripped) then line
  else if Py.startswith stripped "<" && Py.endswith stripped ">" then line
  else if Py.startswith stripped "`" && Py.endswith stripped "`" then line
  else
    let letters := Py.remove_chars (fun c => negb (isalpha c)) stripped in
    if Py.is_empty letters then line
    else if Py.any_char islower letters then line
    else
      let prefix_len :=
        String.length line
        - String.length (Py.lstrip_with (Py.is_char " ") line) in
      let prefix := String.substring 0 prefix_len line in
      prefix +:+ ("**" +:+ stripped +:+ "**").

Definition bold_uppercase_lines (lines : list string) : list string :=
  fenced_map is_fence_after_spaces bold_line false lines.

(** [aggregate_styles]: a class that the map lacks adds nothing. *)
Definition aggregate_styles (class_names : list string)
    (style_map : gmap string (gset string)) : gset string :=
  fold_left (fun styles class_name =>
               styles ∪ default ∅ (style_map !! class_name))
    class_names ∅.

(** [apply_inline_styles] *)
Definition wrap_tag (tag : string) (styles : gset string) (inner : string)
    : string :=
  if bool_decide (tag ∈ styles)
  then "<" +:+ tag +:+ ">" +:+ inner +:+ "</" +:+ tag +:+ ">"
  else inner.

Definition apply_inline_styles (text : string) (styles : gset string)
    : string :=
  if bool_decide (styles = ∅) then text
  else
    let emphasis :=
      if bool_decide ("bold" ∈ styles) && bool_decide ("italic" ∈ styles)
      then "***"
      else if bool_decide ("bold" ∈ styles) then "**"
      else if bool_decide ("italic" ∈ styles) then "*"
      else EmptyString in
    let inner :=
      if Py.is_empty emphasis then text
      else emphasis +:+ text +:+ emphasis in
    wrap_tag "sub" styles (wrap_tag "sup" styles inner).

End EpubPasses.

(** ** tools/acrobat-pdf-markdown_cleanup.py: the passes over the text *)

Module AcrobatPasses.

Definition is_cr (c : ascii) : bool := Py.code c =? 13.

(** [text.replace("\r\n", "\n")] *)
Fixpoint replace_crlf (s : string) : string :=
  match s with
  | EmptyString => EmptyString
  | String c s' =>
      match s' with
      | String c' s'' =>
          if is_cr c && Epub.is_newline c'
          then String c' (replace_crlf s'')
          else String c (replace_crlf s')
      | EmptyString => String c EmptyString
      end
  end.

(** [re.sub(r"\n{3,}", "\n\n", text)]: [run] counts the newlines of
    the run being read: its first two are kept. *)
Fixpoint limit_newlines (run : nat) (s : string) : string :=
  match s with
  | EmptyString => EmptyString
  | String c s' =>
      if Epub.is_newline c
      then (if run <? 2 then String c (limit_newlines (S run) s')
            else limit_newlines run s')
      else String c (limit_newlines 0 s')
  end.

(** [collapse_blank_lines] *)
Definition collapse_blank_lines (text : string) : string :=
  let text := replace_crlf text in
  let text := Py.replace_char (Py.chr 13) (String (Py.chr 10) EmptyString) text in
  limit_newlines 0 text.

(** [collapse_spaces]: [fix_line] is [re.sub(r" {2,}", " ", line)]. *)
Definition fix_line (line : string) : string :=
  Py.collapse_runs (Py.is_char " ") " " line.

Definition collapse_spaces (text : string) : string :=
  Py.join (String (Py.chr 10) EmptyString) (map fix_line (Py.splitlines text)).

End AcrobatPasses.

(** * Notions used to state the properties *)

Module Notions.

(** A line that the loop of [unwrap_paragraphs] puts into its buffer
    when it is outside a fence: no fence marker, not blank, and a
    paragraph candidate. *)
Definition reflow_candidate (line : string) : bool :=
  let current := Py.rstrip line in
  negb (PdfCleanup.starts_fence (Py.lstrip current))
  && negb (Py.is_empty (Py.strip current))
  && PdfCleanup.is_paragraph_candidate current.

(** The fence state that a pass reaches after the lines [lines], when
    it starts in the state [code] and [test] is its test for a fence
    marker. *)
Fixpoint fence_state (test : string -> bool) (code : bool)
    (lines : list string) : bool :=
  match lines with
  | [] => code
  | l :: rest => fence_state test (if test l then negb code else code) rest
  end.

(** The line at index [i] is met while the pass is inside a fence. *)
Definition inside_fence (test : string -> bool) (lines : list string)
    (i : nat) : bool :=
  fence_state test false (take i lines).

(** The slugs that [demote_headings] assigns, in document order. *)
Definition assigned_slugs (lines : list string) : list string :=
  map snd (Epub.demote_headings lines).1.2.



(** The shapes that [normalize_isbn] accepts: thirteen digits, or nine
    digits and a digit or a capital X. *)
Definition is_digit_or_X (c : ascii) : bool :=
  Py.isdigit c || Py.is_char "X" c.

Definition is_isbn13 (r : string) : bool :=
  (String.length r =? 13) && Py.all_chars Py.isdigit r.

Definition is_isbn10 (r : string) : bool :=
  (String.length r =? 10)
  && Py.all_chars Py.isdigit (String.substring 0 9 r)
  && Py.all_chars is_digit_or_X (String.substring 9 1 r).

(** The entries that the first loop of [collect_text_lines] records,
    all pages together, each with its region tag. *)
Definition tagged_entries (config : PdfToMarkdown.ExtractionConfig)
    (layouts : list PdfToMarkdown.page_layout)
    : list (string * PdfToMarkdown.region) :=
  concat (PdfToMarkdown.pages
            (fold_left (PdfToMarkdown.collect_page config) layouts
               PdfToMarkdown.collect_init)).

(** How often [text] occurs with the tag [reg] among the entries. *)
Fixpoint occurrences (reg : PdfToMarkdown.region) (text : string)
    (entries : list (string * PdfToMarkdown.region)) : nat :=
  match entries with
  | [] => 0
  | (t, r) :: rest =>
      (if PdfToMarkdown.region_eqb r reg && String.eqb t text then 1 else 0)
      + occurrences reg text rest
  end.

(** The command line's defaults: margins of 36 points, the automatic
    threshold and the default skip patterns. *)
Definition default_config : PdfToMarkdown.ExtractionConfig :=
  {| PdfToMarkdown.margin_top := 36 # 1;
     PdfToMarkdown.margin_bottom := 36 # 1;
     PdfToMarkdown.min_repeating := 0;
     PdfToMarkdown.skip_patterns := PdfToMarkdown.DEFAULT_SKIP_PATTERNS |}.

Definition text_line (text : string) (bottom top : Z)
    : PdfToMarkdown.layout_item :=
  PdfToMarkdown.TextLine
    {| PdfToMarkdown.get_text := text +:+ String (Py.chr 10) EmptyString;
       PdfToMarkdown.y0 := bottom # 1;
       PdfToMarkdown.y1 := top # 1 |}.

(** Page [n] of a ten-page extraction: a body line of its own and,
    on the first eight pages, the line [Chapter Footer] in the bottom
    margin. *)
Definition sample_page (n : nat) : PdfToMarkdown.page_layout :=
  {| PdfToMarkdown.height := Some (792 # 1);
     PdfToMarkdown.elements :=
       [PdfToMarkdown.LTTextContainer
          ([text_line ("Body of page " +:+ Py.str_nat n) 400 412]
           ++ (if n <=? 8 then [text_line "Chapter Footer" 20 30] else []))] |}.

Definition sample_pages : list PdfToMarkdown.page_layout :=
  map sample_page (seq 1 10).

(** The tests for a fence marker of [unwrap_paragraphs] and of
    [collapse_internal_whitespace]. *)
Definition reflow_fence_test (line : string) : bool :=
  PdfCleanup.starts_fence (Py.lstrip (Py.rstrip line)).


Definition has_text (line : string) : Prop := line <> EmptyString.

(** The block that the Acrobat tool computes for the lines. *)
Definition acrobat_toc_lines (lines : list string) : list string :=
  ["## Table of Contents"; EmptyString]
  ++ map Epub.toc_item (Acrobat.collect_headings lines) ++ [EmptyString].

(** The test of [demote_headings] for a heading that gets a slug: its
    level after demotion is 2 and its title is not that of a table of
    contents. *)
Definition takes_slug (line : string) : bool :=
  match Epub.HEADING_PATTERN_match line with
  | Some (level, group2) =>
      ((if level =? 1 then 2 else level) =? 2)
      && negb (Epub.is_toc_title (Py.strip group2))
  | None => false
  end.

(** The number of such headings outside fences, [code] being the fence
    state at the first line. *)
Fixpoint count_slugged (code : bool) (lines : list string) : nat :=
  match lines with
  | [] => 0
  | l :: rest =>
      if Epub.is_fence_line l then count_slugged (negb code) rest
      else (if negb code && takes_slug l then 1 else 0)
           + count_slugged code rest
  end.

(** The counters of [collect_text_lines] agree with the entries
    recorded so far. *)
Definition counts_agree (hc fc : gmap string nat)
    (entries : list (string * PdfToMarkdown.region)) : Prop :=
  forall t,
    PdfToMarkdown.count_of hc t = occurrences PdfToMarkdown.header t entries
    /\ PdfToMarkdown.count_of fc t
       = occurrences PdfToMarkdown.footer t entries.

(** The invariant of the loops within a page, [base] being the entries
    of the pages before it. *)
Definition page_inv (base : list (string * PdfToMarkdown.region))
    (st : PdfToMarkdown.page_state) : Prop :=
  counts_agree (PdfToMarkdown.page_header_counts st)
    (PdfToMarkdown.page_footer_counts st)
    (base ++ PdfToMarkdown.page_entries st).

(** The invariant of the loop over the pages, after [n] pages. *)
Definition collect_inv (n : nat) (st : PdfToMarkdown.collect_state) : Prop :=
  counts_agree (PdfToMarkdown.header_counts st)
    (PdfToMarkdown.footer_counts st) (concat (PdfToMarkdown.pages st))
  /\ PdfToMarkdown.total_pages st = n.

(** No two consecutive lines are both empty. *)
Fixpoint no_blank_pair (lines : list string) : bool :=
  match lines with
  | a :: rest =>
      match rest with
      | b :: _ => negb (Py.is_empty a && Py.is_empty b) && no_blank_pair rest
      | [] => true
      end
  | [] => true
  end.

(** The line has no white space at its end. *)
Definition trimmed_right (line : string) : Prop := Py.rstrip line = line.

(** The text has no white space at either end. *)
Definition stripped (s : string) : Prop :=
  Py.lstrip s = s /\ Py.rstrip s = s.

(** The lines that [normalise_text] joins: its three passes, one after
    the other, on the lines of the text. *)
Definition normalised_lines (text : string) : list string :=
  PdfCleanup.collapse_blank_lines
    (PdfCleanup.collapse_internal_whitespace
       (PdfCleanup.unwrap_paragraphs
          (Py.splitlines (Py.replace_char (Py.chr 160) " " text)))).

(** The characters of a slug: word characters and the hyphen. *)
Definition is_hyphen (c : ascii) : bool := Py.is_char "-" c.

Definition is_slug_char (c : ascii) : bool := Py.isword c || is_hyphen c.

(** No two neighbouring characters are both in the class [p]. *)
Fixpoint no_adjacent (p : ascii -> bool) (s : string) : bool :=
  match s with
  | String a rest =>
      match rest with
      | String b _ => negb (p a && p b) && no_adjacent p rest
      | EmptyString => true
      end
  | EmptyString => true
  end.

(** The first character, the last character, is in the class [p]. *)
Definition first_is (p : ascii -> bool) (s : string) : bool :=
  match s with
  | String c _ => p c
  | EmptyString => false
  end.

Fixpoint last_is (p : ascii -> bool) (s : string) : bool :=
  match s with
  | String c rest =>
      match rest with
      | EmptyString => p c
      | String _ _ => last_is p rest
      end
  | EmptyString => false
  end.

(** The line is no level-1 heading: when [HEADING_PATTERN] matches it,
    the level is 2 or more. *)
Definition no_level_1 (line : string) : Prop :=
  forall (level : nat) (group2 : string),
    Epub.HEADING_PATTERN_match line = Some (level, group2) -> 2 <= level.

(** What the loop of [parse_front_matter_block] keeps true: the keys of
    the dictionary are the captured order, no key twice, every quoted
    key is among them, and every key is a non-empty stripped text. *)
Definition parse_inv (m : Epub.dict) (o : list string) (q : gset string)
    : Prop :=
  Epub.dict_keys m = o
  /\ NoDup o
  /\ (forall k, k ∈ q -> k ∈ o)
  /\ Forall (fun k => k <> EmptyString /\ Py.strip k = k) o.

(** The two filters of [collect_text_lines] on one entry, read off the
    entries: the entry is body-tagged or its text occurs with its tag
    fewer than [thr] times, and the text matches no skip pattern. *)
Definition passes (config : PdfToMarkdown.ExtractionConfig) (thr : nat)
    (entries : list (string * PdfToMarkdown.region))
    (entry : string * PdfToMarkdown.region) : bool :=
  (PdfToMarkdown.region_eqb entry.2 PdfToMarkdown.body
   || (occurrences entry.2 entry.1 entries <? thr))
  && negb (PdfToMarkdown.should_skip_text entry.1
             (PdfToMarkdown.skip_patterns config)).

(** The texts of the entries that pass, in the order of the pages and
    of the lines on each page. *)
Definition retained_texts (config : PdfToMarkdown.ExtractionConfig)
    (layouts : list PdfToMarkdown.page_layout) : list string :=
  let entries := tagged_entries config layouts in
  let thr := PdfToMarkdown.threshold config (length layouts) in
  map fst (filter (fun e => passes config thr entries e = true) entries).

(** The two lines that meet where the list [a] is followed by [b] are
    not both empty. *)
Definition junction (a b : list string) : bool :=
  match last a, head b with
  | Some x, Some y => negb (Py.is_empty x && Py.is_empty y)
  | _, _ => true
  end.

(** Lines separated by single empty lines: no two empty lines in a row,
    and no empty line first or last. *)
Definition tidy (lines : list string) : Prop :=
  no_blank_pair lines = true
  /\ (forall x, head lines = Some x -> x <> EmptyString)
  /\ (forall x, last lines = Some x -> x <> EmptyString).

(** No run of characters of the class [p] is longer than [k]; [run]
    is the length of the run that ends before [s]. *)
Fixpoint bounded_runs (p : ascii -> bool) (k run : nat) (s : string) : bool :=
  match s with
  | EmptyString => true
  | String c s' =>
      if p c then (S run <=? k) && bounded_runs p k (S run) s'
      else bounded_runs p k 0 s'
  end.

Definition runs_at_most (p : ascii -> bool) (k : nat) (s : string) : bool :=
  bounded_runs p k 0 s.

(** No hyphen bullet outside a fence is the last line or is followed by
    a line with text that is no bullet; [code] is the fence state at the
    first line. *)
Fixpoint bullets_closed (code : bool) (lines : list string) : bool :=
  match lines with
  | [] => true
  | line :: rest =>
      if EpubPasses.is_fence line then bullets_closed (negb code) rest
      else if code then bullets_closed code rest
      else (negb (EpubPasses.HYPHEN_BULLET_PATTERN_match line)
            || negb (EpubPasses.wants_blank_after rest))
           && bullets_closed code rest
  end.

(** The text is empty or its last character is no line boundary of
    [str.splitlines]. *)
Fixpoint open_ended (s : string) : bool :=
  match s with
  | EmptyString => true
  | String c EmptyString => negb (Py.is_linebreak c)
  | String _ s' => open_ended s'
  end.

(** The characters of an anchor of the Acrobat tool: an ASCII small
    letter, a digit or a hyphen. *)
Definition is_anchor_char (c : ascii) : bool :=
  Py.is_ascii_lower c || Py.isdigit c || is_hyphen c.

(** A key that [serialize_front_matter] writes so that
    [parse_front_matter_block] reads it back: not empty, stripped,
    without a colon, and no comment or list item when it starts a
    line. *)
Definition plain_key (k : string) : bool :=
  negb (Py.is_empty k) && String.eqb k (Py.strip k)
  && negb (Py.contains_char ":" k)
  && negb (Py.startswith k "#") && negb (Py.startswith k "- ").

(** An entry that survives the round trip through the front matter
    block, for the set [q] of quoted keys: a scalar holds no double
    quote and is listed in [q] when it needs quotes; a list is not
    listed in [q] and none of its items needs quotes. *)
Definition plain_entry (q : gset string) (e : string * Epub.value) : Prop :=
  plain_key e.1 = true
  /\ match e.2 with
     | Epub.VStr s =>
         Py.contains_char (Py.chr 34) s = false
         /\ (Epub.needs_quotes s = true -> e.1 ∈ q)
     | Epub.VList items =>
         (e.1 ∉ q)
         /\ Forall (fun item => Epub.needs_quotes item = false) items
     end.

(** The lines that [serialize_front_matter] writes for an entry. *)
Definition entry_lines (q : gset string) (e : string * Epub.value)
    : list string :=
  match e.2 with
  | Epub.VList items =>
      (e.1 +:+ ":")
        :: map (fun item => "  - " +:+ Epub.format_scalar_value item false)
             items
  | Epub.VStr s =>
      [e.1 +:+ ": " +:+ Epub.format_scalar_value s (bool_decide (e.1 ∈ q))]
  end.

(** After an identifier, the text up to the next character that is
    none of the digits, [X], [x], white space and the hyphen holds
    white space and hyphens only: the group of [ISBN_PATTERN] cannot
    run on into it. *)
Fixpoint quiet_after (s : string) : bool :=
  match s with
  | EmptyString => true
  | String c s' =>
      if Epub.is_isbn_char c then false
      else if Py.isspace c || Py.is_char "-" c then quiet_after s'
      else true
  end.

End Notions.

(** * Properties *)

(** ** Facts about the string operations *)

Section StringFacts.

Implicit Types (s t p : string) (c : ascii).

Lemma append_nil s : EmptyString +:+ s = s.
Proof. reflexivity. Qed.

Lemma append_cons c s t : String c s +:+ t = String c (s +:+ t).
Proof. reflexivity. Qed.

Lemma append_empty_r s : s +:+ EmptyString = s.
Proof.
  induction s as [|c s IH]; [done |]. by rewrite append_cons, IH.
Qed.

Lemma append_assoc s t p : (s +:+ t) +:+ p = s +:+ (t +:+ p).
Proof.
  induction s as [|c s IH]; [done |]. by rewrite !append_cons, IH.
Qed.

Lemma is_empty_true s : Py.is_empty s = true <-> s = EmptyString.
Proof. destruct s; simpl; split; congruence. Qed.

Lemma is_empty_false s : Py.is_empty s = false <-> s <> EmptyString.
Proof. destruct s; simpl; split; congruence. Qed.

Lemma is_empty_append s t :
  Py.is_empty (s +:+ t) = Py.is_empty s && Py.is_empty t.
Proof. destruct s; done. Qed.

Lemma append_last_inj s t c1 c2 :
  s +:+ String c1 EmptyString = t +:+ String c2 EmptyString ->
  s = t /\ c1 = c2.
Proof.
  revert t. induction s as [|a s IH]; intros [|b t];
    rewrite ?append_cons, ?append_nil; intros H.
  - by inversion H.
  - inversion H as [[Ha Hs]]. destruct t; discriminate.
  - inversion H as [[Ha Hs]]. destruct s; discriminate.
  - inversion H as [[Ha Hs]]. destruct (IH _ Hs) as [-> ->]. done.
Qed.

Lemma endswith_empty suf :
  Py.endswith EmptyString suf = String.eqb EmptyString suf.
Proof. unfold Py.endswith. apply orb_false_r. Qed.

Lemma endswith_cons c s suf :
  Py.endswith (String c s) suf
  = String.eqb (String c s) suf || Py.endswith s suf.
Proof. reflexivity. Qed.

Lemma endswith_spec s suf :
  Py.endswith s suf = true <-> exists p, s = p +:+ suf.
Proof.
  induction s as [|a s IH].
  - rewrite endswith_empty, String.eqb_eq. split.
    + intros <-. by exists EmptyString.
    + intros [[|b p] H]; [done | discriminate].
  - rewrite endswith_cons, orb_true_iff, String.eqb_eq, IH. split.
    + intros [<- | [p ->]]; [by exists EmptyString | by exists (String a p)].
    + intros [[|b p] H]; [by left |].
      rewrite append_cons in H. inversion H; subst. right. by exists p.
Qed.

Lemma endswith_false s suf :
  Py.endswith s suf = false <-> ~ exists p, s = p +:+ suf.
Proof.
  rewrite <- endswith_spec. destruct (Py.endswith s suf); split; done.
Qed.

Lemma drop_last_append s c : Py.drop_last (s +:+ String c EmptyString) = s.
Proof.
  induction s as [|a s IH]; [done |].
  rewrite append_cons. simpl. rewrite IH. destruct s; done.
Qed.

End StringFacts.

(** ** Joining paragraph fragments ([combine_paragraph_lines]) *)

Section Combine.

Import PdfCleanup.

Lemma combine_paragraph_lines_snoc (lines : list string) (part : string) :
  combine_paragraph_lines (lines ++ [part])
  = combine_step (combine_paragraph_lines lines) part.
Proof. unfold combine_paragraph_lines. by rewrite fold_left_app. Qed.

Lemma single_hyphen_end (pre : string) :
  Py.endswith pre "-" = false ->
  Py.endswith (pre +:+ "-") "-" = true
  /\ Py.endswith (pre +:+ "-") "--" = false.
Proof.
  intros Hpre. split.
  - apply endswith_spec. by exists pre.
  - apply endswith_false. intros [p Hp].
    change "--" with ("-" +:+ "-") in Hp.
    rewrite <- append_assoc in Hp.
    apply append_last_inj in Hp as [Hp _].
    apply endswith_false in Hpre. apply Hpre. by exists p.
Qed.

Lemma double_hyphen_end (s : string) :
  Py.endswith s "--" = true -> Py.endswith s "-" = true.
Proof.
  rewrite !endswith_spec. intros [p ->]. exists (p +:+ "-").
  by rewrite append_assoc.
Qed.

(** C8, the claim as the specification words it, fails: the text
    accumulated so far ends with a hyphen, and yet a space is put
    before the next fragment, because the text ends with two hyphens. *)
Lemma combine_double_hyphen_inserts_space :
  Py.endswith "a--" "-" = true
  /\ combine_paragraph_lines ["a--"; "b"] = "a-- b"
  /\ combine_paragraph_lines ["a--"; "b"] <> "a--b".
Proof. repeat split; [vm_compute; done]. Qed.

(** C8, amended: when a fragment is joined to a non-empty accumulated
    text, (1) a text that ends with exactly one hyphen loses that hyphen
    and the fragment follows it with no space between; (2) a text that
    ends with two hyphens, and (3) a text that ends with no hyphen, are
    followed by exactly one space and the fragment. *)
Theorem combine_step_joins (combined part : string) :
  Py.strip part <> EmptyString ->
  combined <> EmptyString ->
  (forall pre, combined = pre +:+ "-" -> Py.endswith pre "-" = false ->
     combine_step combined part = pre +:+ Py.strip part)
  /\ (Py.endswith combined "--" = true ->
        combine_step combined part = combined +:+ " " +:+ Py.strip part)
  /\ (Py.endswith combined "-" = false ->
        combine_step combined part = combined +:+ " " +:+ Py.strip part).
Proof.
  intros Hchunk Hcomb. unfold combine_step.
  apply is_empty_false in Hchunk. apply is_empty_false in Hcomb.
  rewrite Hchunk, Hcomb. simpl negb. cbv iota.
  split; [| split].
  - intros pre -> Hpre.
    destruct (single_hyphen_end pre Hpre) as [-> ->]. simpl.
    by rewrite drop_last_append.
  - intros H2. rewrite H2, andb_false_r. done.
  - intros H1. rewrite H1. done.
Qed.

Lemma combine_step_joins_witness :
  combine_step "well-" " known " = "wellknown"
  /\ combine_step "a--" "b" = "a-- b"
  /\ combine_step "The cat sat" "on the mat." = "The cat sat on the mat.".
Proof.
  assert (H1 : Py.strip " known " <> EmptyString) by (vm_compute; done).
  assert (H2 : Py.strip "b" <> EmptyString) by (vm_compute; done).
  assert (H3 : Py.strip "on the mat." <> EmptyString) by (vm_compute; done).
  split; [| split].
  - apply (proj1 (combine_step_joins "well-" " known " H1 ltac:(done)) "well");
      reflexivity.
  - apply (proj1 (proj2 (combine_step_joins "a--" "b" H2 ltac:(done))));
      reflexivity.
  - apply (proj2 (proj2 (combine_step_joins "The cat sat" "on the mat." H3
                           ltac:(done)))); reflexivity.
Defined.

End Combine.

(** ** Paragraph reflow ([unwrap_paragraphs]) *)

Section Reflow.

Import PdfCleanup Notions.

Lemma combine_step_keeps_text (combined part : string) :
  Py.is_empty combined = false ->
  Py.is_empty (combine_step combined part) = false.
Proof.
  intros Hc. unfold combine_step.
  destruct (Py.is_empty (Py.strip part)) eqn:Hchunk; [done |].
  rewrite Hc. simpl negb. cbv iota.
  destruct (_ && _); rewrite !is_empty_append.
  - by rewrite Hchunk, andb_false_r.
  - by rewrite Hc.
Qed.

Lemma combine_step_takes_chunk (combined part : string) :
  Py.is_empty (Py.strip part) = false ->
  Py.is_empty (combine_step combined part) = false.
Proof.
  intros Hchunk. destruct (Py.is_empty combined) eqn:Hc.
  - unfold combine_step. by rewrite Hchunk, Hc.
  - by apply combine_step_keeps_text.
Qed.

Lemma fold_combine_keeps_text (lines : list string) (combined : string) :
  Py.is_empty combined = false ->
  Py.is_empty (fold_left combine_step lines combined) = false.
Proof.
  revert combined. induction lines as [|l lines IH]; intros combined Hc.
  - done.
  - simpl. apply IH. by apply combine_step_keeps_text.
Qed.

Lemma candidate_has_text (line : string) :
  is_paragraph_candidate line = true -> Py.is_empty (Py.strip line) = false.
Proof.
  unfold is_paragraph_candidate.
  by destruct (Py.is_empty (Py.strip line)).
Qed.

Lemma combine_candidates_has_text (lines : list string) :
  lines <> [] ->
  Forall (fun l => is_paragraph_candidate l = true) lines ->
  Py.is_empty (combine_paragraph_lines lines) = false.
Proof.
  destruct lines as [|l lines]; [done |]. intros _ Hall.
  apply Forall_cons in Hall as [Hl _].
  unfold combine_paragraph_lines. simpl.
  apply fold_combine_keeps_text, combine_step_takes_chunk.
  by apply candidate_has_text.
Qed.

(** Outside a fence, a run of candidate lines only fills the buffer. *)
Lemma unwrap_loop_buffers (buf : list string) (st : unwrap_state) :
  in_code_block st = false ->
  Forall (fun l => reflow_candidate l = true) buf ->
  unwrap_loop st buf
  = {| result := result st;
       buffer := buffer st ++ map Py.rstrip buf;
       in_code_block := false |}.
Proof.
  revert st. induction buf as [|l buf IH]; intros st Hcode Hall.
  - simpl. rewrite app_nil_r. destruct st; simpl in *. by subst.
  - apply Forall_cons in Hall as [Hl Hall].
    unfold reflow_candidate in Hl.
    apply andb_true_iff in Hl as [Hl Hcand].
    apply andb_true_iff in Hl as [Hfence Hblank].
    apply negb_true_iff in Hfence, Hblank.
    unfold unwrap_loop in *. simpl fold_left.
    assert (Hstep : unwrap_step st l
                    = {| result := result st;
                         buffer := buffer st ++ [Py.rstrip l];
                         in_code_block := in_code_block st |}).
    { unfold unwrap_step. by rewrite Hfence, Hcode, Hblank, Hcand. }
    rewrite Hstep, IH; [| by simpl | done].
    simpl. by rewrite <- app_assoc.
Qed.

Lemma rstrip_candidates (buf : list string) :
  Forall (fun l => reflow_candidate l = true) buf ->
  Forall (fun l => is_paragraph_candidate l = true) (map Py.rstrip buf).
Proof.
  intros Hall. apply Forall_map. eapply Forall_impl; [exact Hall |].
  intros l Hl. unfold reflow_candidate in Hl.
  by apply andb_true_iff in Hl as [_ Hl].
Qed.

(** C7: the two hard-wrapped lines [The cat sat] and [on the mat.]
    come out of the reflow pass as the single line
    [The cat sat on the mat.], and the text made of them comes out of
    [normalise_text] as that line; and in general, a non-empty run of
    consecutive paragraph-candidate lines met outside a fence with an
    empty buffer is joined into one paragraph, which the flush emits
    followed by exactly one blank line (a document that consists of
    such a run alone comes out as that one paragraph). *)
Theorem unwrap_paragraphs_reflows :
  unwrap_paragraphs ["The cat sat"; "on the mat."]
  = ["The cat sat on the mat."]
  /\ normalise_text
       ("The cat sat" +:+ String (Py.chr 10) EmptyString +:+ "on the mat.")
     = "The cat sat on the mat." +:+ String (Py.chr 10) EmptyString
  /\ forall (st : unwrap_state) (buf : list string),
       buffer st = [] ->
       in_code_block st = false ->
       buf <> [] ->
       Forall (fun l => reflow_candidate l = true) buf ->
       let paragraph := combine_paragraph_lines (map Py.rstrip buf) in
       result (flush_buffer (unwrap_loop st buf))
       = result st ++ [paragraph; EmptyString]
       /\ buffer (flush_buffer (unwrap_loop st buf)) = []
       /\ (st = unwrap_init -> unwrap_paragraphs buf = [paragraph]).
Proof.
  split; [by vm_compute |]. split; [by vm_compute |].
  intros st buf Hbuf Hcode Hne Hall paragraph.
  assert (Htext : Py.is_empty paragraph = false).
  { apply combine_candidates_has_text; [| by apply rstrip_candidates].
    destruct buf; [done | discriminate]. }
  assert (Hflush : flush_buffer (unwrap_loop st buf)
                   = {| result := result st ++ [paragraph; EmptyString];
                        buffer := [];
                        in_code_block := false |}).
  { rewrite unwrap_loop_buffers by done. rewrite Hbuf. simpl app.
    unfold flush_buffer. simpl buffer.
    destruct (map Py.rstrip buf) as [|b bs] eqn:Hmap.
    - destruct buf; [done | discriminate].
    - fold paragraph. rewrite <- Hmap. fold paragraph.
      by rewrite Htext. }
  rewrite Hflush. simpl. repeat split.
  intros ->. unfold unwrap_paragraphs. by rewrite Hflush.
Qed.

Lemma unwrap_paragraphs_reflows_witness :
  unwrap_paragraphs ["The cat sat  "; "on the mat."; "  And so on"]
  = ["The cat sat on the mat. And so on"].
Proof.
  pose proof (proj2 (proj2 unwrap_paragraphs_reflows) unwrap_init
                ["The cat sat  "; "on the mat."; "  And so on"]
                eq_refl eq_refl) as H.
  assert (Hne : ["The cat sat  "; "on the mat."; "  And so on"] <> [])
    by discriminate.
  assert (Hall : Forall (fun l => reflow_candidate l = true)
                   ["The cat sat  "; "on the mat."; "  And so on"]).
  { repeat constructor. }
  destruct (H Hne Hall) as (_ & _ & Hdoc).
  exact (Hdoc eq_refl).
Defined.

End Reflow.

(** ** Heading demotion ([demote_headings]) *)

Section Demote.

Import Epub Notions.

Lemma demote_loop_app (st : demote_state) (l1 l2 : list string) :
  demote_loop st (l1 ++ l2) = demote_loop (demote_loop st l1) l2.
Proof. unfold demote_loop. apply fold_left_app. Qed.

(** A heading line is no fence marker. *)
Lemma heading_is_no_fence (line : string) :
  is_heading line = true -> is_fence_line line = false.
Proof.
  unfold is_heading, HEADING_PATTERN_match.
  destruct line as [|c s]; [done |].
  destruct (is_hash c) eqn:Hc.
  - intros _. unfold is_hash, Py.is_char in Hc.
    apply Ascii.eqb_eq in Hc. subst c. unfold is_fence_line.
    unfold Py.strip, Py.strip_with. simpl Py.lstrip_with.
    simpl Py.rstrip_with. simpl.
    by destruct (Py.rstrip_with Py.isspace s).
  - simpl Py.lstrip_with. rewrite Hc. rewrite Nat.sub_diag. done.
Qed.

(** Each turn of the loop appends exactly one line, and this line is
    the input line unless the line is a heading met outside a fence. *)
Lemma demote_step_appends (st : demote_state) (line : string) :
  exists x,
    new_lines (demote_step st line) = new_lines st ++ [x]
    /\ (in_code_block st = true \/ is_heading line = false -> x = line).
Proof.
  unfold demote_step.
  destruct (is_fence_line line) eqn:Hfence.
  { exists line. by split. }
  destruct (in_code_block st) eqn:Hcode.
  { exists line. by split. }
  unfold is_heading.
  destruct (HEADING_PATTERN_match line) as [[level group2]|].
  - unfold demote_heading.
    destruct (_ && _); eexists; (split; [reflexivity |]);
      intros [H | H]; discriminate.
  - exists line. by split.
Qed.

Lemma demote_step_fence (st : demote_state) (line : string) :
  in_code_block (demote_step st line)
  = if is_fence_line line then negb (in_code_block st)
    else in_code_block st.
Proof.
  unfold demote_step.
  destruct (is_fence_line line); [done |].
  destruct (in_code_block st) eqn:Hcode; [by simpl |].
  destruct (HEADING_PATTERN_match line) as [[level group2]|]; [| by simpl].
  unfold demote_heading. by destruct (_ && _).
Qed.

Lemma demote_loop_fence (lines : list string) (st : demote_state) :
  in_code_block (demote_loop st lines)
  = fence_state is_fence_line (in_code_block st) lines.
Proof.
  revert st. induction lines as [|l lines IH]; intros st; [done |].
  simpl. unfold demote_loop in *. simpl fold_left.
  by rewrite IH, demote_step_fence.
Qed.

Lemma demote_loop_extends (lines : list string) (st : demote_state) :
  exists rest,
    new_lines (demote_loop st lines) = new_lines st ++ rest
    /\ length rest = length lines.
Proof.
  revert st. induction lines as [|l lines IH]; intros st.
  - exists []. by rewrite app_nil_r.
  - unfold demote_loop in *. simpl fold_left.
    destruct (IH (demote_step st l)) as (rest & Hrest & Hlen).
    destruct (demote_step_appends st l) as (x & Hx & _).
    exists (x :: rest). rewrite Hrest, Hx, <- app_assoc. simpl.
    by rewrite Hlen.
Qed.

(** The frame of the pass, from any state of the loop. *)
Lemma demote_loop_frame (lines : list string) (st : demote_state)
    (i : nat) (line : string) :
  lines !! i = Some line ->
  fence_state is_fence_line (in_code_block st) (take i lines) = true
  \/ is_heading line = false ->
  new_lines (demote_loop st lines) !! (length (new_lines st) + i) = Some line.
Proof.
  intros Hi Hkeep.
  rewrite <- (take_drop_middle lines i line Hi).
  rewrite demote_loop_app. change (line :: drop (S i) lines)
    with ([line] ++ drop (S i) lines). rewrite demote_loop_app.
  set (st1 := demote_loop st (take i lines)).
  destruct (demote_loop_extends (take i lines) st) as (r1 & Hr1 & Hlen1).
  fold st1 in Hr1.
  destruct (demote_step_appends st1 line) as (x & Hx & Hsame).
  assert (x = line) as ->.
  { apply Hsame. unfold st1. rewrite demote_loop_fence. exact Hkeep. }
  destruct (demote_loop_extends (drop (S i) lines) (demote_step st1 line))
    as (r2 & Hr2 & _).
  change (demote_loop st1 [line]) with (demote_step st1 line).
  rewrite Hr2, Hx, Hr1, <- !app_assoc. simpl.
  rewrite lookup_app_r by lia.
  apply list_lookup_middle.
  rewrite Hlen1, length_take.
  apply lookup_lt_Some in Hi. lia.
Qed.

(** C10: the heading-demotion pass returns as many lines as it is
    given, one for each input line at the same index; a line that is
    inside a code fence, and a line that is no heading line, is
    returned unchanged. *)
Theorem demote_headings_frame (lines : list string) :
  let out := (demote_headings lines).1.1 in
  length out = length lines
  /\ forall (i : nat) (line : string),
       lines !! i = Some line ->
       inside_fence is_fence_line lines i = true
       \/ is_heading line = false ->
       out !! i = Some line.
Proof.
  unfold demote_headings. simpl. split.
  - destruct (demote_loop_extends lines demote_init) as (rest & -> & Hlen).
    by simpl.
  - intros i line Hi Hkeep.
    by apply (demote_loop_frame lines demote_init i line Hi).
Qed.

Lemma demote_headings_frame_witness :
  (demote_headings ["# Title"; "```"; "# in code"; "```"; "prose"]).1.1 !! 2
  = Some "# in code"
  /\ (demote_headings ["# Title"; "```"; "# in code"; "```"; "prose"]).1.1 !! 4
     = Some "prose".
Proof.
  split.
  - apply (proj2 (demote_headings_frame
                    ["# Title"; "```"; "# in code"; "```"; "prose"]) 2);
      [reflexivity | left; reflexivity].
  - apply (proj2 (demote_headings_frame
                    ["# Title"; "```"; "# in code"; "```"; "prose"]) 4);
      [reflexivity | right; reflexivity].
Defined.

(** The part of C1 that holds: the pass records exactly one entry for
    each heading that takes a slug, and the block built from the entries
    has one item for each of them. *)
Lemma toc_entries_count (lines : list string) (st : demote_state) :
  length (toc_entries (demote_loop st lines))
  = length (toc_entries st) + count_slugged (in_code_block st) lines.
Proof.
  revert st. induction lines as [|l lines IH]; intros st.
  - simpl. lia.
  - unfold demote_loop in *. simpl fold_left. rewrite IH.
    rewrite demote_step_fence. simpl count_slugged.
    unfold demote_step, takes_slug.
    destruct (is_fence_line l); [simpl; lia |].
    destruct (in_code_block st); [simpl; lia |].
    destruct (HEADING_PATTERN_match l) as [[level group2]|]; [| simpl; lia].
    unfold demote_heading.
    destruct (((if level =? 1 then 2 else level) =? 2)
              && negb (is_toc_title (Py.strip group2))); simpl.
    + rewrite length_app. simpl. lia.
    + lia.
Qed.

Lemma toc_has_one_item_per_heading (lines : list string) :
  let entries := (demote_headings lines).1.2 in
  length entries = count_slugged false lines
  /\ (entries <> [] ->
      build_toc_lines entries
      = ["## Table of Contents"; EmptyString] ++ map toc_item entries
        ++ [EmptyString]).
Proof.
  simpl. split.
  - by rewrite toc_entries_count.
  - by destruct (toc_entries _).
Qed.

(** C1: the claim fails on the code.  The second [Intro] heading gets
    the slug [intro-1], and so does the heading [Intro 1], whose base
    slug is [intro-1] and has not been counted before: two of the
    three slugs of the document are equal, and two items of the table
    of contents link to the same anchor. *)
Theorem slug_collision_with_suffix :
  demote_headings ["## Intro"; "## Intro"; "## Intro 1"]
  = (["## Intro {#intro}"; "## Intro {#intro-1}"; "## Intro 1 {#intro-1}"],
     [("Intro", "intro"); ("Intro", "intro-1"); ("Intro 1", "intro-1")],
     Some "Intro")
  /\ build_toc_lines
       (demote_headings ["## Intro"; "## Intro"; "## Intro 1"]).1.2
     = ["## Table of Contents"; ""; "- [Intro](#intro)";
        "- [Intro](#intro-1)"; "- [Intro 1](#intro-1)"; ""]
  /\ ~ NoDup (assigned_slugs ["## Intro"; "## Intro"; "## Intro 1"]).
Proof.
  split; [by vm_compute |]. split; [by vm_compute |].
  assert (Hs : assigned_slugs ["## Intro"; "## Intro"; "## Intro 1"]
               = ["intro"; "intro-1"; "intro-1"]) by (by vm_compute).
  rewrite Hs. intros Hnd.
  apply NoDup_cons in Hnd as [_ Hnd].
  apply NoDup_cons in Hnd as [Hin _].
  apply Hin. by left.
Qed.

End Demote.

(** ** Replacing an existing table of contents ([replace_existing_toc]) *)

Section ReplaceToc.

Import Epub Notions.

Lemma skip_to_heading_body (body post : list string) :
  Forall (fun l => is_heading l = false) body ->
  match post with
  | [] => True
  | l :: _ => is_heading l = true
  end ->
  skip_to_heading (body ++ post) = post.
Proof.
  intros Hbody Hpost. induction Hbody as [|l body Hl _ IH]; simpl.
  - destruct post as [|l post]; [done |]. simpl. by rewrite Hpost.
  - by rewrite Hl.
Qed.

Lemma replace_toc_loop_found (pre : list string) (h : string)
    (rest toc_lines : list string) :
  Forall (fun l => is_toc_heading l = false) pre ->
  is_toc_heading h = true ->
  replace_toc_loop (pre ++ h :: rest) toc_lines
  = Some (pre ++ toc_lines ++ skip_to_heading rest).
Proof.
  intros Hpre Hh. induction Hpre as [|l pre Hl _ IH]; simpl.
  - by rewrite Hh.
  - by rewrite Hl, IH.
Qed.

Lemma replace_toc_loop_absent (lines toc_lines : list string) :
  Forall (fun l => is_toc_heading l = false) lines ->
  replace_toc_loop lines toc_lines = None.
Proof.
  intros H. induction H as [|l lines Hl _ IH]; simpl; [done |].
  by rewrite Hl, IH.
Qed.



Lemma skip_to_level_2_body (body post : list string) :
  Forall (fun l => Py.startswith l "## " = false) body ->
  match post with
  | [] => True
  | l :: _ => Py.startswith l "## " = true
  end ->
  Acrobat.skip_to_level_2 (body ++ post) = post.
Proof.
  intros Hbody Hpost. induction Hbody as [|l body Hl _ IH]; simpl.
  - destruct post as [|l post]; [done |]. simpl. by rewrite Hpost.
  - by rewrite Hl.
Qed.

Lemma acrobat_replace_toc_found (pre : list string) (h : string)
    (rest toc_lines : list string) :
  Forall (fun l => Acrobat.is_toc_line l = false) pre ->
  Acrobat.is_toc_line h = true ->
  Acrobat.replace_toc (pre ++ h :: rest) toc_lines
  = Some (pre ++ toc_lines ++ Acrobat.skip_to_level_2 rest).
Proof.
  intros Hpre Hh. induction Hpre as [|l pre Hl _ IH]; simpl.
  - by rewrite Hh.
  - by rewrite Hl, IH.
Qed.



End ReplaceToc.

(** ** Front matter *)

Section FrontMatter.

Import Epub Notions.

Lemma collect_front_matter_open (rest : list string) (idx : nat) :
  Forall (fun l => is_marker l = false) rest ->
  collect_front_matter idx rest = (rest, None).
Proof.
  intros H. revert idx. induction H as [|l rest Hl _ IH]; intros idx; simpl.
  - done.
  - by rewrite Hl, IH.
Qed.

Lemma last_no_marker (first : string) (rest : list string) :
  rest <> [] ->
  Forall (fun l => is_marker l = false) rest ->
  exists final, last (first :: rest) = Some final /\ is_marker final = false.
Proof.
  intros Hne Hall. revert first.
  induction Hall as [|l rest Hl Hall IH]; intros first; [done |].
  destruct rest as [|l' rest'].
  - exists l. by split.
  - destruct (IH ltac:(done) l) as (final & Hlast & Hfinal).
    exists final. split; [| done]. exact Hlast.
Qed.

(** C4, the claim as the specification words it, fails: a block that
    is opened and never closed takes every line of the input, and the
    body, which alone goes through the body passes, is empty. *)
Lemma unterminated_front_matter_leaves_no_body :
  let lines := ["---"; "title: x"; "# Heading"] in
  parsed (read_front_matter lines) = None
  /\ body_lines lines = []
  /\ body_lines lines <> lines.
Proof. repeat split. vm_compute. discriminate. Qed.

(** C4, amended: reading the front matter never fails.  When the
    input does not open with a marker line, there is no metadata and
    the whole input is the body.  When the input opens with a marker
    line that no later marker line closes, there is no metadata entry
    either (the parser gives [None], or the empty dictionary when the
    marker is the only line), but every line of the input is kept,
    unchanged, as front-matter lines, and the body is empty. *)
Theorem read_front_matter_fails_soft (lines : list string) :
  (match lines with
   | [] => True
   | first :: _ => is_marker first = false
   end ->
   parsed (read_front_matter lines) = None
   /\ front_matter_lines (read_front_matter lines) = []
   /\ body_lines lines = lines)
  /\ (forall (first : string) (rest : list string),
        lines = first :: rest ->
        is_marker first = true ->
        Forall (fun l => is_marker l = false) rest ->
        front_matter_lines (read_front_matter lines) = lines
        /\ body_lines lines = []
        /\ (rest <> [] -> parsed (read_front_matter lines) = None)
        /\ (rest = [] ->
            parsed (read_front_matter lines) = Some ([], [], ∅))).
Proof.
  split.
  - destruct lines as [|first rest]; [done |].
    intros Hfirst. unfold body_lines, read_front_matter.
    by rewrite Hfirst.
  - intros first rest -> Hfirst Hrest.
    unfold body_lines, read_front_matter. rewrite Hfirst.
    rewrite collect_front_matter_open by done. simpl.
    rewrite drop_all. repeat split.
    + intros Hne.
      destruct (last_no_marker first rest Hne Hrest) as (final & Hl & Hf).
      unfold parse_front_matter_block. rewrite Hl, Hf.
      by rewrite orb_true_r.
    + intros ->. unfold parse_front_matter_block. simpl. by rewrite Hfirst.
Qed.

Lemma read_front_matter_fails_soft_witness :
  (parsed (read_front_matter ["# Title"; "text"]) = None
   /\ body_lines ["# Title"; "text"] = ["# Title"; "text"])
  /\ (front_matter_lines (read_front_matter ["---"; "title: x"; "# Heading"])
      = ["---"; "title: x"; "# Heading"]
      /\ body_lines ["---"; "title: x"; "# Heading"] = []
      /\ parsed (read_front_matter ["---"; "title: x"; "# Heading"]) = None).
Proof.
  split.
  - destruct (proj1 (read_front_matter_fails_soft ["# Title"; "text"])
                eq_refl) as (Hp & _ & Hb).
    split; [exact Hp | exact Hb].
  - destruct (proj2 (read_front_matter_fails_soft
                       ["---"; "title: x"; "# Heading"])
                "---" ["title: x"; "# Heading"] eq_refl eq_refl
                ltac:(repeat constructor)) as (Hf & Hb & Hp & _).
    split; [exact Hf | split; [exact Hb | apply Hp; discriminate]].
Defined.

(** C2: the claim fails on the code.  A list item that needs quotes
    is written between quotes, but the parser reads a list item as it
    stands, quotes included; so the block serialized from the parse
    result is another one, with the item quoted twice. *)
Theorem front_matter_round_trip_fails :
  let m := [("identifier", VList ["urn:isbn:9780134685991"])] in
  let block := serialize_front_matter m ["identifier"] ∅ in
  block = ["---"; "identifier:";
           "  - " +:+ dquote +:+ "urn:isbn:9780134685991" +:+ dquote; "---"]
  /\ exists m' o' q',
       parse_front_matter_block block = Some (m', o', q')
       /\ o' = ["identifier"]
       /\ m' = [("identifier",
                 VList [dquote +:+ "urn:isbn:9780134685991" +:+ dquote])]
       /\ m' <> m
       /\ serialize_front_matter m' o' q'
          = ["---"; "identifier:";
             "  - " +:+ dquote +:+ "\" +:+ dquote
               +:+ "urn:isbn:9780134685991" +:+ "\" +:+ dquote +:+ dquote;
             "---"]
       /\ serialize_front_matter m' o' q' <> block.
Proof.
  split; [by vm_compute |].
  eexists _, _, _. split; [by vm_compute |].
  split; [done |]. split; [done |]. split; [discriminate |].
  split; [by vm_compute |]. vm_compute. discriminate.
Qed.

End FrontMatter.

(** ** ISBN extraction *)

Section Isbn.

Import Epub Notions.

Lemma all_chars_remove (p : ascii -> bool) (s : string) :
  Py.all_chars p (Py.remove_chars (fun c => negb (p c)) s) = true.
Proof.
  induction s as [|c s IH]; [done |]. simpl.
  destruct (p c) eqn:Hc; simpl; [by rewrite Hc |]. done.
Qed.

Lemma upper_char_digit (c : ascii) :
  Py.isdigit c = true -> Py.upper_char c = c.
Proof.
  unfold Py.isdigit, Py.upper_char, Py.is_ascii_lower, Py.in_range.
  intros H. apply andb_true_iff in H as [_ H]. apply Nat.leb_le in H.
  destruct (97 <=? Py.code c) eqn:H97; [| done].
  apply Nat.leb_le in H97. lia.
Qed.

Lemma upper_char_isbn (c : ascii) :
  is_isbn_char c = true -> is_digit_or_X (Py.upper_char c) = true.
Proof.
  unfold is_isbn_char, is_digit_or_X. intros H.
  apply orb_true_iff in H as [H | H].
  - apply orb_true_iff in H as [H | H].
    + by rewrite upper_char_digit, H.
    + apply Ascii.eqb_eq in H. by subst c.
  - apply Ascii.eqb_eq in H. by subst c.
Qed.

Lemma upper_digits (s : string) :
  Py.all_chars Py.isdigit s = true ->
  Py.all_chars Py.isdigit (Py.upper s) = true.
Proof.
  unfold Py.upper. induction s as [|c s IH]; [done |]. simpl. intros H.
  apply andb_true_iff in H as [Hc Hs].
  by rewrite upper_char_digit, Hc, IH.
Qed.

Lemma upper_isbn10 (cleaned : string) :
  String.length cleaned = 10 ->
  Py.all_chars Py.isdigit (String.substring 0 9 cleaned) = true ->
  Py.all_chars is_isbn_char (String.substring 9 1 cleaned) = true ->
  is_isbn10 (Py.upper cleaned) = true.
Proof.
  intros Hlen.
  do 10 (destruct cleaned as [|? cleaned]; [discriminate |]).
  destruct cleaned; [| discriminate].
  intros H9 H1. unfold is_isbn10.
  apply andb_true_iff. split; [apply andb_true_iff; split |].
  - done.
  - apply (upper_digits _ H9).
  - simpl in H1 |- *. rewrite andb_true_r in H1 |- *.
    by apply upper_char_isbn.
Qed.

(** The group of [ISBN_PATTERN] runs over white space, line breaks
    included: digits at the head of the next line are taken into the
    candidate, which is then too long. *)
Remark isbn_candidate_runs_over_line_break :
  ISBN_PATTERN_finditer
    (Py.join (String (Py.chr 10) EmptyString)
       ["ISBN: 978-0-13-468599-1"; "2018 edition"])
  = [Py.join (String (Py.chr 10) EmptyString) ["978-0-13-468599-1"; "2018"]]
  /\ extract_isbn
       (Py.join (String (Py.chr 10) EmptyString)
          ["ISBN: 978-0-13-468599-1"; "2018 edition"]) []
     = None.
Proof. by vm_compute. Qed.

Lemma isbn_tail_quiet (post : string) :
  quiet_after post = true -> forall n, isbn_tail n post = None.
Proof.
  induction post as [|c post IH]; [done |]. cbn [quiet_after isbn_tail].
  unfold is_isbn_body_char. destruct (is_isbn_char c); [done |].
  cbn [orb andb]. destruct (Py.isspace c || Py.is_char "-" c); [| done].
  intros H n. by rewrite IH.
Qed.

Lemma isbn_tail_run (body post : string) :
  (forall k, isbn_tail k post = None) ->
  forall n,
    Py.all_chars is_isbn_body_char body = true ->
    last_is is_isbn_char body = true ->
    9 <= n + String.length body ->
    isbn_tail n (body +:+ post) = Some body.
Proof.
  intros Hpost. induction body as [|c body IH]; intros n Hall Hlast Hlen;
    [done |].
  rewrite append_cons. cbn [isbn_tail]. cbn [Py.all_chars] in Hall.
  apply andb_true_iff in Hall as [Hc Hall]. rewrite Hc.
  destruct body as [|c' body].
  - rewrite append_nil, Hpost. cbn [last_is] in Hlast. rewrite Hlast.
    assert (Hn : (8 <=? n) = true) by (apply Nat.leb_le; simpl in Hlen; lia).
    by rewrite Hn.
  - rewrite IH; [done | done | exact Hlast | simpl in Hlen |- *; lia].
Qed.

Lemma match_at_line (prev : option ascii) (post : string) :
  match prev with
  | Some c => Py.isword c = false
  | None => True
  end ->
  quiet_after post = true ->
  exists len,
    ISBN_PATTERN_match_at prev ("ISBN: 978-0-13-468599-1" +:+ post)
    = Some ("978-0-13-468599-1", len).
Proof.
  intros Hprev Hpost. unfold ISBN_PATTERN_match_at.
  assert (Hb : match prev with
               | Some c => negb (Py.isword c)
               | None => true
               end = true).
  { destruct prev as [c|]; [by rewrite Hprev | done]. }
  rewrite Hb.
  assert (H1 : starts_with_nocase "ISBN" ("ISBN: 978-0-13-468599-1" +:+ post)
               = Some (": 978-0-13-468599-1" +:+ post)) by reflexivity.
  rewrite H1.
  assert (H2 : Py.lstrip (skip_colon (skip_isbn_kind
                                        (": 978-0-13-468599-1" +:+ post)))
               = String "9" ("78-0-13-468599-1" +:+ post)) by reflexivity.
  rewrite H2. change (Py.isdigit "9") with true. cbv iota.
  rewrite (isbn_tail_run "78-0-13-468599-1" post (isbn_tail_quiet post Hpost));
    [by eexists | reflexivity | reflexivity | simpl; lia].
Qed.

Lemma finditer_from_cons (prev : option ascii) (c : ascii) (s : string) :
  ISBN_PATTERN_finditer_from prev 0 (String c s)
  = match ISBN_PATTERN_match_at prev (String c s) with
    | Some (group1, len) =>
        group1 :: ISBN_PATTERN_finditer_from (Some c) (len - 1) s
    | None => ISBN_PATTERN_finditer_from (Some c) 0 s
    end.
Proof. reflexivity. Qed.

Lemma no_straddle (s rest : string) :
  s <> EmptyString ->
  starts_with_nocase "ISBN" s = None ->
  starts_with_nocase "ISBN" (s +:+ "ISBN: 978-0-13-468599-1" +:+ rest) = None.
Proof.
  intros Hs.
  change ("ISBN: 978-0-13-468599-1" +:+ rest)
    with (String "I" (String "S" (String "B" ("N: 978-0-13-468599-1" +:+ rest)))).
  destruct s as [|c1 [|c2 [|c3 [|c4 s]]]]; [done | | | |];
    rewrite ?append_cons, ?append_nil; cbn [starts_with_nocase];
    repeat (destruct (Ascii.eqb _ (Py.lower_char _)); try done).
Qed.

Lemma finditer_line (pre post : string) :
  quiet_after post = true ->
  forall prev : option ascii,
    EpubPasses.search_nocase "ISBN" (fun _ => true) pre = false ->
    last_is Py.isword pre = false ->
    (pre = EmptyString ->
     match prev with
     | Some c => Py.isword c = false
     | None => True
     end) ->
    exists rest,
      ISBN_PATTERN_finditer_from prev 0
        (pre +:+ "ISBN: 978-0-13-468599-1" +:+ post)
      = "978-0-13-468599-1" :: rest.
Proof.
  intros Hpost. induction pre as [|c pre IH]; intros prev Hsearch Hlast Hprev.
  - rewrite append_nil.
    destruct (match_at_line prev post (Hprev eq_refl) Hpost) as [len Hm].
    change ("ISBN: 978-0-13-468599-1" +:+ post)
      with (String "I" ("SBN: 978-0-13-468599-1" +:+ post)) in Hm |- *.
    rewrite finditer_from_cons, Hm. by eexists.
  - rewrite append_cons, finditer_from_cons.
    cbn [EpubPasses.search_nocase] in Hsearch.
    apply orb_false_iff in Hsearch as [Hhere Hsearch].
    assert (Hnone : starts_with_nocase "ISBN" (String c pre) = None).
    { destruct (starts_with_nocase "ISBN" (String c pre)); [done | done]. }
    assert (Hm : ISBN_PATTERN_match_at prev
                   (String c (pre +:+ "ISBN: 978-0-13-468599-1" +:+ post))
                 = None).
    { unfold ISBN_PATTERN_match_at. rewrite <- append_cons.
      rewrite (no_straddle (String c pre) post) by done.
      by destruct (match prev with Some _ => _ | None => _ end). }
    rewrite Hm. apply IH; [done | |].
    + destruct pre; [done |]. exact Hlast.
    + intros ->. exact Hlast.
Qed.

Lemma extract_isbn_line (pre post : string) (fallback : list string) :
  EpubPasses.search_nocase "ISBN" (fun _ => true) pre = false ->
  last_is Py.isword pre = false ->
  quiet_after post = true ->
  extract_isbn (pre +:+ "ISBN: 978-0-13-468599-1" +:+ post) fallback
  = Some "9780134685991".
Proof.
  intros Hpre Hlast Hpost. unfold extract_isbn, ISBN_PATTERN_finditer.
  destruct (finditer_line pre post Hpost None Hpre Hlast (fun _ => I))
    as [rest ->].
  reflexivity.
Qed.

(** C6: the claim fails on the code for some texts that contain the
    line.  [extract_isbn] yields [9780134685991] for every text that
    holds [ISBN: 978-0-13-468599-1] after a part without the word
    [ISBN] (in any case) that is empty or ends with a character that is
    no word character, such as a line break, when what follows the
    identifier, up to the next character that is no digit, [X], white
    space or hyphen, is white space and hyphens only.  But the group of
    [ISBN_PATTERN] runs on over white space, line breaks included: with
    [2018 edition] on the next line the candidate takes the year in, is
    too long, and the result is [None].  The rule of normalisation is
    as the claim states it: [normalize_isbn] strips from the candidate
    every character other than a digit, [X] and [x], and accepts the
    rest exactly when it has thirteen characters, all digits (returned
    as they are), or ten characters, nine digits and then a digit, [X]
    or [x] (returned in capitals); every other candidate, and no
    candidate at all, gives [None]. *)
Theorem extract_isbn_spec :
  (forall (pre post : string) (fallback : list string),
     EpubPasses.search_nocase "ISBN" (fun _ => true) pre = false ->
     last_is Py.isword pre = false ->
     quiet_after post = true ->
     extract_isbn (pre +:+ "ISBN: 978-0-13-468599-1" +:+ post) fallback
     = Some "9780134685991")
  /\ extract_isbn
       (Py.join (String (Py.chr 10) EmptyString)
          ["ISBN: 978-0-13-468599-1"; "2018 edition"]) []
     = None
  /\ normalize_isbn None = None
  /\ forall raw : string,
       let cleaned := Py.remove_chars (fun c => negb (is_isbn_char c)) raw in
       Py.all_chars is_isbn_char cleaned = true
       /\ (forall r : string,
             normalize_isbn (Some raw) = Some r <->
             raw <> EmptyString
             /\ ((String.length cleaned = 13
                  /\ Py.all_chars Py.isdigit cleaned = true
                  /\ r = cleaned)
                 \/ (String.length cleaned = 10
                     /\ Py.all_chars Py.isdigit (String.substring 0 9 cleaned)
                        = true
                     /\ r = Py.upper cleaned)))
       /\ (forall r : string,
             normalize_isbn (Some raw) = Some r ->
             is_isbn13 r = true \/ is_isbn10 r = true).
Proof.
  split; [apply extract_isbn_line |]. split; [by vm_compute |].
  split; [done |].
  intros raw cleaned.
  pose proof (all_chars_remove is_isbn_char raw) as Hclean.
  fold cleaned in Hclean.
  assert (Hlast : forall n,
            Py.all_chars is_isbn_char (String.substring n 1 cleaned) = true).
  { intros n. clear -Hclean. revert n.
    induction cleaned as [|c s IH]; intros n.
    - by destruct n.
    - simpl in Hclean. apply andb_true_iff in Hclean as [Hc Hs].
      destruct n as [|n]; simpl.
      + rewrite Hc. by destruct s.
      + by apply IH. }
  assert (Hspec : forall r : string,
            normalize_isbn (Some raw) = Some r <->
            raw <> EmptyString
            /\ ((String.length cleaned = 13
                 /\ Py.all_chars Py.isdigit cleaned = true
                 /\ r = cleaned)
                \/ (String.length cleaned = 10
                    /\ Py.all_chars Py.isdigit (String.substring 0 9 cleaned)
                       = true
                    /\ r = Py.upper cleaned))).
  { intros r. unfold normalize_isbn. fold cleaned.
    destruct (Py.is_empty raw) eqn:Hraw.
    { apply is_empty_true in Hraw. split; [done | by intros [? _]]. }
    apply is_empty_false in Hraw.
    destruct (String.length cleaned =? 13) eqn:H13.
    - apply Nat.eqb_eq in H13.
      destruct (Py.all_chars Py.isdigit cleaned) eqn:Hdig; simpl.
      + split.
        * intros [= <-]. split; [done |]. by left.
        * intros [_ [(_ & _ & ->) | (H10 & _)]]; [done | lia].
      + rewrite H13. simpl. split; [done |].
        intros [_ [(_ & ? & _) | (H10 & _)]]; [done | lia].
    - apply Nat.eqb_neq in H13. simpl.
      destruct (String.length cleaned =? 10) eqn:H10.
      + apply Nat.eqb_eq in H10. simpl.
        destruct (Py.all_chars Py.isdigit (String.substring 0 9 cleaned))
          eqn:H9; simpl.
        * rewrite Hlast. split.
          -- intros [= <-]. split; [done |]. by right.
          -- intros [_ [(? & _) | (_ & _ & ->)]]; [lia | done].
        * split; [done |].
          intros [_ [(? & _) | (_ & ? & _)]]; [lia | done].
      + apply Nat.eqb_neq in H10. simpl. split; [done |].
        intros [_ [(? & _) | (? & _)]]; lia. }
  split; [exact Hclean |]. split; [exact Hspec |].
  intros r Hr. apply Hspec in Hr as [_ [(H13 & Hdig & ->) | (H10 & H9 & ->)]].
  - left. unfold is_isbn13. by rewrite H13, Hdig.
  - right. by apply upper_isbn10.
Qed.

Lemma extract_isbn_spec_witness :
  extract_isbn "ISBN: 978-0-13-468599-1" [] = Some "9780134685991"
  /\ extract_isbn
       (Py.join (String (Py.chr 10) EmptyString)
          ["# A Book"; "ISBN: 978-0-13-468599-1"; "Printed in 2018."]) []
     = Some "9780134685991"
  /\ (is_isbn13 "9780134685991" = true \/ is_isbn10 "9780134685991" = true).
Proof.
  split; [| split].
  - apply (proj1 extract_isbn_spec EmptyString EmptyString []); reflexivity.
  - apply (proj1 extract_isbn_spec
             ("# A Book" +:+ String (Py.chr 10) EmptyString)
             (String (Py.chr 10) "Printed in 2018.") []); reflexivity.
  - apply (proj2 (proj2 (proj2 (proj2 (proj2 extract_isbn_spec))
                                "978-0-13-468599-1"))).
    reflexivity.
Defined.

End Isbn.

(** ** Repeated headers and footers ([collect_text_lines]) *)

Section Repetition.

Import PdfToMarkdown Notions.

Variable config : ExtractionConfig.

Lemma occurrences_app (reg : region) (text : string)
    (a b : list (string * region)) :
  occurrences reg text (a ++ b)
  = occurrences reg text a + occurrences reg text b.
Proof.
  induction a as [|[t r] a IH]; simpl; [done |]. rewrite IH. lia.
Qed.

Lemma count_of_increment (counts : gmap string nat) (t t' : string) :
  count_of (increment counts t) t'
  = count_of counts t' + (if String.eqb t t' then 1 else 0).
Proof.
  unfold increment, count_of. destruct (String.eqb t t') eqn:Heq.
  - apply String.eqb_eq in Heq. subst t'. by rewrite lookup_insert_eq.
  - apply String.eqb_neq in Heq. rewrite lookup_insert_ne by done.
    simpl. lia.
Qed.

Lemma collect_item_inv (base : list (string * region)) (page_height : Q)
    (st : page_state) (item : layout_item) :
  page_inv base st ->
  page_inv base (collect_item config page_height st item).
Proof.
  intros Hinv. unfold collect_item.
  destruct item as [line|]; [| done].
  destruct (Py.is_empty (Py.strip (get_text line))); [done |].
  unfold page_inv, counts_agree in *.
  destruct (Qle_bool _ _); [| destruct (Qle_bool _ _)]; simpl; intros t;
    destruct (Hinv t) as [Hh Hf];
    rewrite ?count_of_increment, Hh, Hf, app_assoc, !occurrences_app;
    simpl; try destruct (String.eqb _ t); split; lia.
Qed.

Lemma collect_element_inv (base : list (string * region)) (page_height : Q)
    (st : page_state) (element : layout_element) :
  page_inv base st ->
  page_inv base (collect_element config page_height st element).
Proof.
  destruct element as [items|]; [| done]. simpl. revert st.
  induction items as [|item items IH]; intros st Hinv; [done |].
  simpl. apply IH. by apply collect_item_inv.
Qed.

Lemma collect_elements_inv (base : list (string * region)) (page_height : Q)
    (els : list layout_element) (st : page_state) :
  page_inv base st ->
  page_inv base (fold_left (collect_element config page_height) els st).
Proof.
  revert st. induction els as [|el els IH]; intros st Hinv; [done |].
  simpl. apply IH. by apply collect_element_inv.
Qed.

Lemma collect_page_inv (n : nat) (st : collect_state) (page : page_layout) :
  collect_inv n st -> collect_inv (S n) (collect_page config st page).
Proof.
  intros [Hagree Htotal]. unfold collect_page, collect_inv.
  set (page_height := match height page with Some h => h | None => _ end).
  set (st0 := {| page_entries := [];
                 page_header_counts := header_counts st;
                 page_footer_counts := footer_counts st |}).
  assert (Hinv0 : page_inv (concat (pages st)) st0).
  { unfold page_inv. simpl. by rewrite app_nil_r. }
  pose proof (collect_elements_inv _ page_height (elements page) _ Hinv0)
    as Hinv.
  simpl. split; [| lia].
  rewrite concat_app. simpl. by rewrite app_nil_r.
Qed.

Lemma collect_pages_inv (layouts : list page_layout) (n : nat)
    (st : collect_state) :
  collect_inv n st ->
  collect_inv (n + length layouts)
    (fold_left (collect_page config) layouts st).
Proof.
  revert n st. induction layouts as [|page layouts IH]; intros n st Hinv.
  - simpl. by rewrite Nat.add_0_r.
  - simpl. replace (n + S (length layouts)) with (S n + length layouts)
      by lia.
    apply IH. by apply collect_page_inv.
Qed.

Lemma threshold_pos (n : nat) : 1 <= threshold config n.
Proof.
  unfold threshold. destruct (min_repeating config <=? 0)%Z eqn:H.
  - lia.
  - apply Z.leb_gt in H. lia.
Qed.

Lemma drop_set_spec (counts : gmap string nat) (min_rep : nat) (t : string) :
  1 <= min_rep ->
  t ∈ drop_set counts min_rep <-> min_rep <= count_of counts t.
Proof.
  intros Hpos. unfold drop_set, count_of. rewrite elem_of_dom. split.
  - intros [v Hv]. apply map_lookup_filter_Some in Hv as [Hv Hle].
    rewrite Hv. exact Hle.
  - intros Hle. destruct (counts !! t) as [v|] eqn:Hv; simpl in Hle.
    + exists v. apply map_lookup_filter_Some. by split.
    + lia.
Qed.

Implicit Types (hd fd : gset string) (t : string) (reg : region).

Lemma keeps_spec hd fd t reg :
  keeps config hd fd (t, reg) = true <->
  ~ (reg = header /\ t ∈ hd) /\ ~ (reg = footer /\ t ∈ fd)
  /\ should_skip_text t (skip_patterns config) = false.
Proof.
  unfold keeps.
  destruct (should_skip_text t (skip_patterns config)) eqn:Hskip.
  - split; [| by intros (_ & _ & ?)].
    destruct reg; simpl; repeat case_bool_decide; done.
  - destruct reg; simpl; [case_bool_decide as Hd | | case_bool_decide as Hd];
      simpl; split; try done.
    + intros (H & _). exfalso. by apply H.
    + intros _. split; [by intros [_ ?] | split; [by intros [? _] | done]].
    + intros _. split; [by intros [? _] | split; [by intros [? _] | done]].
    + intros (_ & H & _). exfalso. by apply H.
    + intros _. split; [by intros [? _] | split; [by intros [_ ?] | done]].
Qed.

Lemma page_lines_spec hd fd t (entries : list (string * region)) :
  t ∈ map fst (filter (fun e => keeps config hd fd e = true) entries) <->
  exists reg, (t, reg) ∈ entries /\ keeps config hd fd (t, reg) = true.
Proof.
  rewrite list_elem_of_In, in_map_iff. split.
  - intros ([t' reg] & Ht & Hin). simpl in Ht. subst t'.
    apply list_elem_of_In, list_elem_of_filter in Hin as [Hk Hin].
    by exists reg.
  - intros (reg & Hin & Hk). exists (t, reg). split; [done |].
    apply list_elem_of_In, list_elem_of_filter. by split.
Qed.

Lemma emit_page_spec hd fd t (out : list string)
    (entries : list (string * region)) :
  t <> EmptyString ->
  t ∈ emit_page config hd fd out entries <->
  t ∈ out
  \/ exists reg, (t, reg) ∈ entries /\ keeps config hd fd (t, reg) = true.
Proof.
  intros Ht. rewrite <- page_lines_spec. unfold emit_page.
  destruct (map fst _) as [|x page_lines].
  - rewrite elem_of_nil. tauto.
  - destruct (last out) as [l|]; [destruct (negb (Py.is_empty l)) |];
      rewrite !elem_of_app, ?list_elem_of_singleton; tauto.
Qed.

Lemma emit_pages_spec hd fd t (pgs : list (list (string * region)))
    (out : list string) :
  t <> EmptyString ->
  t ∈ fold_left (emit_page config hd fd) pgs out <->
  t ∈ out
  \/ exists reg, (t, reg) ∈ concat pgs /\ keeps config hd fd (t, reg) = true.
Proof.
  intros Ht. revert out.
  induction pgs as [|page pgs IH]; intros out; simpl.
  - split; [tauto |]. intros [H | (reg & H & _)]; [done |].
    by apply elem_of_nil in H.
  - rewrite IH, emit_page_spec by done. split.
    + intros [[H | (reg & Hin & Hk)] | (reg & Hin & Hk)]; [tauto | |];
        right; exists reg; (split; [| done]); apply elem_of_app; tauto.
    + intros [H | (reg & Hin & Hk)]; [tauto |].
      apply elem_of_app in Hin as [Hin | Hin]; [left; right | right];
        by exists reg.
Qed.

Lemma normalize_step_spec t (normalized : list string) (line : string) :
  t <> EmptyString ->
  t ∈ normalize_step normalized line <-> t ∈ normalized \/ t = line.
Proof.
  intros Ht. unfold normalize_step.
  destruct (last normalized) as [[|c l]|];
    try (rewrite elem_of_app, list_elem_of_singleton; tauto).
  destruct (Py.is_empty line) eqn:Hline.
  - apply is_empty_true in Hline. subst line. tauto.
  - rewrite elem_of_app, list_elem_of_singleton. tauto.
Qed.

Lemma normalize_spec t (lines normalized : list string) :
  t <> EmptyString ->
  t ∈ fold_left normalize_step lines normalized <->
  t ∈ normalized \/ t ∈ lines.
Proof.
  intros Ht. revert normalized.
  induction lines as [|l lines IH]; intros normalized; simpl.
  - rewrite elem_of_nil. tauto.
  - rewrite IH, normalize_step_spec, elem_of_cons by done. tauto.
Qed.

Lemma close_output_spec t (normalized : list string) :
  t <> EmptyString ->
  t ∈ close_output normalized <-> t ∈ normalized.
Proof.
  intros Ht. unfold close_output.
  destruct (last normalized) as [l|]; [| done].
  destruct (negb (Py.is_empty l)); [| done].
  rewrite elem_of_app, list_elem_of_singleton. tauto.
Qed.

End Repetition.

Section RepetitionClaim.

Import PdfToMarkdown Notions.

(** C5, the claim as the specification words it, fails: a body-tagged
    line is not always retained.  A bare number in the body of a page
    matches a skip pattern and is dropped, though it is no header or
    footer and repeats nowhere. *)
Lemma body_line_dropped_by_skip_pattern :
  let page := {| height := Some (792 # 1);
                 elements := [LTTextContainer [text_line "12" 400 412]] |} in
  tagged_entries default_config [page] = [("12", body)]
  /\ collect_text_lines [page] default_config = []
  /\ "12" ∉ collect_text_lines [page] default_config.
Proof.
  split; [by vm_compute |]. split; [by vm_compute |].
  assert (H : collect_text_lines
                [{| height := Some (792 # 1);
                    elements := [LTTextContainer [text_line "12" 400 412]] |}]
                default_config = []) by (by vm_compute).
  simpl. rewrite H. apply not_elem_of_nil.
Qed.

(** C5, amended: the threshold is the configured value or, when that
    is not positive, [max(2, page_count // 3)]; and a non-empty text is
    in the output exactly when some recorded entry with this text
    passes both filters: it is body-tagged, or it is header-tagged or
    footer-tagged and the text occurs with that tag fewer times than
    the threshold, and in each case the text matches no skip pattern.
    In the ten-page sample, where [Chapter Footer] stands in the bottom
    margin of eight pages, the output holds the body line of every page
    and no [Chapter Footer]. *)
Theorem collect_text_lines_filter :
  (forall (layouts : list page_layout) (config : ExtractionConfig)
          (text : string),
     text <> EmptyString ->
     let entries := tagged_entries config layouts in
     let min_rep := threshold config (length layouts) in
     min_rep = (if (min_repeating config <=? 0)%Z
                then Nat.max 2 (length layouts / 3)
                else Z.to_nat (min_repeating config))
     /\ (text ∈ collect_text_lines layouts config <->
         exists reg,
           (text, reg) ∈ entries
           /\ (reg = body \/ occurrences reg text entries < min_rep)
           /\ should_skip_text text (skip_patterns config) = false))
  /\ (forall n, 1 <= n <= 10 ->
        ("Body of page " +:+ Py.str_nat n)
          ∈ collect_text_lines sample_pages default_config)
  /\ ("Chapter Footer" ∉ collect_text_lines sample_pages default_config)
  /\ occurrences footer "Chapter Footer"
       (tagged_entries default_config sample_pages) = 8.
Proof.
  split.
  - intros layouts config text Htext entries min_rep. split; [done |].
    unfold collect_text_lines.
    pose proof (collect_pages_inv config layouts 0 collect_init) as Hinv.
    set (st := fold_left (collect_page config) layouts collect_init) in *.
    destruct Hinv as [Hagree Htotal]; [by split |]. simpl in Htotal.
    rewrite Htotal. fold min_rep.
    rewrite close_output_spec, normalize_spec, emit_pages_spec by done.
    rewrite !elem_of_nil.
    change (concat (pages st)) with entries in Hagree |- *.
    pose proof (threshold_pos config (length layouts)) as Hpos.
    fold min_rep in Hpos.
    split.
    + intros [[] | [[] | (reg & Hin & Hk)]].
      exists reg. split; [done |].
      apply keeps_spec in Hk as (Hh & Hf & Hskip). split; [| done].
      destruct (Hagree text) as [Hch Hcf].
      destruct reg; [| by left |]; right.
      * destruct (decide (occurrences header text entries < min_rep));
          [done |]. exfalso. apply Hh. split; [done |].
        apply drop_set_spec; [done |]. rewrite Hch. lia.
      * destruct (decide (occurrences footer text entries < min_rep));
          [done |]. exfalso. apply Hf. split; [done |].
        apply drop_set_spec; [done |]. rewrite Hcf. lia.
    + intros (reg & Hin & Hreg & Hskip). right. right.
      exists reg. split; [done |]. apply keeps_spec.
      destruct (Hagree text) as [Hch Hcf].
      split; [| split; [| done]].
      * intros [-> Hd]. apply drop_set_spec in Hd; [| done].
        destruct Hreg as [? | Hlt]; [done |]. lia.
      * intros [-> Hd]. apply drop_set_spec in Hd; [| done].
        destruct Hreg as [? | Hlt]; [done |]. lia.
  - assert (Hout : collect_text_lines sample_pages default_config
                   = ["Body of page 1"; ""; "Body of page 2"; "";
                      "Body of page 3"; ""; "Body of page 4"; "";
                      "Body of page 5"; ""; "Body of page 6"; "";
                      "Body of page 7"; ""; "Body of page 8"; "";
                      "Body of page 9"; ""; "Body of page 10"; ""])
      by (by vm_compute).
    rewrite Hout. split; [| split].
    + intros n Hn.
      assert (Hcases : n = 1 \/ n = 2 \/ n = 3 \/ n = 4 \/ n = 5 \/ n = 6
                       \/ n = 7 \/ n = 8 \/ n = 9 \/ n = 10) by lia.
      apply list_elem_of_In.
      destruct Hcases as [-> | [-> | [-> | [-> | [-> | [-> | [-> | [-> |
                         [-> | ->]]]]]]]]]; vm_compute; tauto.
    + intros Hin. apply list_elem_of_In in Hin. vm_compute in Hin.
      repeat (destruct Hin as [Hin | Hin]; [discriminate |]). done.
    + by vm_compute.
Qed.

Lemma collect_text_lines_filter_witness :
  "Body of page 9" ∈ collect_text_lines sample_pages default_config
  <-> exists reg,
        ("Body of page 9", reg) ∈ tagged_entries default_config sample_pages
        /\ (reg = body
            \/ occurrences reg "Body of page 9"
                 (tagged_entries default_config sample_pages)
               < threshold default_config (length sample_pages))
        /\ should_skip_text "Body of page 9" (skip_patterns default_config)
           = false.
Proof.
  apply (proj1 collect_text_lines_filter sample_pages default_config
           "Body of page 9").
  discriminate.
Defined.

End RepetitionClaim.

(** ** Lines inside a fence *)

Section Fences.

Import PdfCleanup Notions.

(** *** The reflow pass *)









(** *** The whitespace pass *)


Lemma collapse_ws_loop_length (lines : list string) (code : bool) :
  length (collapse_ws_loop code lines) = length lines.
Proof.
  revert code. induction lines as [|l lines IH]; intros code; [done |].
  simpl. destruct (collapse_ws_step code l) as [st out]. simpl.
  by rewrite IH.
Qed.

(** *** Blank-line collapsing *)

Lemma collapse_blank_loop_sublist (lines : list string) (streak : nat) :
  collapse_blank_loop streak lines `sublist_of` lines.
Proof.
  revert streak. induction lines as [|l lines IH]; intros streak; simpl.
  - constructor.
  - destruct (Py.is_empty l); [destruct (1 <? S streak) |].
    + by apply sublist_cons.
    + by apply sublist_skip.
    + by apply sublist_skip.
Qed.


(** C3: the claim fails on the code.  Between two fence markers, the
    reflow pass and the whitespace pass of the PDF tool shorten a line
    that ends with blanks, and its blank-line collapsing deletes an
    empty line that follows an empty line, so [normalise_text] returns
    fenced content with its spacing changed, which the module says it
    preserves.  In the EPUB tool the blank-line collapsing does the
    same, [remove_svg_blocks] deletes the lines of a picture inside a
    fence, and [replace_existing_toc] deletes a fence inside the old
    table of contents up to a line inside it that looks like a
    heading. *)
Theorem fenced_lines_change :
  inside_fence reflow_fence_test ["```"; "x = 1  "; "```"] 1 = true
  /\ unwrap_paragraphs ["```"; "x = 1  "; "```"] = ["```"; "x = 1"; "```"]
  /\ collapse_blank_lines ["```"; "a"; ""; ""; "b"; "```"]
     = ["```"; "a"; ""; "b"; "```"]
  /\ Epub.collapse_blank_lines
       (Py.join (String (Py.chr 10) EmptyString)
          ["```"; "a"; ""; ""; ""; "b"; "```"])
     = Py.join (String (Py.chr 10) EmptyString) ["```"; "a"; ""; "b"; "```"]
  /\ collapse_internal_whitespace ["```"; "x = 1  "; "```"]
     = ["```"; "x = 1"; "```"]
  /\ normalise_text
       (Py.join (String (Py.chr 10) EmptyString)
          ["```"; "x = 1  "; ""; ""; "y"; "```"; ""])
     = Py.join (String (Py.chr 10) EmptyString)
         ["```"; "x = 1"; ""; "y"; "```"; ""]
  /\ EpubPasses.remove_svg_blocks ["```"; "<svg>"; "<path/>"; "</svg>"; "```"]
     = ["```"; "```"]
  /\ Epub.replace_existing_toc
       ["## Table of Contents"; "```"; "- sample"; "# comment"; "```";
        "## Next"]
       ["## Table of Contents"; ""; "- [Next](#next)"; ""]
     = (["## Table of Contents"; ""; "- [Next](#next)"; "";
         "# comment"; "```"; "## Next"], true).
Proof. by vm_compute. Qed.



End Fences.


(** * Further properties of the code *)

(** ** More facts about the string operations *)

Section MoreStringFacts.

Implicit Types (s t : string) (c : ascii) (p : ascii -> bool).

Lemma rstrip_with_cons p c s :
  Py.rstrip_with p (String c s)
  = if p c && Py.is_empty (Py.rstrip_with p s) then EmptyString
    else String c (Py.rstrip_with p s).
Proof. reflexivity. Qed.

Lemma rstrip_with_idem p s :
  Py.rstrip_with p (Py.rstrip_with p s) = Py.rstrip_with p s.
Proof.
  induction s as [|c s IH]; [done |]. rewrite rstrip_with_cons.
  destruct (p c && Py.is_empty (Py.rstrip_with p s)) eqn:H; [done |].
  by rewrite rstrip_with_cons, IH, H.
Qed.

Lemma rstrip_with_app p s t :
  Py.is_empty (Py.rstrip_with p t) = false ->
  Py.rstrip_with p (s +:+ t) = s +:+ Py.rstrip_with p t.
Proof.
  intros Ht. induction s as [|c s IH]; [done |].
  rewrite !append_cons, rstrip_with_cons, IH, is_empty_append, Ht.
  by rewrite andb_false_r, andb_false_r.
Qed.

Lemma lstrip_with_fixed p s :
  Py.lstrip_with p s = s <->
  match s with
  | EmptyString => True
  | String c _ => p c = false
  end.
Proof.
  destruct s as [|c s]; simpl; [done |].
  destruct (p c) eqn:Hc; split; try done.
  intros H. apply (f_equal String.length) in H.
  assert (Hle : forall u, String.length (Py.lstrip_with p u) <= String.length u).
  { clear. induction u as [|a u IH]; simpl; [lia |].
    destruct (p a); simpl; lia. }
  specialize (Hle s). simpl in H. lia.
Qed.

Lemma lstrip_with_idem p s :
  Py.lstrip_with p (Py.lstrip_with p s) = Py.lstrip_with p s.
Proof.
  induction s as [|c s IH]; [done |]. simpl.
  destruct (p c) eqn:Hc; [done |]. simpl. by rewrite Hc.
Qed.

Lemma rstrip_keeps_lstripped p s :
  Py.lstrip_with p s = s ->
  Py.lstrip_with p (Py.rstrip_with p s) = Py.rstrip_with p s.
Proof.
  intros H. apply lstrip_with_fixed in H. apply lstrip_with_fixed.
  destruct s as [|c s]; [done |]. rewrite rstrip_with_cons, H. done.
Qed.

Lemma strip_with_idem p s :
  Py.strip_with p (Py.strip_with p s) = Py.strip_with p s.
Proof.
  unfold Py.strip_with.
  rewrite (rstrip_keeps_lstripped p (Py.lstrip_with p s))
    by apply lstrip_with_idem.
  apply rstrip_with_idem.
Qed.

Lemma strip_trimmed s : Py.rstrip (Py.strip s) = Py.strip s.
Proof. apply rstrip_with_idem. Qed.

Lemma strip_lstripped s : Py.lstrip (Py.strip s) = Py.strip s.
Proof. apply rstrip_keeps_lstripped, lstrip_with_idem. Qed.

Lemma lstrip_app s t :
  Py.is_empty s = false -> Py.lstrip s = s -> Py.lstrip (s +:+ t) = s +:+ t.
Proof.
  intros Hs H. apply lstrip_with_fixed in H. apply lstrip_with_fixed.
  destruct s as [|c s]; [done |]. by rewrite append_cons.
Qed.

Lemma drop_last_cons c s :
  Py.drop_last (String c s)
  = if Py.is_empty s then EmptyString else String c (Py.drop_last s).
Proof. by destruct s. Qed.

Lemma Forall_sublist_of {A} (P : A -> Prop) (l1 l2 : list A) :
  l1 `sublist_of` l2 -> Forall P l2 -> Forall P l1.
Proof.
  intros Hsub Hall. apply Forall_forall. intros x Hx.
  rewrite Forall_forall in Hall. apply Hall.
  by apply (elem_of_sublist l1 l2).
Qed.

End MoreStringFacts.

(** ** The passes of the PDF cleanup *)

Section PdfCleanupMore.

Import PdfCleanup Notions.

(** *** Blank-line collapsing *)

Lemma collapse_blank_loop_shape (lines : list string) (streak : nat) :
  no_blank_pair (collapse_blank_loop streak lines) = true
  /\ (1 <= streak ->
      match collapse_blank_loop streak lines with
      | [] => True
      | l :: _ => Py.is_empty l = false
      end).
Proof.
  revert streak. induction lines as [|l lines IH]; intros streak; [done |].
  simpl. destruct (Py.is_empty l) eqn:Hl.
  - destruct (1 <? S streak) eqn:Hs.
    + destruct (IH (S streak)) as [H1 H2]. split; [done |].
      intros _. apply H2. lia.
    + apply Nat.ltb_ge in Hs. destruct (IH (S streak)) as [H1 H2].
      split; [| lia]. specialize (H2 ltac:(lia)). simpl.
      destruct (collapse_blank_loop (S streak) lines) as [|b rest]; [done |].
      by rewrite H2, andb_false_r, H1.
  - destruct (IH 0) as [H1 _]. split; [| done]. simpl.
    destruct (collapse_blank_loop 0 lines) as [|b rest]; [done |].
    by rewrite Hl, H1.
Qed.

Lemma collapse_blank_loop_fixed (lines : list string) (streak : nat) :
  no_blank_pair lines = true ->
  (1 <= streak ->
   match lines with
   | [] => True
   | l :: _ => Py.is_empty l = false
   end) ->
  collapse_blank_loop streak lines = lines.
Proof.
  revert streak. induction lines as [|l lines IH]; intros streak Hn Hs;
    [done |].
  simpl in Hn |- *.
  assert (Hrest : no_blank_pair lines = true).
  { destruct lines as [|b rest]; [done |].
    by apply andb_true_iff in Hn as [_ Hn]. }
  destruct (Py.is_empty l) eqn:Hl.
  - destruct (1 <? S streak) eqn:H1.
    + apply Nat.ltb_lt in H1. specialize (Hs ltac:(lia)). congruence.
    + f_equal. apply IH; [done |]. intros _.
      destruct lines as [|b rest]; [done |].
      apply andb_true_iff in Hn as [Hn _]. simpl in Hn.
      by destruct (Py.is_empty b).
  - f_equal. apply IH; [done |]. lia.
Qed.

(** X1: [collapse_blank_lines] leaves no two consecutive empty lines,
    changes nothing in a list that has none, and so gives the same
    result when it is run twice. *)
Theorem collapse_blank_lines_no_blank_pair (lines : list string) :
  no_blank_pair (collapse_blank_lines lines) = true
  /\ (no_blank_pair lines = true -> collapse_blank_lines lines = lines)
  /\ collapse_blank_lines (collapse_blank_lines lines)
     = collapse_blank_lines lines.
Proof.
  unfold collapse_blank_lines.
  destruct (collapse_blank_loop_shape lines 0) as [Hshape _].
  split; [done |]. split.
  - intros H. apply collapse_blank_loop_fixed; [done | lia].
  - apply collapse_blank_loop_fixed; [done | lia].
Qed.

Lemma collapse_blank_lines_no_blank_pair_witness :
  collapse_blank_lines ["a"; ""; "b"; ""] = ["a"; ""; "b"; ""].
Proof.
  apply (proj1 (proj2 (collapse_blank_lines_no_blank_pair
                         ["a"; ""; "b"; ""]))).
  reflexivity.
Defined.

(** *** Trailing white space *)

Lemma collapse_ws_loop_trimmed (lines : list string) (code : bool) :
  Forall trimmed_right (collapse_ws_loop code lines).
Proof.
  revert code. induction lines as [|l lines IH]; intros code; simpl.
  - constructor.
  - unfold collapse_ws_step.
    destruct (starts_fence _); [| destruct code]; simpl;
      (constructor; [apply rstrip_with_idem | apply IH]).
Qed.

(** X2: [collapse_internal_whitespace] returns one line for each input
    line, and no line that it returns ends with white space, inside a
    fence or outside. *)
Theorem collapse_internal_whitespace_trims (lines : list string) :
  length (collapse_internal_whitespace lines) = length lines
  /\ Forall trimmed_right (collapse_internal_whitespace lines).
Proof.
  split; [apply collapse_ws_loop_length | apply collapse_ws_loop_trimmed].
Qed.

(** *** Joined paragraphs *)

Lemma combine_step_stripped (combined part : string) :
  stripped combined -> stripped (combine_step combined part).
Proof.
  intros [Hl Hr]. unfold combine_step.
  destruct (Py.is_empty (Py.strip part)) eqn:Hchunk; [done |].
  assert (Hcs : stripped (Py.strip part))
    by (split; [apply strip_lstripped | apply strip_trimmed]).
  destruct Hcs as [Hcl Hcr].
  assert (Hrc : Py.is_empty (Py.rstrip (Py.strip part)) = false)
    by (by rewrite Hcr).
  destruct (Py.is_empty combined) eqn:Hc; simpl; [done |].
  destruct (_ && _).
  - split.
    + destruct combined as [|c s]; [done |]. rewrite drop_last_cons.
      destruct (Py.is_empty s); [done |].
      apply lstrip_app; [done |].
      apply lstrip_with_fixed in Hl. by apply lstrip_with_fixed.
    + unfold Py.rstrip in *. by rewrite rstrip_with_app, Hcr.
  - split.
    + by apply lstrip_app.
    + unfold Py.rstrip in *.
      rewrite rstrip_with_app; rewrite rstrip_with_app; rewrite ?Hcr; done.
Qed.

Lemma fold_combine_stripped (lines : list string) (combined : string) :
  stripped combined -> stripped (fold_left combine_step lines combined).
Proof.
  revert combined. induction lines as [|l lines IH]; intros combined H;
    [done |].
  simpl. by apply IH, combine_step_stripped.
Qed.

Lemma fold_combine_blank (lines : list string) (combined : string) :
  Forall (fun l => Py.strip l = EmptyString) lines ->
  fold_left combine_step lines combined = combined.
Proof.
  intros H. revert combined.
  induction H as [|l lines Hl _ IH]; intros combined; [done |].
  simpl. rewrite IH. unfold combine_step. by rewrite Hl.
Qed.

(** X3: the text that [combine_paragraph_lines] returns has no white
    space at either end, and it is empty exactly when every part is
    blank. *)
Theorem combine_paragraph_lines_stripped (lines : list string) :
  Py.strip (combine_paragraph_lines lines) = combine_paragraph_lines lines
  /\ (combine_paragraph_lines lines = EmptyString <->
      Forall (fun l => Py.strip l = EmptyString) lines).
Proof.
  unfold combine_paragraph_lines. split.
  - destruct (fold_combine_stripped lines EmptyString) as [Hl Hr]; [done |].
    unfold Py.strip, Py.strip_with. unfold Py.lstrip, Py.rstrip in *.
    by rewrite Hl, Hr.
  - split.
    + intros Hempty. apply Forall_forall. intros l Hin.
      apply list_elem_of_In, in_split in Hin as (l1 & l2 & ->).
      rewrite fold_left_app in Hempty. simpl in Hempty.
      destruct (Py.is_empty (Py.strip l)) eqn:Hl;
        [by apply is_empty_true |].
      pose proof (fold_combine_keeps_text l2 _
                    (combine_step_takes_chunk
                       (fold_left combine_step l1 EmptyString) l Hl)) as H.
      rewrite Hempty in H. discriminate.
    + intros H. by apply fold_combine_blank.
Qed.

Lemma combine_paragraph_lines_stripped_witness :
  combine_paragraph_lines ["  "; ""] = EmptyString.
Proof.
  apply (proj2 (combine_paragraph_lines_stripped ["  "; ""])).
  repeat constructor.
Defined.

(** *** The reflow pass and the whole chain *)

Lemma flush_buffer_trimmed (st : unwrap_state) :
  Forall trimmed_right (result st) ->
  Forall trimmed_right (result (flush_buffer st)).
Proof.
  intros H. unfold flush_buffer. destruct (buffer st); [done |]. simpl.
  destruct (negb _); [| done].
  apply Forall_app. split; [done |].
  constructor; [| by repeat constructor].
  destruct (fold_combine_stripped (s :: l) EmptyString) as [_ Hr]; [done |].
  exact Hr.
Qed.

Lemma unwrap_step_trimmed (st : unwrap_state) (line : string) :
  Forall trimmed_right (result st) ->
  Forall trimmed_right (result (unwrap_step st line)).
Proof.
  intros H. pose proof (flush_buffer_trimmed st H) as Hf.
  assert (Hcur : trimmed_right (Py.rstrip line)) by apply rstrip_with_idem.
  unfold unwrap_step.
  destruct (starts_fence _); [| destruct (in_code_block st);
    [| destruct (Py.is_empty _); [| destruct (is_paragraph_candidate _)]]];
    simpl; try done;
    apply Forall_app; (split; [done |]); by repeat constructor.
Qed.

Lemma unwrap_loop_trimmed (lines : list string) (st : unwrap_state) :
  Forall trimmed_right (result st) ->
  Forall trimmed_right (result (unwrap_loop st lines)).
Proof.
  revert st. induction lines as [|l lines IH]; intros st H; [done |].
  unfold unwrap_loop in *. simpl. by apply IH, unwrap_step_trimmed.
Qed.

Lemma pop_trailing_blank_sublist (res : list string) :
  pop_trailing_blank res `sublist_of` res.
Proof.
  unfold pop_trailing_blank. destruct (last res) as [[|c l]|] eqn:H;
    try done.
  apply last_Some in H as [res' ->]. rewrite removelast_last.
  apply sublist_inserts_r. done.
Qed.

(** X4: no line that [unwrap_paragraphs] returns ends with white
    space: the lines it copies are trimmed, and a joined paragraph ends
    with the last character of its last fragment. *)
Theorem unwrap_paragraphs_trims (lines : list string) :
  Forall trimmed_right (unwrap_paragraphs lines).
Proof.
  unfold unwrap_paragraphs.
  eapply Forall_sublist_of; [apply pop_trailing_blank_sublist |].
  apply flush_buffer_trimmed, unwrap_loop_trimmed. constructor.
Qed.

(** X5: the three passes of [normalise_text] compose: the lines that it
    joins have no white space at their end and no two consecutive empty
    lines among them, and the text it returns is these lines joined,
    stripped, with one line feed added. *)
Theorem normalise_text_lines (text : string) :
  normalise_text text
  = Py.strip (Py.join (String (Py.chr 10) EmptyString) (normalised_lines text))
    +:+ String (Py.chr 10) EmptyString
  /\ Forall trimmed_right (normalised_lines text)
  /\ no_blank_pair (normalised_lines text) = true.
Proof.
  split; [reflexivity |]. unfold normalised_lines. split.
  - eapply Forall_sublist_of; [apply collapse_blank_loop_sublist |].
    apply collapse_ws_loop_trimmed.
  - apply collapse_blank_loop_shape.
Qed.

End PdfCleanupMore.

(** ** Slugs, demoted headings and the table of contents *)

Section EpubHeadingsMore.

Import Epub Notions.

Implicit Types (s : string) (c : ascii) (p : ascii -> bool).

(** *** The shape of a slug *)

Lemma spaces_to_hyphens_chars s (inrun : bool) :
  Py.all_chars slug_keeps s = true ->
  Py.all_chars is_slug_char (Py.collapse_runs_from Py.isspace "-" inrun s)
  = true.
Proof.
  revert inrun. induction s as [|c s IH]; intros inrun H; [done |].
  simpl in H. apply andb_true_iff in H as [Hc Hs]. simpl.
  destruct (Py.isspace c) eqn:Hsp.
  - destruct inrun; [by apply IH |].
    change ("-" +:+ ?x) with (String "-" x). simpl. by apply IH.
  - simpl. rewrite IH by done. rewrite andb_true_r.
    unfold slug_keeps in Hc. rewrite Hsp, orb_false_r in Hc. exact Hc.
Qed.

Lemma collapse_runs_no_adjacent p s (inrun : bool) :
  p "-"%char = true ->
  no_adjacent p (Py.collapse_runs_from p "-" inrun s) = true
  /\ (inrun = true ->
      first_is p (Py.collapse_runs_from p "-" inrun s) = false).
Proof.
  intros Hp. revert inrun. induction s as [|c s IH]; intros inrun; [done |].
  simpl. destruct (p c) eqn:Hc.
  - destruct inrun; [apply IH |].
    change ("-" +:+ ?x) with (String "-" x).
    destruct (IH true) as [H1 H2]. specialize (H2 eq_refl).
    split; [| done]. simpl.
    destruct (Py.collapse_runs_from _ _ true s) as [|b r]; [done |].
    simpl in H2. by rewrite H2, andb_false_r, H1.
  - destruct (IH false) as [H1 _]. split; [| intros _; exact Hc]. simpl.
    destruct (Py.collapse_runs_from _ _ false s) as [|b r]; [done |].
    by rewrite Hc, H1.
Qed.

Lemma lstrip_with_keeps p (q : ascii -> bool) s :
  (Py.all_chars q s = true -> Py.all_chars q (Py.lstrip_with p s) = true)
  /\ (no_adjacent p s = true -> no_adjacent p (Py.lstrip_with p s) = true)
  /\ first_is p (Py.lstrip_with p s) = false.
Proof.
  induction s as [|c s (IH1 & IH2 & IH3)]; [done |]. simpl.
  destruct (p c) eqn:Hc.
  - split; [| split; [| done]].
    + intros H. apply andb_true_iff in H as [_ H]. by apply IH1.
    + intros H. apply IH2. destruct s; [done |].
      by apply andb_true_iff in H as [_ H].
  - split; [by intros H | split; [| exact Hc]].
    intros H. simpl. by rewrite Hc.
Qed.

Lemma rstrip_with_head p s b r :
  Py.rstrip_with p s = String b r -> exists s', s = String b s'.
Proof.
  destruct s as [|c s]; [done |]. rewrite rstrip_with_cons.
  destruct (_ && _); [done |]. intros [= -> _]. by eexists.
Qed.

Lemma rstrip_with_keeps p (q : ascii -> bool) s :
  (Py.all_chars q s = true -> Py.all_chars q (Py.rstrip_with p s) = true)
  /\ (no_adjacent p s = true -> no_adjacent p (Py.rstrip_with p s) = true)
  /\ (first_is p s = false -> first_is p (Py.rstrip_with p s) = false)
  /\ last_is p (Py.rstrip_with p s) = false.
Proof.
  induction s as [|c s (IH1 & IH2 & IH3 & IH4)]; [done |].
  rewrite rstrip_with_cons.
  destruct (p c && Py.is_empty (Py.rstrip_with p s)) eqn:Hcond;
    [done |].
  split; [| split; [| split]].
  - intros H. simpl in H. apply andb_true_iff in H as [Hc H].
    simpl. by rewrite Hc, IH1.
  - intros H.
    destruct (Py.rstrip_with p s) as [|b r] eqn:Hr; [done |].
    destruct (rstrip_with_head p s b r Hr) as [s' ->].
    simpl in H. apply andb_true_iff in H as [Hcb H].
    change (negb (p c && p b) && no_adjacent p (String b r) = true).
    by rewrite Hcb, IH2.
  - done.
  - destruct (Py.rstrip_with p s) as [|b r] eqn:Hr.
    + simpl. by rewrite andb_true_r in Hcond.
    + exact IH4.
Qed.

Lemma lower_char_not_upper c : Py.is_ascii_upper (Py.lower_char c) = false.
Proof. destruct c as [[] [] [] [] [] [] [] []]; reflexivity. Qed.

Lemma lower_no_upper s :
  Py.all_chars (fun c => negb (Py.is_ascii_upper c)) (Py.lower s) = true.
Proof.
  unfold Py.lower. induction s as [|c s IH]; [done |]. simpl.
  by rewrite lower_char_not_upper, IH.
Qed.

Lemma remove_chars_keeps (q r : ascii -> bool) s :
  Py.all_chars q s = true -> Py.all_chars q (Py.remove_chars r s) = true.
Proof.
  induction s as [|c s IH]; [done |]. simpl. intros H.
  apply andb_true_iff in H as [Hc H].
  destruct (r c); simpl; [by apply IH | by rewrite Hc, IH].
Qed.

Lemma collapse_runs_keeps (q : ascii -> bool) p s (inrun : bool) :
  q "-"%char = true ->
  Py.all_chars q s = true ->
  Py.all_chars q (Py.collapse_runs_from p "-" inrun s) = true.
Proof.
  intros Hq. revert inrun. induction s as [|c s IH]; intros inrun H; [done |].
  simpl in H. apply andb_true_iff in H as [Hc Hs]. simpl.
  destruct (p c).
  - destruct inrun; [by apply IH |].
    change ("-" +:+ ?x) with (String "-" x). simpl. by rewrite Hq, IH.
  - simpl. by rewrite Hc, IH.
Qed.

(** X6: a slug that [slugify_heading] returns is made of word
    characters and hyphens only (no white space, no punctuation), has no
    ASCII capital, no two hyphens in a row, and no hyphen at its start
    or at its end. *)
Theorem slugify_heading_shape (text : string) :
  let slug := slugify_heading text in
  Py.all_chars is_slug_char slug = true
  /\ Py.all_chars (fun c => negb (Py.is_ascii_upper c)) slug = true
  /\ no_adjacent is_hyphen slug = true
  /\ first_is is_hyphen slug = false
  /\ last_is is_hyphen slug = false.
Proof.
  unfold slugify_heading, Py.strip_with, Py.collapse_runs.
  set (s0 := Py.lower (Py.strip text)).
  set (s1 := Py.remove_chars (fun c => negb (slug_keeps c)) s0).
  set (s2 := Py.collapse_runs_from Py.isspace "-" false s1).
  set (s3 := Py.collapse_runs_from (Py.is_char "-") "-" false s2).
  set (s4 := Py.lstrip_with (Py.is_char "-") s3).
  assert (H1 : Py.all_chars slug_keeps s1 = true)
    by apply all_chars_remove.
  assert (H2 : Py.all_chars is_slug_char s2 = true)
    by (by apply spaces_to_hyphens_chars).
  assert (H3 : Py.all_chars is_slug_char s3 = true)
    by (by apply collapse_runs_keeps).
  assert (U3 : Py.all_chars (fun c => negb (Py.is_ascii_upper c)) s3 = true).
  { apply collapse_runs_keeps; [done |].
    apply collapse_runs_keeps; [done |].
    apply remove_chars_keeps, lower_no_upper. }
  destruct (collapse_runs_no_adjacent is_hyphen s2 false eq_refl) as [N3 _].
  change (no_adjacent is_hyphen s3 = true) in N3.
  destruct (lstrip_with_keeps is_hyphen is_slug_char s3) as (C4 & N4 & F4).
  destruct (lstrip_with_keeps is_hyphen
              (fun c => negb (Py.is_ascii_upper c)) s3) as (U4 & _ & _).
  fold s4 in C4, N4, F4, U4.
  destruct (rstrip_with_keeps is_hyphen is_slug_char s4) as (C5 & N5 & F5 & L5).
  destruct (rstrip_with_keeps is_hyphen
              (fun c => negb (Py.is_ascii_upper c)) s4) as (U5 & _ & _ & _).
  simpl. repeat split; [apply C5 | apply U5 | apply N5 | apply F5 | apply L5];
    auto.
Qed.

(** *** Demoted headings *)

Lemma length_append s t :
  String.length (s +:+ t) = String.length s + String.length t.
Proof.
  induction s as [|c s IH]; [done |]. rewrite append_cons. simpl.
  by rewrite IH.
Qed.

Lemma rstrip_hashes (n : nat) s :
  Py.rstrip (Py.repeat_char "#" n +:+ s)
  = Py.repeat_char "#" n +:+ Py.rstrip s.
Proof.
  induction n as [|n IH]; [done |].
  change (Py.repeat_char "#" (S n) +:+ ?x)
    with (String "#" (Py.repeat_char "#" n +:+ x)).
  unfold Py.rstrip in *. rewrite rstrip_with_cons, IH. done.
Qed.

Lemma lstrip_hashes (n : nat) s :
  first_is is_hash s = false ->
  Py.lstrip_with is_hash (Py.repeat_char "#" n +:+ s) = s.
Proof.
  intros Hs. induction n as [|n IH].
  - destruct s as [|c s]; [done |]. simpl in *. by rewrite Hs.
  - change (Py.repeat_char "#" (S n) +:+ s)
      with (String "#" (Py.repeat_char "#" n +:+ s)).
    simpl. exact IH.
Qed.

Lemma length_repeat_char c (n : nat) :
  String.length (Py.repeat_char c n) = n.
Proof. induction n as [|n IH]; simpl; [done | by rewrite IH]. Qed.

Lemma hashes_then_level (n : nat) s (level : nat) (group2 : string) :
  first_is is_hash s = false ->
  HEADING_PATTERN_match (Py.repeat_char "#" n +:+ s) = Some (level, group2) ->
  level = n.
Proof.
  intros Hs. unfold HEADING_PATTERN_match.
  rewrite lstrip_hashes by done.
  rewrite length_append, length_repeat_char.
  replace (n + String.length s - String.length s) with n by lia.
  destruct (_ && _); [| done].
  destruct (Py.any_char _ _); [done |]. by intros [= <- _].
Qed.

Lemma heading_match_level (line : string) (level : nat) (group2 : string) :
  HEADING_PATTERN_match line = Some (level, group2) -> 1 <= level <= 6.
Proof.
  unfold HEADING_PATTERN_match.
  destruct ((1 <=? _) && (_ <=? 6) && _) eqn:H; [| done].
  apply andb_true_iff in H as [H _]. apply andb_true_iff in H as [H1 H6].
  apply Nat.leb_le in H1, H6.
  destruct (Py.any_char _ _); [done |]. intros [= <- _]. lia.
Qed.

(** The line written for a heading starts with the hashes of its new
    level, and a blank or nothing follows them. *)
Lemma demote_heading_line (st : demote_state) (level : nat) (group2 : string) :
  1 <= level ->
  exists x,
    new_lines (demote_heading st level group2) = new_lines st ++ [x]
    /\ no_level_1 x.
Proof.
  intros Hlevel. unfold demote_heading.
  set (text := Py.strip group2).
  set (new_level := if level =? 1 then 2 else level).
  assert (Hnew : 2 <= new_level).
  { unfold new_level. destruct (level =? 1) eqn:H; [lia |].
    apply Nat.eqb_neq in H. lia. }
  rewrite rstrip_hashes.
  assert (Htail : exists tail,
            Py.rstrip (" " +:+ text) = tail
            /\ (tail = EmptyString \/ exists t, tail = String " " t)).
  { eexists. split; [reflexivity |].
    change (" " +:+ text) with (String " " text).
    unfold Py.rstrip. rewrite rstrip_with_cons.
    destruct (_ && _); [by left | right; by eexists]. }
  destruct Htail as (tail & -> & Htail).
  destruct (_ && _); simpl; eexists; (split; [reflexivity |]);
    intros lvl g Hm.
  - rewrite append_assoc in Hm.
    apply hashes_then_level in Hm; [lia |].
    destruct Htail as [-> | [t ->]]; reflexivity.
  - apply hashes_then_level in Hm; [lia |].
    destruct Htail as [-> | [t ->]]; reflexivity.
Qed.

Lemma demote_step_outside (st : demote_state) (line : string) :
  in_code_block st = false ->
  exists x,
    new_lines (demote_step st line) = new_lines st ++ [x] /\ no_level_1 x.
Proof.
  intros Hcode. unfold demote_step. rewrite Hcode.
  destruct (is_fence_line line) eqn:Hfence.
  - exists line. split; [done |]. intros lvl g Hm.
    assert (Hh : is_heading line = true) by (unfold is_heading; by rewrite Hm).
    apply heading_is_no_fence in Hh. congruence.
  - destruct (HEADING_PATTERN_match line) as [[level group2]|] eqn:Hm.
    + apply demote_heading_line. apply heading_match_level in Hm. lia.
    + exists line. split; [done |]. intros lvl g Hm'. congruence.
Qed.

(** X7: after [demote_headings], no line outside a fence is a level-1
    heading: whenever [HEADING_PATTERN] matches such a line of the
    result, its level is 2 or more. *)
Theorem demote_headings_no_level_1 (lines : list string) (i : nat)
    (x : string) :
  (demote_headings lines).1.1 !! i = Some x ->
  inside_fence is_fence_line lines i = false ->
  no_level_1 x.
Proof.
  unfold demote_headings. simpl. intros Hx Hfence.
  destruct (demote_loop_extends lines demote_init) as (rest & Hrest & Hlen).
  simpl in Hrest.
  assert (Hi : i < length lines).
  { apply lookup_lt_Some in Hx. rewrite Hrest, Hlen in Hx. exact Hx. }
  destruct (lookup_lt_is_Some_2 lines i Hi) as [line Hline].
  revert Hx. rewrite <- (take_drop_middle lines i line Hline) at 1.
  rewrite demote_loop_app.
  change (line :: drop (S i) lines) with ([line] ++ drop (S i) lines).
  rewrite demote_loop_app.
  set (st1 := demote_loop demote_init (take i lines)).
  destruct (demote_loop_extends (take i lines) demote_init)
    as (r1 & Hr1 & Hlen1).
  fold st1 in Hr1. simpl in Hr1.
  assert (Hcode : in_code_block st1 = false).
  { unfold st1. rewrite demote_loop_fence. exact Hfence. }
  destruct (demote_step_outside st1 line Hcode) as (x' & Hx' & Hno).
  destruct (demote_loop_extends (drop (S i) lines) (demote_step st1 line))
    as (r2 & Hr2 & _).
  change (demote_loop st1 [line]) with (demote_step st1 line).
  rewrite Hr2, Hx', Hr1, <- app_assoc. simpl.
  rewrite list_lookup_middle.
  - by intros [= <-].
  - rewrite Hlen1, length_take. lia.
Qed.

Lemma demote_headings_no_level_1_witness :
  no_level_1 "## Title {#title}".
Proof.
  apply (demote_headings_no_level_1 ["# Title"; "text"] 0).
  - reflexivity.
  - reflexivity.
Defined.

(** X8: [demote_headings] records exactly one entry for each heading
    outside a fence whose level after demotion is 2 and whose title is
    not that of a table of contents, and [build_toc_lines] gives the
    block one item for each entry, between the three fixed lines; with
    no entry the block is empty. *)
Theorem toc_one_item_per_heading (lines : list string) :
  let entries := (demote_headings lines).1.2 in
  length entries = count_slugged false lines
  /\ length (build_toc_lines entries)
     = (if count_slugged false lines =? 0 then 0
        else count_slugged false lines + 3).
Proof.
  simpl. pose proof (toc_entries_count lines demote_init) as H.
  simpl in H. split; [exact H |]. rewrite <- H.
  destruct (toc_entries _) as [|e entries]; [done |].
  simpl. rewrite length_app, length_map. simpl. f_equal. lia.
Qed.

(** *** Replacing the table of contents twice *)

Lemma toc_item_no_heading (entry : string * string) :
  is_heading (toc_item entry) = false.
Proof.
  unfold toc_item. change ("- [" +:+ ?x) with (String "-" (" [" +:+ x)).
  unfold is_heading, HEADING_PATTERN_match.
  simpl Py.lstrip_with. by rewrite Nat.sub_diag.
Qed.

Lemma skip_to_heading_head (lines : list string) :
  match skip_to_heading lines with
  | [] => True
  | l :: _ => is_heading l = true
  end.
Proof.
  induction lines as [|l lines IH]; [done |]. simpl.
  destruct (is_heading l) eqn:H; done.
Qed.

Lemma replace_toc_loop_Some (lines toc_lines res : list string) :
  replace_toc_loop lines toc_lines = Some res ->
  exists pre h rest,
    lines = pre ++ h :: rest
    /\ Forall (fun l => is_toc_heading l = false) pre
    /\ is_toc_heading h = true
    /\ res = pre ++ toc_lines ++ skip_to_heading rest.
Proof.
  revert res. induction lines as [|l lines IH]; intros res; [done |].
  simpl. destruct (is_toc_heading l) eqn:Hl.
  - intros [= <-]. by exists [], l, lines.
  - destruct (replace_toc_loop lines toc_lines) as [r|]; [| done].
    intros [= <-].
    destruct (IH r eq_refl) as (pre & h & rest & -> & Hpre & Hh & ->).
    exists (l :: pre), h, rest. repeat split; try done.
    by constructor.
Qed.

(** X9: with a block built by [build_toc_lines], [replace_existing_toc]
    gives the same document and the same flag when it is run again on
    its own result; and whenever its flag is false, the lines are
    returned as they were. *)
Theorem replace_existing_toc_idempotent (lines : list string)
    (entries : list (string * string)) :
  let toc_lines := build_toc_lines entries in
  let r := replace_existing_toc lines toc_lines in
  replace_existing_toc r.1 toc_lines = r
  /\ (r.2 = false -> r.1 = lines).
Proof.
  simpl. unfold replace_existing_toc.
  destruct entries as [|e entries]; [done |].
  remember (EmptyString :: map toc_item (e :: entries) ++ [EmptyString])
    as t eqn:Ht.
  set (h := "## Table of Contents").
  assert (Hb : build_toc_lines (e :: entries) = h :: t)
    by (subst t; reflexivity).
  rewrite Hb. clear Hb.
  assert (Hh : is_toc_heading h = true) by reflexivity.
  assert (Hbody : Forall (fun l => is_heading l = false) t).
  { subst t. constructor; [done |]. apply Forall_app. split.
    - apply Forall_forall. intros x Hx.
      apply list_elem_of_In, in_map_iff in Hx as (en & <- & _).
      apply toc_item_no_heading.
    - by repeat constructor. }
  destruct (replace_toc_loop lines (h :: t)) as [res|] eqn:Hres.
  - split; [| done].
    apply replace_toc_loop_Some in Hres
      as (pre & h' & rest & -> & Hpre & Hh' & ->).
    cbn [fst].
    replace (pre ++ (h :: t) ++ skip_to_heading rest)
      with (pre ++ h :: (t ++ skip_to_heading rest)) by done.
    rewrite replace_toc_loop_found by done.
    rewrite skip_to_heading_body; [done | done |].
    apply skip_to_heading_head.
  - split; [| done]. cbn [fst]. by rewrite Hres.
Qed.

Lemma replace_existing_toc_idempotent_witness :
  (replace_existing_toc ["# T"; "text"] (build_toc_lines [("A", "a")])).1
  = ["# T"; "text"].
Proof.
  apply (proj2 (replace_existing_toc_idempotent ["# T"; "text"] [("A", "a")])).
  reflexivity.
Defined.

End EpubHeadingsMore.

(** ** ISBN values and front matter, continued *)

Section EpubMetadataMore.

Import Epub Notions.

(** *** Canonical ISBN values *)

Lemma normalize_isbn_shape (raw r : string) :
  normalize_isbn (Some raw) = Some r ->
  is_isbn13 r = true \/ is_isbn10 r = true.
Proof.
  unfold normalize_isbn. destruct (Py.is_empty raw); [done |].
  set (cleaned := Py.remove_chars _ raw).
  destruct ((String.length cleaned =? 13) && _) eqn:H13.
  - intros [= <-]. by left.
  - destruct ((String.length cleaned =? 10) && _ && _) eqn:H10; [| done].
    intros [= <-]. right.
    apply andb_true_iff in H10 as [H10 H1].
    apply andb_true_iff in H10 as [H10 H9]. apply Nat.eqb_eq in H10.
    by apply upper_isbn10.
Qed.

Lemma first_isbn_Some (candidates : list string) (r : string) :
  first_isbn candidates = Some r ->
  exists c, normalize_isbn (Some c) = Some r.
Proof.
  induction candidates as [|c candidates IH]; [done |]. cbn [first_isbn].
  destruct (normalize_isbn (Some c)) as [n|] eqn:Hc.
  - intros [= <-]. by exists c.
  - exact IH.
Qed.

Lemma remove_chars_id (p : ascii -> bool) (s : string) :
  Py.all_chars p s = true ->
  Py.remove_chars (fun c => negb (p c)) s = s.
Proof.
  induction s as [|c s IH]; [done |]. simpl. intros H.
  apply andb_true_iff in H as [Hc H]. by rewrite Hc, IH.
Qed.

Lemma all_chars_impl (p q : ascii -> bool) (s : string) :
  (forall c, p c = true -> q c = true) ->
  Py.all_chars p s = true -> Py.all_chars q s = true.
Proof.
  intros Hpq. induction s as [|c s IH]; [done |]. simpl. intros H.
  apply andb_true_iff in H as [Hc H]. by rewrite (Hpq c Hc), IH.
Qed.

Lemma digit_is_isbn_char (c : ascii) :
  Py.isdigit c = true -> is_isbn_char c = true.
Proof. unfold is_isbn_char. by intros ->. Qed.

Lemma digit_or_X_is_isbn_char (c : ascii) :
  is_digit_or_X c = true -> is_isbn_char c = true.
Proof.
  unfold is_digit_or_X, is_isbn_char.
  destruct (Py.isdigit c); [done |]. simpl. by intros ->.
Qed.

Lemma upper_char_digit_or_X (c : ascii) :
  is_digit_or_X c = true -> Py.upper_char c = c.
Proof.
  unfold is_digit_or_X. intros H. apply orb_true_iff in H as [H | H].
  - by apply upper_char_digit.
  - apply Ascii.eqb_eq in H. by subst c.
Qed.

Lemma canonical_isbn13 (r : string) :
  is_isbn13 r = true -> normalize_isbn (Some r) = Some r.
Proof.
  unfold is_isbn13. intros H. pose proof H as H'.
  apply andb_true_iff in H' as [Hlen Hdig].
  unfold normalize_isbn.
  destruct r as [|c r]; [done |]. cbn [Py.is_empty].
  rewrite remove_chars_id
    by (eapply all_chars_impl; [apply digit_is_isbn_char | done]).
  by rewrite H.
Qed.

Lemma canonical_isbn10 (r : string) :
  is_isbn10 r = true -> normalize_isbn (Some r) = Some r.
Proof.
  unfold is_isbn10. intros H.
  apply andb_true_iff in H as [H H1]. apply andb_true_iff in H as [Hlen H9].
  apply Nat.eqb_eq in Hlen.
  do 10 (destruct r as [|? r]; [discriminate |]).
  destruct r; [| discriminate].
  cbn [String.substring Py.all_chars] in H9, H1.
  rewrite andb_true_r in H1.
  repeat (apply andb_true_iff in H9 as [? H9]).
  unfold normalize_isbn. cbn [Py.is_empty].
  rewrite remove_chars_id.
  - cbn [String.length Nat.eqb andb String.substring Py.all_chars].
    repeat match goal with
           | Hd : Py.isdigit ?c = true |- _ => rewrite Hd
           end.
    rewrite (digit_or_X_is_isbn_char _ H1). cbn [andb].
    unfold Py.upper. cbn [Py.map_chars].
    rewrite (upper_char_digit_or_X _ H1).
    repeat match goal with
           | Hd : Py.isdigit ?c = true |- _ =>
               rewrite (upper_char_digit c Hd)
           end.
    done.
  - cbn [Py.all_chars].
    repeat match goal with
           | Hd : Py.isdigit ?c = true |- _ =>
               rewrite (digit_is_isbn_char c Hd)
           end.
    by rewrite (digit_or_X_is_isbn_char _ H1).
Qed.

(** X10: an identifier that [extract_isbn] returns, from the text or
    from the fallback identifiers, is in canonical form: thirteen
    digits, or nine digits and a digit or a capital X; and
    [normalize_isbn] returns it unchanged. *)
Theorem extract_isbn_canonical (text : string) (fallback : list string)
    (r : string) :
  extract_isbn text fallback = Some r ->
  (is_isbn13 r = true \/ is_isbn10 r = true)
  /\ normalize_isbn (Some r) = Some r.
Proof.
  unfold extract_isbn. intros H.
  assert (Hc : exists c, normalize_isbn (Some c) = Some r).
  { destruct (first_isbn (ISBN_PATTERN_finditer text)) as [n|] eqn:Hn.
    - injection H as ->. by apply first_isbn_Some in Hn.
    - by apply first_isbn_Some in H. }
  destruct Hc as [c Hc]. apply normalize_isbn_shape in Hc.
  split; [done |].
  destruct Hc as [H13 | H10];
    [by apply canonical_isbn13 | by apply canonical_isbn10].
Qed.

Lemma extract_isbn_canonical_witness :
  normalize_isbn (Some "030640615X") = Some "030640615X".
Proof.
  apply (extract_isbn_canonical "no number here" ["isbn 0-306-40615-x"]).
  reflexivity.
Defined.

(** *** The result of the front-matter parser *)

Lemma mem_spec (k : string) (l : list string) : mem k l = true <-> k ∈ l.
Proof.
  unfold mem. rewrite existsb_exists, list_elem_of_In. split.
  - intros (x & Hin & Heq). apply String.eqb_eq in Heq. by subst x.
  - intros Hin. exists k. split; [done |]. apply String.eqb_refl.
Qed.

Lemma dict_keys_set (k : string) (v : value) (m : dict) :
  dict_keys (dict_set k v m)
  = if mem k (dict_keys m) then dict_keys m else dict_keys m ++ [k].
Proof.
  unfold dict_keys, mem. induction m as [|[k' v'] m IH]; [done |].
  cbn [dict_set map fst existsb].
  destruct (String.eqb k k') eqn:Hk.
  - apply String.eqb_eq in Hk. by subst k'.
  - cbn [map fst orb]. rewrite IH. by destruct (existsb _ _).
Qed.

Lemma dict_get_mem (k : string) (m : dict) (v : value) :
  dict_get k m = Some v -> mem k (dict_keys m) = true.
Proof.
  unfold dict_keys, mem. induction m as [|[k' v'] m IH]; [done |].
  cbn [dict_get map fst existsb].
  destruct (String.eqb k k'); [done |]. exact IH.
Qed.

Lemma parse_step_inv (st st' : parse_state) (raw : string) :
  parse_inv (metadata st) (order st) (quoted st) ->
  parse_step st raw = Some st' ->
  parse_inv (metadata st') (order st') (quoted st').
Proof.
  intros (Hkeys & Hnd & Hq & Hne). unfold parse_step.
  destruct (_ || _); [by intros [= <-] |].
  destruct (Py.startswith (Py.strip raw) "- ").
  { destruct (current_key st) as [key|]; [| done].
    destruct (Py.is_empty key); [done |].
    destruct (dict_get key (metadata st)) as [[s|items]|] eqn:Hget; try done.
    intros [= <-]. cbn [metadata order quoted].
    split; [| done].
    rewrite dict_keys_set, (dict_get_mem _ _ _ Hget). exact Hkeys. }
  destruct (Py.split_once ":" raw) as [[key_part value_part]|]; [| done].
  set (key := Py.strip key_part).
  destruct (Py.is_empty key) eqn:Hkey; [done |].
  apply is_empty_false in Hkey.
  assert (Hshape :
    forall v q',
      (forall k, k ∈ q' -> k ∈ quoted st \/ k = key) ->
      parse_inv (dict_set key v (metadata st))
        (if mem key (order st) then order st else order st ++ [key]) q').
  { intros v q' Hq'. unfold parse_inv.
    rewrite dict_keys_set, Hkeys.
    destruct (mem key (order st)) eqn:Hmem.
    - apply mem_spec in Hmem. split; [done |]. split; [done |].
      split; [| done]. intros k Hk.
      destruct (Hq' k Hk) as [H | ->]; [by apply Hq | done].
    - assert (Hnot : key ∉ order st).
      { intros Hin. apply mem_spec in Hin. congruence. }
      split; [done |]. split.
      + apply NoDup_app. split; [done |]. split.
        * intros x Hx Hx'. apply list_elem_of_singleton in Hx'. by subst x.
        * apply NoDup_singleton.
      + split.
        * intros k Hk. apply elem_of_app.
          destruct (Hq' k Hk) as [H | ->];
            [left; by apply Hq | right; by apply list_elem_of_singleton].
        * apply Forall_app. split; [done |]. constructor; [| done].
          split; [done |]. apply strip_with_idem. }
  destruct (Py.is_empty (Py.strip value_part)).
  { intros [= <-]. cbn [metadata order quoted]. apply Hshape. by left. }
  destruct (_ || _); intros [= <-]; cbn [metadata order quoted];
    apply Hshape.
  - intros k Hk. apply elem_of_union in Hk as [Hk | Hk]; [| by left].
    apply elem_of_singleton in Hk. by right.
  - by left.
Qed.

Lemma parse_loop_inv (lines : list string) (st st' : parse_state) :
  parse_inv (metadata st) (order st) (quoted st) ->
  parse_loop st lines = Some st' ->
  parse_inv (metadata st') (order st') (quoted st').
Proof.
  revert st. induction lines as [|raw lines IH]; intros st Hinv; simpl.
  - by intros [= <-].
  - destruct (parse_step st raw) as [st1|] eqn:Hstep; [| done].
    apply IH. by apply (parse_step_inv st st1 raw).
Qed.

(** X11: whenever [parse_front_matter_block] returns a result, the keys
    of the dictionary, in insertion order, are exactly the captured key
    order; no key occurs twice; every key recorded as quoted is one of
    them; and every key is a non-empty text without white space at
    either end. *)
Theorem parse_front_matter_block_keys (lines : list string) (m : dict)
    (o : list string) (q : gset string) :
  parse_front_matter_block lines = Some (m, o, q) ->
  parse_inv m o q.
Proof.
  unfold parse_front_matter_block.
  destruct lines as [|first rest]; [done |].
  destruct (last (first :: rest)) as [final|]; [| done].
  destruct (_ || _); [done |].
  destruct (parse_loop parse_init (removelast rest)) as [st|] eqn:Hloop;
    [| done].
  intros [= <- <- <-].
  apply (parse_loop_inv (removelast rest) parse_init st); [| done].
  unfold parse_inv. simpl.
  split; [done |]. split; [apply NoDup_nil_2 |]. split; [| done].
  intros k Hk. by apply not_elem_of_empty in Hk.
Qed.

Lemma parse_front_matter_block_keys_witness :
  parse_inv
    [("title", VStr "A"); ("tags", VList ["x"])] ["title"; "tags"] {[ "title" ]}.
Proof.
  apply (parse_front_matter_block_keys
           ["---"; "title: 'B'"; "tags:"; "  - x"; "title: " +:+ dquote
              +:+ "A" +:+ dquote; "---"]).
  vm_compute. reflexivity.
Defined.

(** *** The split into front matter and body *)

Lemma collect_front_matter_split (rest : list string) (idx : nat) :
  (collect_front_matter idx rest).1
    ++ drop (length (collect_front_matter idx rest).1) rest = rest
  /\ match (collect_front_matter idx rest).2 with
     | Some i => i = idx + length (collect_front_matter idx rest).1
     | None => (collect_front_matter idx rest).1 = rest
     end.
Proof.
  revert idx. induction rest as [|l rest IH]; intros idx; [done |].
  simpl. destruct (is_marker l).
  - simpl. split; [by rewrite drop_0 | lia].
  - destruct (IH (S idx)) as [H1 H2].
    destruct (collect_front_matter (S idx) rest) as [c stop]. simpl in *.
    split; [by rewrite H1 |].
    destruct stop; [lia | by rewrite H2].
Qed.

Lemma collect_front_matter_closed (mid : list string) (close : string)
    (rest : list string) (idx : nat) :
  Forall (fun l => is_marker l = false) mid ->
  is_marker close = true ->
  collect_front_matter idx (mid ++ close :: rest)
  = (mid ++ [close], Some (idx + length mid + 1)).
Proof.
  intros Hmid Hclose. revert idx.
  induction Hmid as [|l mid Hl _ IH]; intros idx; simpl.
  - rewrite Hclose. f_equal. f_equal. lia.
  - rewrite Hl, IH. f_equal. f_equal. lia.
Qed.

(** X12: the head of [adjust_headings_and_build_toc] loses no line and
    moves none: the front-matter lines followed by the body lines are
    the input, and the body starts right after the front matter.  When
    a marker line closes the block, the front matter runs up to and
    including the first closing marker and the body is what follows. *)
Theorem front_matter_partition (lines : list string) :
  front_matter_lines (read_front_matter lines) ++ body_lines lines = lines
  /\ body_start (read_front_matter lines)
     = length (front_matter_lines (read_front_matter lines))
  /\ (forall (first : string) (mid : list string) (close : string)
             (rest : list string),
        lines = first :: mid ++ close :: rest ->
        is_marker first = true ->
        Forall (fun l => is_marker l = false) mid ->
        is_marker close = true ->
        front_matter_lines (read_front_matter lines)
        = first :: mid ++ [close]
        /\ body_lines lines = rest).
Proof.
  split; [| split].
  - unfold body_lines, read_front_matter.
    destruct lines as [|first rest]; [done |].
    destruct (is_marker first); [| done].
    destruct (collect_front_matter_split rest 1) as [H1 H2].
    destruct (collect_front_matter 1 rest) as [c stop]. simpl in *.
    destruct stop as [i|].
    + subst i. simpl. by rewrite H1.
    + subst c. simpl. by rewrite H1.
  - unfold read_front_matter.
    destruct lines as [|first rest]; [done |].
    destruct (is_marker first); [| done].
    destruct (collect_front_matter_split rest 1) as [H1 H2].
    destruct (collect_front_matter 1 rest) as [c stop]. simpl in *.
    destruct stop as [i|]; [lia | by subst c].
  - intros first mid close rest -> Hfirst Hmid Hclose.
    unfold body_lines, read_front_matter. rewrite Hfirst.
    rewrite collect_front_matter_closed by done. simpl. split; [done |].
    assert (Hsplit : mid ++ close :: rest = (mid ++ [close]) ++ rest)
      by (by rewrite <- app_assoc).
    rewrite Hsplit. apply drop_app_length'.
    rewrite length_app. simpl. lia.
Qed.

Lemma front_matter_partition_witness :
  front_matter_lines
    (read_front_matter ["---"; "title: x"; "---"; ""; "# Heading"])
  = ["---"; "title: x"; "---"]
  /\ body_lines ["---"; "title: x"; "---"; ""; "# Heading"]
     = [""; "# Heading"].
Proof.
  apply (proj2 (proj2 (front_matter_partition
                         ["---"; "title: x"; "---"; ""; "# Heading"]))
           "---" ["title: x"] "---" [""; "# Heading"]).
  - reflexivity.
  - reflexivity.
  - repeat constructor.
  - reflexivity.
Defined.

End EpubMetadataMore.

(** ** The output of the page filter *)

Section CollectMore.

Import PdfToMarkdown Notions.

Variable config : ExtractionConfig.

Lemma no_blank_pair_app (a b : list string) :
  no_blank_pair (a ++ b)
  = no_blank_pair a && no_blank_pair b && junction a b.
Proof.
  induction a as [|x a IH]; [by rewrite andb_true_r |].
  destruct a as [|z a].
  - destruct b as [|y b]; [done |]. unfold junction. simpl.
    by rewrite andb_comm.
  - change (no_blank_pair ((x :: z :: a) ++ b))
      with (negb (Py.is_empty x && Py.is_empty z)
            && no_blank_pair ((z :: a) ++ b)).
    rewrite IH.
    change (no_blank_pair (x :: z :: a))
      with (negb (Py.is_empty x && Py.is_empty z) && no_blank_pair (z :: a)).
    unfold junction. rewrite last_cons_cons.
    by rewrite !andb_assoc.
Qed.

Lemma no_blank_pair_texts (l : list string) :
  Forall has_text l -> no_blank_pair l = true.
Proof.
  induction 1 as [|x l Hx _ IH]; [done |]. simpl.
  destruct l as [|y l]; [done |].
  apply is_empty_false in Hx. by rewrite Hx, IH.
Qed.

Lemma filter_texts (l : list string) :
  Forall has_text l -> filter has_text l = l.
Proof.
  induction 1 as [|x l Hx _ IH]; [done |].
  by rewrite filter_cons_True, IH.
Qed.

(** *** The entries have text *)

Lemma collect_item_texts (page_height : Q) (st : page_state)
    (item : layout_item) :
  Forall (fun e => has_text e.1) (page_entries st) ->
  Forall (fun e => has_text e.1)
    (page_entries (collect_item config page_height st item)).
Proof.
  intros H. unfold collect_item. destruct item as [line|]; [| done].
  destruct (Py.is_empty (Py.strip (get_text line))) eqn:He; [done |].
  apply is_empty_false in He.
  destruct (Qle_bool _ _); [| destruct (Qle_bool _ _)]; simpl;
    apply Forall_app; (split; [done |]); by repeat constructor.
Qed.

Lemma collect_element_texts (page_height : Q) (element : layout_element)
    (st : page_state) :
  Forall (fun e => has_text e.1) (page_entries st) ->
  Forall (fun e => has_text e.1)
    (page_entries (collect_element config page_height st element)).
Proof.
  destruct element as [items|]; [| done]. simpl. revert st.
  induction items as [|item items IH]; intros st H; [done |].
  simpl. by apply IH, collect_item_texts.
Qed.

Lemma collect_elements_texts (page_height : Q) (els : list layout_element)
    (st : page_state) :
  Forall (fun e => has_text e.1) (page_entries st) ->
  Forall (fun e => has_text e.1)
    (page_entries (fold_left (collect_element config page_height) els st)).
Proof.
  revert st. induction els as [|el els IH]; intros st H; [done |].
  simpl. by apply IH, collect_element_texts.
Qed.

Lemma collect_pages_texts (layouts : list page_layout) (st : collect_state) :
  Forall (Forall (fun e => has_text e.1)) (pages st) ->
  Forall (Forall (fun e => has_text e.1))
    (pages (fold_left (collect_page config) layouts st)).
Proof.
  revert st. induction layouts as [|page layouts IH]; intros st H; [done |].
  simpl. apply IH. unfold collect_page. simpl.
  apply Forall_app. split; [done |]. constructor; [| done].
  by apply collect_elements_texts.
Qed.

(** *** The second loop *)

Lemma kept_texts_have_text (hd fd : gset string)
    (entries : list (string * region)) :
  Forall (fun e => has_text e.1) entries ->
  Forall has_text
    (map fst (filter (fun e => keeps config hd fd e = true) entries)).
Proof.
  intros H. apply Forall_forall. intros t Ht.
  apply list_elem_of_In, in_map_iff in Ht as (e & <- & He).
  apply list_elem_of_In, list_elem_of_filter in He as [_ He].
  rewrite Forall_forall in H. by apply H.
Qed.

Lemma emit_page_tidy (hd fd : gset string) (out : list string)
    (entries : list (string * region)) :
  Forall (fun e => has_text e.1) entries ->
  tidy out ->
  tidy (emit_page config hd fd out entries)
  /\ filter has_text (emit_page config hd fd out entries)
     = filter has_text out
       ++ map fst (filter (fun e => keeps config hd fd e = true) entries).
Proof.
  intros Hent (Hn & Hh & Hl). unfold emit_page.
  pose proof (kept_texts_have_text hd fd entries Hent) as Hpl.
  destruct (map fst _) as [|x pl] eqn:Hmap.
  { split; [done | by rewrite app_nil_r]. }
  assert (Hx : x <> EmptyString) by (by apply Forall_cons in Hpl as [? _]).
  assert (Hlast : exists y, last (x :: pl) = Some y /\ y <> EmptyString).
  { destruct (last (x :: pl)) as [y|] eqn:Hy.
    - exists y. split; [done |].
      apply last_Some_elem_of in Hy. rewrite Forall_forall in Hpl.
      by apply Hpl.
    - by apply last_None in Hy. }
  destruct Hlast as (y & Hy & Hyne).
  destruct (last out) as [l|] eqn:Hlo.
  - specialize (Hl l eq_refl). apply is_empty_false in Hl. rewrite Hl.
    simpl negb. cbv iota. split.
    + split; [| split].
      * rewrite !no_blank_pair_app, Hn, (no_blank_pair_texts _ Hpl).
        unfold junction. rewrite Hlo. simpl.
        apply is_empty_false in Hx. by rewrite Hl, Hx.
      * intros h Hhd. apply Hh. destruct out; [done |]. exact Hhd.
      * intros z Hz. rewrite app_assoc, last_app, Hy in Hz.
        by injection Hz as <-.
    + rewrite !filter_app, (filter_texts _ Hpl).
      by rewrite (filter_cons_False _ EmptyString) by (by intros ?).
  - apply last_None in Hlo. subst out. simpl. split.
    + split; [by apply no_blank_pair_texts | split].
      * by intros h [= <-].
      * intros z Hz. rewrite Hy in Hz. by injection Hz as <-.
    + by rewrite (filter_texts _ Hpl).
Qed.

Lemma emit_pages_tidy (hd fd : gset string)
    (pgs : list (list (string * region))) (out : list string) :
  Forall (Forall (fun e => has_text e.1)) pgs ->
  tidy out ->
  tidy (fold_left (emit_page config hd fd) pgs out)
  /\ filter has_text (fold_left (emit_page config hd fd) pgs out)
     = filter has_text out
       ++ map fst (filter (fun e => keeps config hd fd e = true) (concat pgs)).
Proof.
  intros Hpgs. revert out.
  induction Hpgs as [|page pgs Hpage _ IH]; intros out Hout.
  - simpl. split; [done | by rewrite app_nil_r].
  - simpl fold_left.
    destruct (emit_page_tidy hd fd out page Hpage Hout) as [Ht Hf].
    destruct (IH _ Ht) as [Ht' Hf']. split; [done |].
    rewrite Hf', Hf. simpl concat.
    by rewrite filter_app, map_app, app_assoc.
Qed.

(** *** The last loop *)

Lemma normalize_keeps (lines normalized : list string) :
  no_blank_pair (normalized ++ lines) = true ->
  fold_left normalize_step lines normalized = normalized ++ lines.
Proof.
  revert normalized. induction lines as [|x lines IH]; intros normalized H.
  - by rewrite app_nil_r.
  - simpl fold_left.
    assert (Hstep : normalize_step normalized x = normalized ++ [x]).
    { unfold normalize_step.
      destruct (last normalized) as [[|c l]|] eqn:Hl; try done.
      destruct (Py.is_empty x) eqn:Hx; [| done].
      rewrite no_blank_pair_app in H.
      apply andb_true_iff in H as [_ H].
      unfold junction in H. rewrite Hl in H. simpl in H.
      by rewrite Hx in H. }
    rewrite Hstep, IH; rewrite <- app_assoc; done.
Qed.

End CollectMore.

Section CollectMoreClaim.

Import PdfToMarkdown Notions.

Lemma keeps_passes (config : ExtractionConfig)
    (layouts : list page_layout) (entry : string * region) :
  let st := fold_left (collect_page config) layouts collect_init in
  let thr := threshold config (total_pages st) in
  keeps config (drop_set (header_counts st) thr)
    (drop_set (footer_counts st) thr) entry
  = passes config (threshold config (length layouts))
      (tagged_entries config layouts) entry.
Proof.
  intros st thr.
  destruct (collect_pages_inv config layouts 0 collect_init) as [Hagree Htotal];
    [by split |].
  fold st in Hagree, Htotal. simpl in Htotal.
  unfold thr. rewrite Htotal. clear thr.
  set (thr := threshold config (length layouts)).
  pose proof (threshold_pos config (length layouts)) as Hpos. fold thr in Hpos.
  destruct entry as [t reg]. unfold keeps, passes. simpl.
  destruct (Hagree t) as [Hh Hf].
  change (concat (pages st)) with (tagged_entries config layouts) in Hh, Hf.
  destruct reg; simpl.
  - rewrite <- Hh.
    destruct (decide (thr <= count_of (header_counts st) t)) as [Hle | Hgt].
    + rewrite bool_decide_eq_true_2 by (by apply drop_set_spec).
      apply Nat.ltb_ge in Hle. by rewrite Hle.
    + rewrite bool_decide_eq_false_2
        by (intros Hd; by apply drop_set_spec in Hd).
      assert (Hlt : (count_of (header_counts st) t <? thr) = true)
        by (apply Nat.ltb_lt; lia).
      rewrite Hlt. simpl. by destruct (should_skip_text _ _).
  - by destruct (should_skip_text _ _).
  - rewrite <- Hf.
    destruct (decide (thr <= count_of (footer_counts st) t)) as [Hle | Hgt].
    + rewrite bool_decide_eq_true_2 by (by apply drop_set_spec).
      apply Nat.ltb_ge in Hle. by rewrite Hle.
    + rewrite bool_decide_eq_false_2
        by (intros Hd; by apply drop_set_spec in Hd).
      assert (Hlt : (count_of (footer_counts st) t <? thr) = true)
        by (apply Nat.ltb_lt; lia).
      rewrite Hlt. simpl. by destruct (should_skip_text _ _).
Qed.

(** X13: the lines with text that [collect_text_lines] returns are
    exactly the texts of the entries that pass the two filters, each as
    often as it passes, in the order of the pages and of the lines on
    each page; the output has no two empty lines in a row and does not
    start with an empty line; and it is empty or ends with one empty
    line. *)
Theorem collect_text_lines_order (layouts : list page_layout)
    (config : ExtractionConfig) :
  let out := collect_text_lines layouts config in
  filter has_text out = retained_texts config layouts
  /\ no_blank_pair out = true
  /\ (forall x, head out = Some x -> x <> EmptyString)
  /\ (out = [] \/ last out = Some EmptyString).
Proof.
  unfold collect_text_lines, retained_texts.
  set (st := fold_left (collect_page config) layouts collect_init).
  set (thr := threshold config (total_pages st)).
  set (hd := drop_set (header_counts st) thr).
  set (fd := drop_set (footer_counts st) thr).
  assert (Htexts : Forall (Forall (fun e => has_text e.1)) (pages st)).
  { apply collect_pages_texts. constructor. }
  assert (Htidy0 : tidy []) by (by split; [| split]).
  destruct (emit_pages_tidy config hd fd (pages st) [] Htexts Htidy0)
    as [(Hn & Hh & Hl) Hf].
  set (o := fold_left (emit_page config hd fd) (pages st) []) in *.
  rewrite (normalize_keeps o []) by done. simpl app.
  assert (Hkeep : filter (fun e => keeps config hd fd e = true)
                    (concat (pages st))
                  = filter (fun e => passes config
                                       (threshold config (length layouts))
                                       (tagged_entries config layouts) e
                                     = true)
                      (tagged_entries config layouts)).
  { apply list_filter_iff. intros e.
    rewrite <- (keeps_passes config layouts e). reflexivity. }
  unfold close_output. destruct (last o) as [l|] eqn:Hlast.
  - specialize (Hl l eq_refl). apply is_empty_false in Hl. rewrite Hl.
    simpl negb. cbv iota. split; [| split; [| split]].
    + rewrite filter_app, Hf, <- Hkeep. simpl.
      rewrite (filter_cons_False _ EmptyString) by (by intros ?).
      by rewrite filter_nil, app_nil_r.
    + rewrite no_blank_pair_app, Hn. unfold junction. rewrite Hlast.
      simpl. by rewrite Hl.
    + intros x Hx. apply Hh. destruct o; [done |]. exact Hx.
    + right. apply last_snoc.
  - apply last_None in Hlast. rewrite Hlast in *.
    split; [| split; [| split]]; try done.
    + rewrite Hf, <- Hkeep. done.
    + by left.
Qed.

Lemma collect_text_lines_order_witness :
  head (collect_text_lines sample_pages default_config)
  = Some "Body of page 1"
  /\ "Body of page 1" <> EmptyString.
Proof.
  assert (H : head (collect_text_lines sample_pages default_config)
              = Some "Body of page 1") by (by vm_compute).
  split; [exact H |].
  exact (proj1 (proj2 (proj2 (collect_text_lines_order sample_pages
                                default_config))) _ H).
Defined.

End CollectMoreClaim.

(** ** The passes over the body lines of the EPUB cleanup *)

Section EpubPassesMore.

Import EpubPasses Notions.

(** *** The loop that the fence-aware passes share *)

Section FencedMap.

Variable test : string -> bool.
Variable rewrite : string -> string.

Lemma fenced_map_length (lines : list string) (code : bool) :
  length (fenced_map test rewrite code lines) = length lines.
Proof.
  revert code. induction lines as [|l lines IH]; intros code; [done |].
  simpl. destruct (test l); [| destruct code]; simpl; by rewrite IH.
Qed.

Lemma fenced_map_lookup (lines : list string) (code : bool) (i : nat)
    (line : string) :
  lines !! i = Some line ->
  fenced_map test rewrite code lines !! i
  = Some (if test line || fence_state test code (take i lines)
          then line else rewrite line).
Proof.
  revert code i. induction lines as [|l lines IH]; intros code i Hi; [done |].
  destruct i as [|i].
  - injection Hi as ->. simpl.
    destruct (test line); [done |]. by destruct code.
  - simpl in Hi. simpl.
    destruct (test l); [| destruct code]; simpl; by apply IH.
Qed.

Lemma fenced_map_idempotent (lines : list string) (code : bool) :
  (forall line, test line = false ->
     test (rewrite line) = false /\ rewrite (rewrite line) = rewrite line) ->
  fenced_map test rewrite code (fenced_map test rewrite code lines)
  = fenced_map test rewrite code lines.
Proof.
  intros Hrw. revert code.
  induction lines as [|l lines IH]; intros code; [done |].
  simpl. destruct (test l) eqn:Hl.
  - simpl. by rewrite Hl, IH.
  - destruct code; simpl.
    + by rewrite Hl, IH.
    + destruct (Hrw l Hl) as [H1 H2]. by rewrite H1, H2, IH.
Qed.

End FencedMap.

(** *** Dash rules *)

Lemma dash_rule_line_done (line : string) :
  DASH_RULE_PATTERN_match (Py.strip (dash_rule_line line)) = false
  /\ dash_rule_line (dash_rule_line line) = dash_rule_line line.
Proof.
  unfold dash_rule_line.
  destruct (DASH_RULE_PATTERN_match (Py.strip line)) eqn:H.
  - by vm_compute.
  - by rewrite H.
Qed.

Lemma dash_rule_line_no_fence (line : string) :
  is_fence line = false -> is_fence (dash_rule_line line) = false.
Proof.
  unfold dash_rule_line. by destruct (DASH_RULE_PATTERN_match _).
Qed.

(** X14: [convert_dash_rules] returns one line for each input line and
    copies every line that is a fence marker or inside a fence.  Of
    the other lines, one that is a rule of five hyphens or more, white
    space around it apart, becomes [<hr>], and any other is kept as it
    is; so no such rule is left outside a fence, and running the pass
    twice gives the same result. *)
Theorem convert_dash_rules_spec (lines : list string) :
  length (convert_dash_rules lines) = length lines
  /\ convert_dash_rules (convert_dash_rules lines) = convert_dash_rules lines
  /\ forall (i : nat) (line : string),
       lines !! i = Some line ->
       (is_fence line = true \/ inside_fence is_fence lines i = true ->
        convert_dash_rules lines !! i = Some line)
       /\ (is_fence line = false -> inside_fence is_fence lines i = false ->
           (DASH_RULE_PATTERN_match (Py.strip line) = true ->
            convert_dash_rules lines !! i = Some "<hr>")
           /\ (DASH_RULE_PATTERN_match (Py.strip line) = false ->
               convert_dash_rules lines !! i = Some line)
           /\ (forall x,
                 convert_dash_rules lines !! i = Some x ->
                 DASH_RULE_PATTERN_match (Py.strip x) = false)).
Proof.
  unfold convert_dash_rules. split; [apply fenced_map_length |]. split.
  - apply fenced_map_idempotent. intros line Hl. split.
    + by apply dash_rule_line_no_fence.
    + apply dash_rule_line_done.
  - intros i line Hi.
    rewrite (fenced_map_lookup _ _ lines false i line Hi).
    unfold inside_fence. split.
    + intros [-> | ->]; [done | by rewrite orb_true_r].
    + intros -> ->. cbn [orb]. split; [| split].
      * intros Hrule. unfold dash_rule_line. by rewrite Hrule.
      * intros Hrule. unfold dash_rule_line. by rewrite Hrule.
      * intros x [= <-]. apply dash_rule_line_done.
Qed.

Lemma convert_dash_rules_spec_witness :
  convert_dash_rules ["a"; "```"; "------"; "```"; " ------ "] !! 2
  = Some "------"
  /\ convert_dash_rules ["a"; "```"; "------"; "```"; " ------ "] !! 4
     = Some "<hr>"
  /\ convert_dash_rules ["a"; "```"; "------"; "```"; " ------ "] !! 0
     = Some "a".
Proof.
  pose proof (proj2 (proj2 (convert_dash_rules_spec
                              ["a"; "```"; "------"; "```"; " ------ "])))
    as H.
  split; [| split].
  - apply (proj1 (H 2 "------" eq_refl)). right. reflexivity.
  - apply (proj1 (proj2 (H 4 " ------ " eq_refl) eq_refl eq_refl)).
    reflexivity.
  - apply (proj1 (proj2 (proj2 (H 0 "a" eq_refl) eq_refl eq_refl))).
    reflexivity.
Defined.

(** *** Capital lines set in bold *)

Lemma length_lstrip_with (p : ascii -> bool) (s : string) :
  String.length (Py.lstrip_with p s) <= String.length s.
Proof.
  induction s as [|c s IH]; simpl; [lia |]. destruct (p c); simpl; lia.
Qed.

Lemma leading_prefix (p : ascii -> bool) (s : string) :
  Py.all_chars p
    (String.substring 0
       (String.length s - String.length (Py.lstrip_with p s)) s) = true.
Proof.
  induction s as [|c s IH]; [done |]. simpl Py.lstrip_with.
  destruct (p c) eqn:Hc.
  - pose proof (length_lstrip_with p s) as Hle.
    replace (String.length (String c s) - String.length (Py.lstrip_with p s))
      with (S (String.length s - String.length (Py.lstrip_with p s)))
      by (simpl; lia).
    simpl. by rewrite Hc, IH.
  - by rewrite Nat.sub_diag.
Qed.

Lemma lstrip_with_prefix (p q : ascii -> bool) (pre : string) (c : ascii)
    (s : string) :
  (forall a, p a = true -> q a = true) ->
  Py.all_chars p pre = true ->
  q c = false ->
  Py.lstrip_with q (pre +:+ String c s) = String c s.
Proof.
  intros Hpq Hpre Hc. induction pre as [|a pre IH].
  - rewrite append_nil. simpl. by rewrite Hc.
  - rewrite append_cons. simpl in Hpre |- *.
    apply andb_true_iff in Hpre as [Ha Hpre].
    by rewrite (Hpq a Ha), IH.
Qed.

Lemma space_is_space (a : ascii) :
  Py.is_char " " a = true -> Py.isspace a = true.
Proof. intros H. apply Ascii.eqb_eq in H. by subst a. Qed.

Lemma bold_line_cases (line : string) :
  bold_line line = line
  \/ bold_line line
     = String.substring 0
         (String.length line
          - String.length (Py.lstrip_with (Py.is_char " ") line)) line
       +:+ ("**" +:+ Py.strip line +:+ "**").
Proof.
  unfold bold_line.
  destruct (Py.is_empty (Py.strip line)); [by left |].
  destruct (starts_with_marker (Py.strip line)); [by left |].
  destruct (_ && _ && _); [by left |].
  destruct (_ && _); [by left |].
  destruct (_ && _); [by left |].
  destruct (Py.is_empty _); [by left |].
  destruct (Py.any_char _ _); [by left | by right].
Qed.

Lemma bold_line_done (line : string) :
  is_fence_after_spaces line = false ->
  is_fence_after_spaces (bold_line line) = false
  /\ bold_line (bold_line line) = bold_line line.
Proof.
  intros Hfence. destruct (bold_line_cases line) as [H | H]; rewrite H.
  { by rewrite H. }
  set (stripped := Py.strip line).
  set (pre := String.substring 0 _ line).
  assert (Hpre : Py.all_chars (Py.is_char " ") pre = true)
    by apply leading_prefix.
  change ("**" +:+ stripped +:+ "**")
    with (String "*" ("*" +:+ stripped +:+ "**")).
  split.
  - unfold is_fence_after_spaces.
    by rewrite (lstrip_with_prefix (Py.is_char " ") (Py.is_char " ")).
  - unfold bold_line at 1. unfold Py.strip, Py.strip_with.
    rewrite (lstrip_with_prefix (Py.is_char " ") Py.isspace)
      by (done || apply space_is_space).
    rewrite rstrip_with_cons. done.
Qed.

(** X15: [bold_uppercase_lines] returns one line for each input line,
    copies every line that is a fence marker or inside a fence, and
    gives the same result when it is run twice: a line that it has set
    in bold is left alone the next time. *)
Theorem bold_uppercase_lines_idempotent (lines : list string) :
  length (bold_uppercase_lines lines) = length lines
  /\ bold_uppercase_lines (bold_uppercase_lines lines)
     = bold_uppercase_lines lines
  /\ forall (i : nat) (line : string),
       lines !! i = Some line ->
       is_fence_after_spaces line = true
       \/ inside_fence is_fence_after_spaces lines i = true ->
       bold_uppercase_lines lines !! i = Some line.
Proof.
  unfold bold_uppercase_lines. split; [apply fenced_map_length |]. split.
  - apply fenced_map_idempotent. apply bold_line_done.
  - intros i line Hi Hkeep.
    rewrite (fenced_map_lookup _ _ lines false i line Hi).
    unfold inside_fence in Hkeep.
    destruct Hkeep as [-> | ->]; [done | by rewrite orb_true_r].
Qed.

Lemma bold_uppercase_lines_idempotent_witness :
  bold_uppercase_lines ["  CHAPTER ONE"; "~~~"; "CODE"; "~~~"] !! 2
  = Some "CODE".
Proof.
  apply (proj2 (proj2 (bold_uppercase_lines_idempotent
                         ["  CHAPTER ONE"; "~~~"; "CODE"; "~~~"])) 2).
  - reflexivity.
  - right. reflexivity.
Defined.

(** *** Inline pictures *)

Lemma remove_svg_loop_sublist (lines : list string) (in_svg : bool) :
  remove_svg_loop in_svg lines `sublist_of` lines.
Proof.
  revert in_svg. induction lines as [|l lines IH]; intros in_svg; simpl.
  - constructor.
  - destruct (negb in_svg && _); [by apply sublist_cons |].
    destruct in_svg; [by apply sublist_cons | by apply sublist_skip].
Qed.

Lemma remove_svg_loop_clean (lines : list string) (in_svg : bool) :
  Forall (fun l => SVG_OPEN_PATTERN_search l = false)
    (remove_svg_loop in_svg lines).
Proof.
  revert in_svg. induction lines as [|l lines IH]; intros in_svg; simpl.
  - constructor.
  - destruct in_svg; simpl; [apply IH |].
    destruct (SVG_OPEN_PATTERN_search l) eqn:Hl; [apply IH |].
    by constructor.
Qed.

Lemma remove_svg_loop_fixed (lines : list string) :
  Forall (fun l => SVG_OPEN_PATTERN_search l = false) lines ->
  remove_svg_loop false lines = lines.
Proof.
  induction 1 as [|l lines Hl _ IH]; [done |]. simpl. by rewrite Hl, IH.
Qed.

(** X16: [remove_svg_blocks] only deletes lines: what it returns is a
    sublist of its input, in which no line holds an opening [svg] tag;
    a list without such a tag is returned as it is, so running the pass
    twice gives the same result. *)
Theorem remove_svg_blocks_spec (lines : list string) :
  remove_svg_blocks lines `sublist_of` lines
  /\ Forall (fun l => SVG_OPEN_PATTERN_search l = false)
       (remove_svg_blocks lines)
  /\ (Forall (fun l => SVG_OPEN_PATTERN_search l = false) lines ->
      remove_svg_blocks lines = lines)
  /\ remove_svg_blocks (remove_svg_blocks lines) = remove_svg_blocks lines.
Proof.
  unfold remove_svg_blocks.
  split; [apply remove_svg_loop_sublist |].
  split; [apply remove_svg_loop_clean |].
  split; [apply remove_svg_loop_fixed |].
  apply remove_svg_loop_fixed, remove_svg_loop_clean.
Qed.

Lemma remove_svg_blocks_spec_witness :
  remove_svg_blocks ["text"; "more </svg> text"]
  = ["text"; "more </svg> text"].
Proof.
  apply (proj1 (proj2 (proj2 (remove_svg_blocks_spec
                                ["text"; "more </svg> text"])))).
  repeat constructor.
Defined.

(** *** The empty line after a hyphen list *)

Lemma bullet_has_text (line : string) :
  HYPHEN_BULLET_PATTERN_match line = true ->
  Py.is_empty (Py.strip line) = false.
Proof.
  unfold HYPHEN_BULLET_PATTERN_match, Py.strip, Py.strip_with, Py.lstrip.
  destruct (Py.lstrip_with Py.isspace line) as [|c rest]; [done |].
  intros H. rewrite rstrip_with_cons.
  destruct (Ascii.eqb c "-") eqn:Hc.
  - apply Ascii.eqb_eq in Hc. by subst c.
  - exfalso. revert H.
    destruct c as [[] [] [] [] [] [] [] []]; try done.
Qed.

Lemma ensure_blank_loop_head (line : string) (rest : list string)
    (code : bool) :
  head (ensure_blank_loop code (line :: rest)) = Some line.
Proof.
  simpl. destruct (is_fence line); [done |]. destruct code; [done |].
  by destruct (_ && _ && _).
Qed.

Lemma wants_blank_after_head (a b : list string) :
  head a = head b -> wants_blank_after a = wants_blank_after b.
Proof.
  destruct a as [|x a], b as [|y b]; try done. by intros [= ->].
Qed.

Lemma ensure_blank_loop_wants (rest : list string) (code : bool) :
  wants_blank_after (ensure_blank_loop code rest) = wants_blank_after rest.
Proof.
  apply wants_blank_after_head. destruct rest as [|x rest]; [done |].
  apply ensure_blank_loop_head.
Qed.

Lemma ensure_blank_loop_closed (lines : list string) (code : bool) :
  bullets_closed code (ensure_blank_loop code lines) = true.
Proof.
  revert code. induction lines as [|l lines IH]; intros code; [done |].
  simpl. destruct (is_fence l) eqn:Hf.
  - simpl. by rewrite Hf, IH.
  - destruct code.
    + simpl. by rewrite Hf, IH.
    + destruct (HYPHEN_BULLET_PATTERN_match l) eqn:Hb; simpl.
      * rewrite (bullet_has_text l Hb), andb_true_r.
        destruct (wants_blank_after lines) eqn:Hw; simpl.
        -- rewrite Hf, Hb. simpl. apply IH.
        -- rewrite Hf, Hb, ensure_blank_loop_wants, Hw. simpl. apply IH.
      * rewrite Hf, Hb. simpl. apply IH.
Qed.

Lemma ensure_blank_loop_fixed (lines : list string) (code : bool) :
  bullets_closed code lines = true -> ensure_blank_loop code lines = lines.
Proof.
  revert code. induction lines as [|l lines IH]; intros code; [done |].
  simpl. destruct (is_fence l).
  - intros H. by rewrite IH.
  - destruct code.
    + intros H. by rewrite IH.
    + intros H. apply andb_true_iff in H as [H1 H2].
      rewrite IH by done.
      destruct (HYPHEN_BULLET_PATTERN_match l); [| done].
      destruct (wants_blank_after lines); [done | done].
Qed.

Lemma ensure_blank_loop_sublist (lines : list string) (code : bool) :
  lines `sublist_of` ensure_blank_loop code lines
  /\ filter has_text (ensure_blank_loop code lines) = filter has_text lines.
Proof.
  revert code. induction lines as [|l lines IH]; intros code; [done |].
  assert (Hcopy : forall c,
            l :: lines `sublist_of` l :: ensure_blank_loop c lines
            /\ filter has_text (l :: ensure_blank_loop c lines)
               = filter has_text (l :: lines)).
  { intros c. destruct (IH c) as [H1 H2]. split; [by apply sublist_skip |].
    by rewrite !filter_cons, H2. }
  simpl. destruct (is_fence l); [apply Hcopy |].
  destruct code; [apply Hcopy |].
  destruct (_ && _ && _); [| apply Hcopy].
  destruct (IH false) as [H1 H2]. split.
  - by apply sublist_skip, sublist_cons.
  - rewrite (filter_cons _ l), (filter_cons _ l).
    rewrite (filter_cons_False _ EmptyString) by (by intros ?).
    by rewrite H2.
Qed.

(** X17: [ensure_blank_line_after_hyphen_lists] only inserts empty
    lines: its input is a sublist of its result, with the same lines
    that have text; in the result no hyphen bullet outside a fence is
    the last line or is followed by a line of text that is no bullet;
    and running the pass twice gives the same result. *)
Theorem ensure_blank_line_after_hyphen_lists_spec (lines : list string) :
  let out := ensure_blank_line_after_hyphen_lists lines in
  lines `sublist_of` out
  /\ filter has_text out = filter has_text lines
  /\ bullets_closed false out = true
  /\ ensure_blank_line_after_hyphen_lists out = out.
Proof.
  unfold ensure_blank_line_after_hyphen_lists. simpl.
  destruct (ensure_blank_loop_sublist lines false) as [H1 H2].
  split; [done |]. split; [done |].
  split; [apply ensure_blank_loop_closed |].
  apply ensure_blank_loop_fixed, ensure_blank_loop_closed.
Qed.

(** *** Styles of classes *)

Lemma aggregate_fold (class_names : list string)
    (style_map : gmap string (gset string)) (acc : gset string) (tag : string) :
  tag ∈ fold_left (fun styles class_name =>
                     styles ∪ default ∅ (style_map !! class_name))
          class_names acc
  <-> tag ∈ acc
      \/ exists c S, c ∈ class_names /\ style_map !! c = Some S /\ tag ∈ S.
Proof.
  revert acc. induction class_names as [|c cs IH]; intros acc; simpl.
  - split; [by left |]. intros [H | (c & S & Hc & _)]; [done |].
    by apply elem_of_nil in Hc.
  - rewrite IH, elem_of_union. split.
    + intros [[H | H] | (c' & S & Hc' & Hm & Ht)].
      * by left.
      * right. destruct (style_map !! c) as [S|] eqn:Hm; simpl in H.
        -- exists c, S. split; [apply elem_of_cons; by left | done].
        -- by apply not_elem_of_empty in H.
      * right. exists c', S. split; [apply elem_of_cons; by right | done].
    + intros [H | (c' & S & Hc' & Hm & Ht)]; [by left; left |].
      apply elem_of_cons in Hc' as [-> | Hc'].
      * left. right. by rewrite Hm.
      * right. by exists c', S.
Qed.

(** X18: [aggregate_styles] is the union of the style sets of the
    classes that the map knows; classes that the map lacks add nothing,
    so a span whose classes are all unknown keeps its text unchanged;
    and whatever the styles, [apply_inline_styles] only wraps the text,
    which stays whole inside the result. *)
Theorem unknown_classes_add_no_style (class_names : list string)
    (style_map : gmap string (gset string)) (text : string) :
  (forall tag,
     tag ∈ aggregate_styles class_names style_map <->
     exists c S, c ∈ class_names /\ style_map !! c = Some S /\ tag ∈ S)
  /\ ((forall c, c ∈ class_names -> style_map !! c = None) ->
      apply_inline_styles text (aggregate_styles class_names style_map)
      = text)
  /\ (forall styles : gset string,
        exists before after,
          apply_inline_styles text styles = before +:+ text +:+ after).
Proof.
  assert (Hagg : forall tag,
             tag ∈ aggregate_styles class_names style_map <->
             exists c S, c ∈ class_names /\ style_map !! c = Some S /\ tag ∈ S).
  { intros tag. unfold aggregate_styles. rewrite aggregate_fold.
    split; [| by right]. intros [H | H]; [| done].
    by apply not_elem_of_empty in H. }
  split; [exact Hagg |]. split.
  - intros Hnone.
    assert (Hempty : aggregate_styles class_names style_map = ∅).
    { apply set_eq. intros tag. rewrite Hagg. split.
      - intros (c & S & Hc & Hm & _). rewrite (Hnone c Hc) in Hm. done.
      - intros H. by apply not_elem_of_empty in H. }
    unfold apply_inline_styles. by rewrite Hempty, bool_decide_eq_true_2.
  - intros styles. unfold apply_inline_styles, wrap_tag.
    destruct (bool_decide (styles = ∅)).
    { exists EmptyString, EmptyString. by rewrite append_empty_r. }
    set (emphasis := if _ && _ then _ else _).
    assert (Hinner : exists b a,
              (if Py.is_empty emphasis then text
               else emphasis +:+ text +:+ emphasis) = b +:+ text +:+ a).
    { destruct (Py.is_empty emphasis).
      - exists EmptyString, EmptyString. by rewrite append_empty_r.
      - by exists emphasis, emphasis. }
    destruct Hinner as (b & a & ->).
    destruct (bool_decide ("sup" ∈ styles)), (bool_decide ("sub" ∈ styles)).
    + exists ("<sub>" +:+ "<sup>" +:+ b), (a +:+ "</sup>" +:+ "</sub>").
      by rewrite !append_assoc.
    + exists ("<sup>" +:+ b), (a +:+ "</sup>"). by rewrite !append_assoc.
    + exists ("<sub>" +:+ b), (a +:+ "</sub>"). by rewrite !append_assoc.
    + by exists b, a.
Qed.

Lemma unknown_classes_add_no_style_witness :
  apply_inline_styles "word"
    (aggregate_styles ["calibre3"; "x"] {[ "bold1" := {[ "bold" ]} ]})
  = "word".
Proof.
  apply (proj1 (proj2 (unknown_classes_add_no_style ["calibre3"; "x"]
                         {[ "bold1" := {[ "bold" ]} ]} "word"))).
  intros c Hc. apply lookup_singleton_ne.
  apply elem_of_cons in Hc as [-> | Hc]; [done |].
  apply list_elem_of_singleton in Hc. by subst c.
Defined.

End EpubPassesMore.

(** ** The whitespace passes of the Acrobat cleanup *)

Section AcrobatPassesMore.

Import AcrobatPasses Notions.

Lemma is_cr_eqb (c : ascii) : Ascii.eqb (Py.chr 13) c = is_cr c.
Proof. by destruct c as [[] [] [] [] [] [] [] []]. Qed.

Lemma limit_newlines_bounded (s : string) (run : nat) :
  run <= 2 ->
  bounded_runs Epub.is_newline 2 run (limit_newlines run s) = true.
Proof.
  revert run. induction s as [|c s IH]; intros run Hrun; [done |].
  cbn [limit_newlines]. destruct (Epub.is_newline c) eqn:Hc.
  - destruct (run <? 2) eqn:Hlt; [| by apply IH].
    apply Nat.ltb_lt in Hlt. cbn [bounded_runs]. rewrite Hc.
    rewrite IH by lia. rewrite andb_true_r. apply Nat.leb_le. lia.
  - cbn [bounded_runs]. rewrite Hc. apply IH. lia.
Qed.

Lemma limit_newlines_fixed (s : string) (run : nat) :
  bounded_runs Epub.is_newline 2 run s = true -> limit_newlines run s = s.
Proof.
  revert run. induction s as [|c s IH]; intros run; [done |].
  cbn [limit_newlines bounded_runs]. destruct (Epub.is_newline c).
  - intros H. apply andb_true_iff in H as [H1 H2]. apply Nat.leb_le in H1.
    assert (Hlt : (run <? 2) = true) by (apply Nat.ltb_lt; lia).
    by rewrite Hlt, IH.
  - intros H. by rewrite IH.
Qed.

Lemma limit_newlines_no_cr (s : string) (run : nat) :
  Py.any_char is_cr s = false ->
  Py.any_char is_cr (limit_newlines run s) = false.
Proof.
  revert run. induction s as [|c s IH]; intros run; [done |].
  cbn [limit_newlines Py.any_char]. intros H.
  apply orb_false_iff in H as [H1 H2].
  destruct (Epub.is_newline c).
  - destruct (run <? 2); [| by apply IH].
    cbn [Py.any_char]. by rewrite H1, IH.
  - cbn [Py.any_char]. by rewrite H1, IH.
Qed.

Lemma replace_cr_no_cr (s : string) :
  Py.any_char is_cr
    (Py.replace_char (Py.chr 13) (String (Py.chr 10) EmptyString) s) = false.
Proof.
  induction s as [|c s IH]; [done |].
  cbn [Py.replace_char]. rewrite is_cr_eqb. destruct (is_cr c) eqn:Hc.
  - change (String (Py.chr 10) EmptyString +:+ ?x)
      with (String (Py.chr 10) x).
    cbn [Py.any_char]. by rewrite IH.
  - cbn [Py.any_char]. by rewrite Hc, IH.
Qed.

Lemma replace_cr_fixed (r s : string) :
  Py.any_char is_cr s = false -> Py.replace_char (Py.chr 13) r s = s.
Proof.
  induction s as [|c s IH]; [done |].
  cbn [Py.replace_char Py.any_char]. rewrite is_cr_eqb. intros H.
  apply orb_false_iff in H as [H1 H2]. by rewrite H1, IH.
Qed.

Lemma replace_crlf_fixed (s : string) :
  Py.any_char is_cr s = false -> replace_crlf s = s.
Proof.
  induction s as [|c s IH]; [done |].
  cbn [Py.any_char]. intros H. apply orb_false_iff in H as [H1 H2].
  destruct s as [|c' s'']; [done |].
  change (replace_crlf (String c (String c' s'')))
    with (if is_cr c && Epub.is_newline c'
          then String c' (replace_crlf s'')
          else String c (replace_crlf (String c' s''))).
  by rewrite H1, IH.
Qed.

(** X19: what the Acrobat [collapse_blank_lines] returns holds no
    carriage return and no run of more than two line feeds; a text that
    is already so is returned unchanged, so running the pass twice
    gives the same result. *)
Theorem acrobat_collapse_blank_lines_spec (text : string) :
  let out := AcrobatPasses.collapse_blank_lines text in
  Py.any_char is_cr out = false
  /\ runs_at_most Epub.is_newline 2 out = true
  /\ AcrobatPasses.collapse_blank_lines out = out
  /\ (Py.any_char is_cr text = false ->
      runs_at_most Epub.is_newline 2 text = true ->
      out = text).
Proof.
  assert (Hfix : forall t,
            Py.any_char is_cr t = false ->
            runs_at_most Epub.is_newline 2 t = true ->
            AcrobatPasses.collapse_blank_lines t = t).
  { intros t H1 H2. unfold AcrobatPasses.collapse_blank_lines.
    rewrite (replace_crlf_fixed t H1), (replace_cr_fixed _ t H1).
    by apply limit_newlines_fixed. }
  assert (Hcr : Py.any_char is_cr (AcrobatPasses.collapse_blank_lines text)
                = false).
  { apply limit_newlines_no_cr, replace_cr_no_cr. }
  assert (Hrun : runs_at_most Epub.is_newline 2
                   (AcrobatPasses.collapse_blank_lines text) = true).
  { apply limit_newlines_bounded. lia. }
  cbv zeta. split; [done |]. split; [done |].
  split; [by apply Hfix |]. apply Hfix.
Qed.

Lemma acrobat_collapse_blank_lines_spec_witness :
  AcrobatPasses.collapse_blank_lines "a b" = "a b".
Proof.
  apply (proj2 (proj2 (proj2 (acrobat_collapse_blank_lines_spec "a b"))));
    reflexivity.
Defined.

Lemma collapse_runs_bounded (p : ascii -> bool) (rc : ascii) (s : string)
    (inrun : bool) :
  p rc = true ->
  bounded_runs p 1 (if inrun then 1 else 0)
    (Py.collapse_runs_from p (String rc EmptyString) inrun s) = true.
Proof.
  intros Hrc. revert inrun. induction s as [|c s IH]; intros inrun; [done |].
  cbn [Py.collapse_runs_from]. destruct (p c) eqn:Hc.
  - destruct inrun; [apply (IH true) |].
    change (String rc EmptyString +:+ ?x) with (String rc x).
    cbn [bounded_runs]. rewrite Hrc. apply (IH true).
  - cbn [bounded_runs]. rewrite Hc. apply (IH false).
Qed.

Lemma bounded_runs_app (p : ascii -> bool) (k : nat) (sep : ascii)
    (a b : string) (run : nat) :
  p sep = false ->
  bounded_runs p k run a = true ->
  bounded_runs p k 0 b = true ->
  bounded_runs p k run (a +:+ String sep b) = true.
Proof.
  intros Hsep. revert run. induction a as [|c a IH]; intros run Ha Hb.
  - rewrite append_nil. cbn [bounded_runs]. by rewrite Hsep.
  - rewrite append_cons. cbn [bounded_runs] in Ha |- *.
    destruct (p c).
    + apply andb_true_iff in Ha as [H1 H2]. rewrite H1. by apply IH.
    + by apply IH.
Qed.

Lemma bounded_runs_join (p : ascii -> bool) (k : nat) (sep : ascii)
    (lines : list string) :
  p sep = false ->
  Forall (fun l => bounded_runs p k 0 l = true) lines ->
  bounded_runs p k 0 (Py.join (String sep EmptyString) lines) = true.
Proof.
  intros Hsep. induction 1 as [|l lines Hl Hrest IH]; [done |].
  destruct lines as [|l' lines]; [done |].
  change (Py.join (String sep EmptyString) (l :: l' :: lines))
    with (l +:+ String sep (Py.join (String sep EmptyString) (l' :: lines))).
  by apply bounded_runs_app.
Qed.

Lemma splitlines_from_cons (cur : string) (c : ascii) (s : string) :
  Py.splitlines_from cur (String c s)
  = if Py.is_linebreak c then
      match s with
      | String c' s'' =>
          if (Py.code c =? 13) && (Py.code c' =? 10)
          then cur :: Py.splitlines_from EmptyString s''
          else cur :: Py.splitlines_from EmptyString s
      | EmptyString => [cur]
      end
    else Py.splitlines_from (cur +:+ String c EmptyString) s.
Proof. reflexivity. Qed.

Lemma splitlines_from_feed (cur : string) :
  cur <> EmptyString ->
  Py.splitlines_from cur (String (Py.chr 10) EmptyString)
  = Py.splitlines_from cur EmptyString.
Proof.
  intros Hcur. rewrite splitlines_from_cons.
  change (Py.splitlines_from cur EmptyString)
    with (if Py.is_empty cur then [] else [cur]).
  by rewrite (proj2 (is_empty_false cur) Hcur).
Qed.

Lemma splitlines_from_open (n : nat) :
  forall (s cur : string),
    String.length s <= n ->
    open_ended s = true ->
    s <> EmptyString \/ cur <> EmptyString ->
    Py.splitlines_from cur (s +:+ String (Py.chr 10) EmptyString)
    = Py.splitlines_from cur s.
Proof.
  induction n as [|n IH]; intros s cur Hlen Hopen Hne.
  - destruct s; [| simpl in Hlen; lia].
    destruct Hne as [? | Hcur]; [done |].
    rewrite append_nil. by apply splitlines_from_feed.
  - destruct s as [|c s].
    { destruct Hne as [? | Hcur]; [done |].
      rewrite append_nil. by apply splitlines_from_feed. }
    rewrite append_cons. simpl in Hlen.
    rewrite (splitlines_from_cons cur c s).
    rewrite (splitlines_from_cons cur c (s +:+ _)).
    destruct (Py.is_linebreak c) eqn:Hc.
    + destruct s as [|c' s'].
      { cbn [open_ended] in Hopen. by rewrite Hc in Hopen. }
      rewrite append_cons.
      change (open_ended (String c (String c' s')))
        with (open_ended (String c' s')) in Hopen.
      destruct ((Py.code c =? 13) && (Py.code c' =? 10)) eqn:Hpair.
      * f_equal. destruct s' as [|c'' s''].
        { exfalso. apply andb_true_iff in Hpair as [_ H].
          cbn [open_ended] in Hopen. revert H Hopen.
          by destruct c' as [[] [] [] [] [] [] [] []]. }
        apply IH; [simpl in Hlen |- *; lia | done | by left].
      * f_equal. rewrite <- append_cons.
        apply IH; [simpl in Hlen |- *; lia | done | by left].
    + apply IH; [lia | | right].
      * destruct s; [done |]. exact Hopen.
      * by destruct cur.
Qed.

(** X20: in what [collapse_spaces] returns no two spaces follow each
    other.  The pass joins the lines again without a final line break:
    a text whose last character is no line boundary gives the same
    result with a line feed added at its end. *)
Theorem collapse_spaces_spec (text : string) :
  runs_at_most (Py.is_char " ") 1 (collapse_spaces text) = true
  /\ (open_ended text = true ->
      collapse_spaces (text +:+ String (Py.chr 10) EmptyString)
      = collapse_spaces text).
Proof.
  split.
  - unfold collapse_spaces, runs_at_most.
    apply bounded_runs_join; [done |].
    apply Forall_fmap, Forall_true. intros x.
    apply (collapse_runs_bounded (Py.is_char " ") " " x false). done.
  - intros Hopen. unfold collapse_spaces, Py.splitlines.
    destruct text as [|c text]; [done |].
    rewrite (splitlines_from_open (String.length (String c text)));
      [done | lia | done | by left].
Qed.

Lemma collapse_spaces_spec_witness :
  collapse_spaces ("a  b" +:+ String (Py.chr 10) EmptyString)
  = collapse_spaces "a  b".
Proof.
  apply (proj2 (collapse_spaces_spec "a  b")). reflexivity.
Defined.

End AcrobatPassesMore.

(** ** The anchors and the table of contents of the Acrobat cleanup *)

Section AcrobatTocMore.

Import Acrobat Notions.

Lemma spaces_to_hyphens_anchor (s : string) (inrun : bool) :
  Py.all_chars Acrobat.slug_keeps s = true ->
  Py.all_chars is_anchor_char (Py.collapse_runs_from Py.isspace "-" inrun s)
  = true.
Proof.
  revert inrun. induction s as [|c s IH]; intros inrun H; [done |].
  cbn [Py.all_chars] in H. apply andb_true_iff in H as [Hc Hs].
  cbn [Py.collapse_runs_from]. destruct (Py.isspace c) eqn:Hsp.
  - destruct inrun; [by apply IH |].
    change ("-" +:+ ?x) with (String "-" x).
    cbn [Py.all_chars]. by rewrite IH.
  - cbn [Py.all_chars]. rewrite IH by done. rewrite andb_true_r.
    unfold Acrobat.slug_keeps in Hc. unfold is_anchor_char, is_hyphen.
    by rewrite Hsp, orb_false_r in Hc.
Qed.

Lemma anchor_char_plain (c : ascii) :
  is_anchor_char c = true ->
  Py.lower_char c = c /\ Py.isspace c = false
  /\ Acrobat.slug_keeps c = true /\ (is_hyphen c = true -> c = "-"%char).
Proof. by destruct c as [[] [] [] [] [] [] [] []]. Qed.

Lemma anchor_lower (s : string) :
  Py.all_chars is_anchor_char s = true -> Py.lower s = s.
Proof.
  unfold Py.lower. induction s as [|c s IH]; [done |].
  cbn [Py.all_chars Py.map_chars]. intros H.
  apply andb_true_iff in H as [Hc Hs].
  destruct (anchor_char_plain c Hc) as (-> & _). by rewrite IH.
Qed.

Lemma anchor_kept (s : string) :
  Py.all_chars is_anchor_char s = true ->
  Py.remove_chars (fun c => negb (Acrobat.slug_keeps c)) s = s.
Proof.
  induction s as [|c s IH]; [done |].
  cbn [Py.all_chars Py.remove_chars]. intros H.
  apply andb_true_iff in H as [Hc Hs].
  destruct (anchor_char_plain c Hc) as (_ & _ & -> & _). simpl.
  by rewrite IH.
Qed.

Lemma anchor_no_space (s : string) :
  Py.all_chars is_anchor_char s = true ->
  Py.all_chars (fun c => negb (Py.isspace c)) s = true.
Proof.
  induction s as [|c s IH]; [done |].
  cbn [Py.all_chars]. intros H. apply andb_true_iff in H as [Hc Hs].
  destruct (anchor_char_plain c Hc) as (_ & -> & _). by rewrite IH.
Qed.

Lemma no_class_strip (p : ascii -> bool) (s : string) :
  Py.all_chars (fun c => negb (p c)) s = true -> Py.strip_with p s = s.
Proof.
  intros H. unfold Py.strip_with.
  assert (Hl : Py.lstrip_with p s = s).
  { destruct s as [|c s]; [done |]. cbn [Py.all_chars] in H.
    apply andb_true_iff in H as [Hc _]. apply negb_true_iff in Hc.
    simpl. by rewrite Hc. }
  rewrite Hl. clear Hl. induction s as [|c s IH]; [done |].
  cbn [Py.all_chars] in H. apply andb_true_iff in H as [Hc Hs].
  apply negb_true_iff in Hc. rewrite rstrip_with_cons, Hc. simpl.
  by rewrite IH.
Qed.

Lemma no_class_collapse (p : ascii -> bool) (r s : string) (inrun : bool) :
  Py.all_chars (fun c => negb (p c)) s = true ->
  Py.collapse_runs_from p r inrun s = s.
Proof.
  revert inrun. induction s as [|c s IH]; intros inrun H; [done |].
  cbn [Py.all_chars] in H. apply andb_true_iff in H as [Hc Hs].
  apply negb_true_iff in Hc. cbn [Py.collapse_runs_from].
  by rewrite Hc, IH.
Qed.

Lemma single_collapse (p : ascii -> bool) (s : string) (inrun : bool) :
  (forall c, p c = true -> c = "-"%char) ->
  no_adjacent p s = true ->
  (inrun = true -> first_is p s = false) ->
  Py.collapse_runs_from p "-" inrun s = s.
Proof.
  intros Hp. revert inrun.
  induction s as [|c s IH]; intros inrun Hadj Hfirst; [done |].
  cbn [Py.collapse_runs_from]. destruct (p c) eqn:Hc.
  - destruct inrun; [by specialize (Hfirst eq_refl); simpl in Hfirst;
                       rewrite Hc in Hfirst |].
    change ("-" +:+ ?x) with (String "-" x).
    rewrite (Hp c Hc). f_equal. apply IH.
    + destruct s; [done |]. by apply andb_true_iff in Hadj as [_ H].
    + intros _. destruct s as [|b s]; [done |].
      apply andb_true_iff in Hadj as [H _]. simpl.
      rewrite Hc in H. simpl in H. by apply negb_true_iff in H.
  - f_equal. apply IH; [| done].
    destruct s; [done |]. by apply andb_true_iff in Hadj as [_ H].
Qed.

(** X21: an anchor that the Acrobat [slugify_heading] returns is made
    of ASCII small letters, digits and hyphens only and has no two
    hyphens in a row; such a text is its own anchor, so the function
    gives the same result when it is applied twice. *)
Theorem acrobat_slugify_heading_shape (title : string) :
  let slug := Acrobat.slugify_heading title in
  Py.all_chars is_anchor_char slug = true
  /\ no_adjacent is_hyphen slug = true
  /\ Acrobat.slugify_heading slug = slug.
Proof.
  assert (Hshape : Py.all_chars is_anchor_char (Acrobat.slugify_heading title)
                   = true
                   /\ no_adjacent is_hyphen (Acrobat.slugify_heading title)
                      = true).
  { unfold Acrobat.slugify_heading, Py.collapse_runs, Py.strip, Py.strip_with.
    set (s1 := Py.remove_chars _ (Py.lower title)).
    assert (H1 : Py.all_chars Acrobat.slug_keeps s1 = true)
      by apply all_chars_remove.
    destruct (lstrip_with_keeps Py.isspace Acrobat.slug_keeps s1)
      as (H2 & _ & _).
    destruct (rstrip_with_keeps Py.isspace Acrobat.slug_keeps
                (Py.lstrip_with Py.isspace s1)) as (H3 & _ & _ & _).
    split.
    - apply collapse_runs_keeps; [done |].
      apply spaces_to_hyphens_anchor. auto.
    - apply (collapse_runs_no_adjacent is_hyphen). done. }
  destruct Hshape as [Hc Ha]. cbv zeta. split; [done |]. split; [done |].
  set (slug := Acrobat.slugify_heading title) in *.
  unfold Acrobat.slugify_heading at 1.
  rewrite (anchor_lower slug Hc), (anchor_kept slug Hc).
  unfold Py.strip. rewrite (no_class_strip Py.isspace slug)
    by (by apply anchor_no_space).
  unfold Py.collapse_runs.
  rewrite (no_class_collapse Py.isspace "-" slug false)
    by (by apply anchor_no_space).
  apply (single_collapse is_hyphen); [| done | done].
  intros c H. unfold is_hyphen, Py.is_char in H.
  apply Ascii.eqb_eq in H. done.
Qed.

(** *** The table of contents *)

Lemma heading_re_match_shape (l t : string) :
  heading_re_match l = Some t ->
  exists rest, l = String "#" (String "#" (String " " rest)).
Proof.
  unfold heading_re_match.
  destruct l as [|a l]; [done |].
  destruct a as [[] [] [] [] [] [] [] []]; try done.
  destruct l as [|b l]; [done |].
  destruct b as [[] [] [] [] [] [] [] []]; try done.
  destruct l as [|c l]; [done |].
  destruct c as [[] [] [] [] [] [] [] []]; try done.
  intros _. by exists l.
Qed.

Lemma heading_re_match_eq (rest : string) :
  heading_re_match (String "#" (String "#" (String " " rest)))
  = match rest with
    | EmptyString => None
    | String c _ =>
        if Py.is_char "#" c then None
        else if Py.is_empty (Py.rstrip rest)
        then (if Epub.is_newline c then None else Some EmptyString)
        else if Py.any_char Epub.is_newline (Py.rstrip rest) then None
        else Some (Py.strip rest)
    end.
Proof. reflexivity. Qed.

Lemma heading_starts_level_2 (l t : string) :
  heading_re_match l = Some t -> Py.startswith l "## " = true.
Proof.
  intros H. destruct (heading_re_match_shape l t H) as [rest ->].
  unfold Py.startswith. cbn. by destruct rest.
Qed.

Lemma strip_level_2 (rest : string) :
  Py.strip (String "#" (String "#" (String " " rest)))
  = if Py.is_empty (Py.rstrip rest) then "##"
    else String "#" (String "#" (String " " (Py.rstrip rest))).
Proof.
  unfold Py.strip, Py.strip_with, Py.rstrip.
  change (Py.lstrip_with Py.isspace (String "#" ?x)) with (String "#" x).
  rewrite !rstrip_with_cons.
  by destruct (Py.is_empty (Py.rstrip_with Py.isspace rest)).
Qed.

Lemma lower_t_no_space (c : ascii) :
  Py.lower_char c = "t"%char -> Py.isspace c = false.
Proof. by destruct c as [[] [] [] [] [] [] [] []]. Qed.

Lemma toc_line_no_heading (l : string) :
  is_toc_line l = true -> collect_headings [l] = [].
Proof.
  intros Htoc. cbn [collect_headings].
  destruct (heading_re_match l) as [t|] eqn:Hm; [| done].
  destruct (heading_re_match_shape l t Hm) as [rest ->].
  rewrite heading_re_match_eq in Hm. unfold is_toc_line in Htoc.
  rewrite strip_level_2 in Htoc.
  destruct rest as [|c r]; [done |].
  destruct (Py.is_char "#" c); [done |].
  destruct (Py.is_empty (Py.rstrip (String c r))) eqn:HR; [done |].
  destruct (Py.any_char _ _); [done |]. injection Hm as <-.
  apply String.eqb_eq in Htoc.
  change (Py.lower (String "#" (String "#" (String " " ?x))))
    with (String "#" (String "#" (String " " (Py.lower x)))) in Htoc.
  injection Htoc as Hlow.
  assert (Hc : Py.isspace c = false).
  { unfold Py.rstrip in HR, Hlow. rewrite rstrip_with_cons in HR, Hlow.
    destruct (Py.isspace c && _); [done |].
    unfold Py.lower in Hlow. cbn [Py.map_chars] in Hlow.
    injection Hlow as Hlow _. by apply lower_t_no_space. }
  unfold Py.strip, Py.strip_with. cbn [Py.lstrip_with]. rewrite Hc.
  fold (Py.rstrip (String c r)). by rewrite Hlow.
Qed.

Lemma collect_headings_app (a b : list string) :
  collect_headings (a ++ b) = collect_headings a ++ collect_headings b.
Proof.
  induction a as [|l a IH]; [done |]. cbn [app collect_headings].
  destruct (heading_re_match l) as [t|]; [| done].
  destruct (String.eqb _ _); [done |]. by rewrite IH.
Qed.

Lemma collect_headings_no_level_2 (body : list string) :
  Forall (fun l => Py.startswith l "## " = false) body ->
  collect_headings body = [].
Proof.
  induction 1 as [|l body Hl _ IH]; [done |]. cbn [collect_headings].
  destruct (heading_re_match l) as [t|] eqn:Hm; [| done].
  by rewrite (heading_starts_level_2 l t Hm) in Hl.
Qed.

Lemma skip_to_level_2_split (lines : list string) :
  exists body,
    lines = body ++ skip_to_level_2 lines
    /\ Forall (fun l => Py.startswith l "## " = false) body
    /\ match skip_to_level_2 lines with
       | [] => True
       | l :: _ => Py.startswith l "## " = true
       end.
Proof.
  induction lines as [|l lines (body & Heq & Hbody & Hpost)].
  - by exists [].
  - cbn [skip_to_level_2]. destruct (Py.startswith l "## ") eqn:Hl.
    + exists []. by rewrite Hl.
    + exists (l :: body). split; [by rewrite <- app_comm_cons, <- Heq |].
      split; [by constructor | done].
Qed.

Lemma skip_to_level_2_over (body rest : list string) :
  Forall (fun l => Py.startswith l "## " = false) body ->
  skip_to_level_2 (body ++ rest) = skip_to_level_2 rest.
Proof.
  induction 1 as [|l body Hl _ IH]; [done |].
  cbn [app skip_to_level_2]. by rewrite Hl.
Qed.

Lemma collect_headings_skip (lines : list string) :
  collect_headings (skip_to_level_2 lines) = collect_headings lines.
Proof.
  destruct (skip_to_level_2_split lines) as (body & Heq & Hbody & _).
  rewrite Heq at 2.
  by rewrite collect_headings_app, (collect_headings_no_level_2 body).
Qed.

Lemma toc_tail_no_level_2 (entries : list (string * string)) :
  Forall (fun l => Py.startswith l "## " = false)
    (EmptyString :: map Epub.toc_item entries ++ [EmptyString]).
Proof.
  constructor; [done |]. apply Forall_app. split.
  - apply Forall_fmap, Forall_true. by intros [title slug].
  - by repeat constructor.
Qed.

Lemma toc_block_no_heading (entries : list (string * string)) :
  collect_headings
    (["## Table of Contents"; EmptyString] ++ map Epub.toc_item entries
     ++ [EmptyString]) = [].
Proof.
  change (collect_headings
            (EmptyString :: map Epub.toc_item entries ++ [EmptyString]) = []).
  apply collect_headings_no_level_2, toc_tail_no_level_2.
Qed.

Lemma replace_toc_cases (lines toc_lines : list string) :
  match replace_toc lines toc_lines with
  | Some r =>
      exists pre h rest,
        lines = pre ++ h :: rest
        /\ Forall (fun l => is_toc_line l = false) pre
        /\ is_toc_line h = true
        /\ r = pre ++ toc_lines ++ skip_to_level_2 rest
  | None => Forall (fun l => is_toc_line l = false) lines
  end.
Proof.
  induction lines as [|l lines IH]; [by constructor |].
  cbn [replace_toc]. destruct (is_toc_line l) eqn:Hl.
  - by exists [], l, lines.
  - destruct (replace_toc lines toc_lines) as [r|].
    + destruct IH as (pre & h & rest & -> & Hpre & Hh & ->).
      exists (l :: pre), h, rest. split; [done |].
      split; [by constructor | done].
    + by constructor.
Qed.

Lemma second_run (pre tail : list string) (lines : list string) :
  collect_headings lines <> [] ->
  Forall (fun l => is_toc_line l = false) pre ->
  collect_headings (pre ++ acrobat_toc_lines lines ++ tail)
  = collect_headings lines ->
  insert_table_of_contents_lines (pre ++ acrobat_toc_lines lines ++ tail)
  = Some (pre ++ acrobat_toc_lines lines ++ skip_to_level_2 tail).
Proof.
  intros Hne Hpre Hsame. unfold insert_table_of_contents_lines.
  rewrite Hsame. destruct (collect_headings lines) as [|e entries] eqn:He;
    [done |].
  unfold acrobat_toc_lines. rewrite He.
  change (["## Table of Contents"; EmptyString] ++ ?x)
    with ("## Table of Contents" :: EmptyString :: x).
  rewrite <- !app_comm_cons.
  rewrite acrobat_replace_toc_found by done.
  rewrite (app_comm_cons _ tail EmptyString).
  rewrite skip_to_level_2_over; [done |].
  apply (toc_tail_no_level_2 (e :: entries)).
Qed.

(** X22: the Acrobat [insert_table_of_contents], on the lines of the
    text, keeps the level-2 headings that it lists.  When the text had
    a table-of-contents line, a second run returns the result of the
    first unchanged.  When it had none, the table is put after the
    first heading line, and a second run deletes the lines between the
    table and the next line that starts with [## ]. *)
Theorem acrobat_toc_second_run (lines out : list string) :
  insert_table_of_contents_lines lines = Some out ->
  collect_headings out = collect_headings lines
  /\ (Exists (fun l => is_toc_line l = true) lines ->
      insert_table_of_contents_lines out = Some out)
  /\ (Forall (fun l => is_toc_line l = false) lines ->
      let at_line := find_insert_at 0 lines + 1 in
      out = take at_line lines ++ [EmptyString] ++ acrobat_toc_lines lines
            ++ drop at_line lines
      /\ insert_table_of_contents_lines out
         = Some (take at_line lines ++ [EmptyString]
                 ++ acrobat_toc_lines lines
                 ++ skip_to_level_2 (drop at_line lines))).
Proof.
  unfold insert_table_of_contents_lines at 1.
  destruct (collect_headings lines) as [|e entries] eqn:He; [done |].
  assert (Hne : collect_headings lines <> []) by (by rewrite He).
  assert (Htoc : ["## Table of Contents"; EmptyString]
                 ++ map Epub.toc_item (e :: entries) ++ [EmptyString]
                 = acrobat_toc_lines lines)
    by (unfold acrobat_toc_lines; by rewrite He).
  rewrite Htoc. rewrite <- He.
  pose proof (replace_toc_cases lines (acrobat_toc_lines lines)) as Hcases.
  destruct (replace_toc lines (acrobat_toc_lines lines)) as [r|].
  - destruct Hcases as (pre & h & rest & Hlines & Hpre & Hh & Hr).
    intros [= <-]. subst r.
    assert (Hsame : collect_headings
                      (pre ++ acrobat_toc_lines lines ++ skip_to_level_2 rest)
                    = collect_headings lines).
    { assert (Hch : collect_headings lines
                    = collect_headings pre ++ collect_headings rest).
      { rewrite Hlines. rewrite (collect_headings_app pre (h :: rest)).
        change (h :: rest) with ([h] ++ rest).
        by rewrite (collect_headings_app [h] rest), (toc_line_no_heading h Hh). }
      rewrite !collect_headings_app, collect_headings_skip, Hch.
      unfold acrobat_toc_lines. by rewrite toc_block_no_heading. }
    split; [done |]. split.
    + intros _. rewrite (second_run pre _ lines Hne Hpre Hsame).
      destruct (skip_to_level_2_split rest) as (body & _ & _ & Hpost).
      pose proof (skip_to_level_2_body [] (skip_to_level_2 rest)
                    (Forall_nil_2 _) Hpost) as Hidem.
      cbn [app] in Hidem. by rewrite Hidem.
    + intros Hall. exfalso. rewrite Hlines in Hall.
      apply Forall_app in Hall as [_ Hall].
      apply Forall_cons in Hall as [Hall _]. by rewrite Hh in Hall.
  - intros [= <-].
    set (at_line := find_insert_at 0 lines + 1).
    assert (Hsame : collect_headings
                      ((take at_line lines ++ [EmptyString])
                       ++ acrobat_toc_lines lines ++ drop at_line lines)
                    = collect_headings lines).
    { rewrite !collect_headings_app.
      unfold acrobat_toc_lines at 1. rewrite toc_block_no_heading.
      change (collect_headings [EmptyString]) with (@nil (string * string)).
      rewrite app_nil_r. cbn [app].
      by rewrite <- collect_headings_app, take_drop. }
    split; [by rewrite <- app_assoc in Hsame |]. split.
    + intros Hex. exfalso. apply Exists_exists in Hex as (l & Hl & Hlt).
      rewrite Forall_forall in Hcases. by rewrite (Hcases l Hl) in Hlt.
    + intros _. split; [done |].
      change (insert_table_of_contents_lines
                (take at_line lines ++ [EmptyString]
                 ++ acrobat_toc_lines lines ++ drop at_line lines)
              = Some (take at_line lines ++ [EmptyString]
                      ++ acrobat_toc_lines lines
                      ++ skip_to_level_2 (drop at_line lines))).
      rewrite !(app_assoc (take at_line lines) [EmptyString]).
      apply (second_run _ _ lines Hne); [| done].
      apply Forall_app. split; [by apply Forall_take | by repeat constructor].
Qed.

Lemma acrobat_toc_second_run_witness :
  insert_table_of_contents_lines
    ["# Title"; "## Table of Contents"; ""; "- [First](#first)"; "";
     "## First"; "text"]
  = Some ["# Title"; "## Table of Contents"; ""; "- [First](#first)"; "";
          "## First"; "text"]
  /\ insert_table_of_contents_lines
       ["# Title"; ""; "## Table of Contents"; ""; "- [First](#first)"; "";
        "intro"; "## First"]
     = Some ["# Title"; ""; "## Table of Contents"; ""; "- [First](#first)";
             ""; "## First"].
Proof.
  split.
  - apply (proj1 (proj2 (acrobat_toc_second_run
             ["# Title"; "## Table of Contents"; "- old"; "## First"; "text"]
             _ eq_refl))).
    apply Exists_cons_tl, Exists_cons_hd. reflexivity.
  - apply (proj2 (proj2 (proj2 (acrobat_toc_second_run
             ["# Title"; "intro"; "## First"] _ eq_refl))
             ltac:(repeat constructor))).
Defined.

End AcrobatTocMore.

(** ** The round trip through the front matter block *)

Section FrontMatterRoundTrip.

Import Epub Notions.

Lemma prefix_nil (s : string) : String.prefix EmptyString s = true.
Proof. by destruct s. Qed.

Lemma split_once_key (k rest : string) :
  Py.contains_char ":" k = false ->
  Py.split_once ":" (k +:+ String ":" rest) = Some (k, rest).
Proof.
  induction k as [|c k IH]; [done |]. rewrite append_cons.
  cbn [Py.contains_char Py.split_once]. intros H.
  apply orb_false_iff in H as [Hc Hk]. by rewrite Hc, IH.
Qed.

Lemma startswith_rstrip (p : ascii -> bool) (s pre : string) :
  Py.startswith s pre = false ->
  Py.startswith (Py.rstrip_with p s) pre = false.
Proof.
  unfold Py.startswith. revert pre. induction s as [|c s IH]; intros pre.
  - done.
  - rewrite rstrip_with_cons. destruct pre as [|d pre].
    { by rewrite prefix_nil. }
    destruct (p c && _); [done |].
    cbn [String.prefix]. destruct (ascii_dec d c); [apply IH | done].
Qed.

Lemma plain_key_inv (k : string) :
  plain_key k = true ->
  Py.strip k = k
  /\ Py.contains_char ":" k = false
  /\ Py.startswith k "#" = false
  /\ Py.startswith k "- " = false
  /\ exists c k', k = String c k' /\ Py.isspace c = false.
Proof.
  unfold plain_key. intros H.
  apply andb_true_iff in H as [H H5]. apply andb_true_iff in H as [H H4].
  apply andb_true_iff in H as [H H3]. apply andb_true_iff in H as [H1 H2].
  apply negb_true_iff in H1, H3, H4, H5. apply String.eqb_eq in H2.
  split; [done |]. split; [done |]. split; [done |]. split; [done |].
  destruct k as [|c k']; [done |]. exists c, k'. split; [done |].
  destruct (lstrip_with_keeps Py.isspace Py.isspace (String c k'))
    as (_ & _ & Hfirst).
  destruct (rstrip_with_keeps Py.isspace Py.isspace
              (Py.lstrip_with Py.isspace (String c k')))
    as (_ & _ & Hkeep & _).
  specialize (Hkeep Hfirst).
  change (first_is Py.isspace (Py.strip (String c k')) = false) in Hkeep.
  by rewrite <- H2 in Hkeep.
Qed.

Lemma key_line_facts (k rest : string) :
  plain_key k = true ->
  let raw := k +:+ String ":" rest in
  Py.is_empty (Py.strip raw) = false
  /\ Py.startswith (Py.strip raw) "#" = false
  /\ Py.startswith (Py.strip raw) "- " = false.
Proof.
  intros Hk. destruct (plain_key_inv k Hk)
    as (_ & _ & Hhash & Hitem & c & k' & -> & Hc).
  cbv zeta. rewrite append_cons.
  unfold Py.strip, Py.strip_with. cbn [Py.lstrip_with]. rewrite Hc.
  split; [| split].
  - rewrite rstrip_with_cons, Hc. done.
  - apply startswith_rstrip. revert Hhash. unfold Py.startswith.
    cbn [String.prefix]. destruct (ascii_dec "#" c); [| done].
    by rewrite !prefix_nil.
  - apply startswith_rstrip. revert Hitem. unfold Py.startswith.
    cbn [String.prefix]. destruct (ascii_dec "-" c); [| done].
    destruct k' as [|c1 k'']; [done |]. rewrite append_cons.
    cbn [String.prefix].
    destruct (ascii_dec " " c1); [| done]. by rewrite !prefix_nil.
Qed.

Lemma needs_quotes_false (s : string) :
  needs_quotes s = false ->
  Py.is_empty s = false
  /\ Py.strip s = s
  /\ Py.contains_char (Py.chr 34) s = false
  /\ Py.contains_char "'" s = false.
Proof.
  unfold needs_quotes.
  destruct (Py.is_empty s) eqn:He; [done |].
  destruct (String.eqb s (Py.strip s)) eqn:Hs; [| done].
  apply String.eqb_eq in Hs. cbn [negb orb].
  destruct (Py.contains_char ":" s); [done |].
  destruct (Py.contains_char "#" s); [done |].
  destruct (Py.contains_char (Py.chr 34) s); [done |].
  destruct (Py.contains_char "'" s); [done |].
  done.
Qed.

Lemma stripped_rstrip (s : string) :
  Py.strip s = s -> Py.rstrip_with Py.isspace s = s.
Proof.
  intros H. rewrite <- H at 1. unfold Py.strip, Py.strip_with in *.
  by rewrite rstrip_with_idem.
Qed.

Lemma replace_char_absent (a : ascii) (r s : string) :
  Py.contains_char a s = false -> Py.replace_char a r s = s.
Proof.
  induction s as [|c s IH]; [done |].
  cbn [Py.contains_char Py.replace_char]. intros H.
  apply orb_false_iff in H as [Hc Hs]. by rewrite Hc, IH.
Qed.

Lemma startswith_absent (a : ascii) (s : string) :
  Py.contains_char a s = false ->
  Py.startswith s (String a EmptyString) = false.
Proof.
  destruct s as [|c s]; [done |]. unfold Py.startswith.
  cbn [Py.contains_char String.prefix]. intros H.
  apply orb_false_iff in H as [Hc _].
  destruct (ascii_dec a c) as [-> |]; [| done].
  by rewrite Ascii.eqb_refl in Hc.
Qed.

Lemma drop_last_snoc (s : string) (c : ascii) :
  Py.drop_last (s +:+ String c EmptyString) = s.
Proof.
  induction s as [|a s IH]; [done |].
  rewrite append_cons, drop_last_cons, IH.
  by destruct s.
Qed.

Lemma quoted_value (s : string) :
  let value := Py.strip (String " " (dquote +:+ s +:+ dquote)) in
  Py.is_empty value = false
  /\ Py.startswith value dquote = true
  /\ Py.endswith value dquote = true
  /\ Py.drop_first (Py.drop_last value) = s.
Proof.
  assert (Hv : Py.strip (String " " (dquote +:+ s +:+ dquote))
               = String (Py.chr 34) s +:+ dquote).
  { unfold Py.strip, Py.strip_with.
    change (Py.lstrip_with Py.isspace (String " " (dquote +:+ s +:+ dquote)))
      with (String (Py.chr 34) s +:+ dquote).
    by rewrite rstrip_with_app. }
  cbv zeta. rewrite Hv. split; [done |]. split.
  - unfold Py.startswith. rewrite append_cons. cbn [String.prefix dquote].
    destruct (ascii_dec (Py.chr 34) (Py.chr 34)); [| done].
    apply prefix_nil.
  - split.
    + apply endswith_spec. by eexists.
    + unfold dquote. by rewrite drop_last_snoc.
Qed.

Lemma dict_get_middle (k : string) (v : value) (m1 m2 : dict) :
  k ∉ dict_keys m1 -> dict_get k (m1 ++ (k, v) :: m2) = Some v.
Proof.
  induction m1 as [|[k' v'] m1 IH]; intros H.
  - cbn [app dict_get]. by rewrite String.eqb_refl.
  - cbn [dict_keys map fst] in H. apply not_elem_of_cons in H as [Hk Hm].
    cbn [app dict_get].
    destruct (String.eqb k k') eqn:He; [by apply String.eqb_eq in He |].
    by apply IH.
Qed.

Lemma dict_set_new (k : string) (v : value) (m : dict) :
  k ∉ dict_keys m -> dict_set k v m = m ++ [(k, v)].
Proof.
  induction m as [|[k' v'] m IH]; [done |]. cbn [dict_keys map fst].
  intros H. apply not_elem_of_cons in H as [Hk Hm]. cbn [dict_set app].
  destruct (String.eqb k k') eqn:He; [by apply String.eqb_eq in He |].
  by rewrite IH.
Qed.

Lemma dict_set_last (k : string) (v v0 : value) (m : dict) :
  k ∉ dict_keys m -> dict_set k v (m ++ [(k, v0)]) = m ++ [(k, v)].
Proof.
  induction m as [|[k' v'] m IH]; intros H.
  - cbn [app dict_set]. by rewrite String.eqb_refl.
  - cbn [dict_keys map fst] in H. apply not_elem_of_cons in H as [Hk Hm].
    cbn [app dict_set].
    destruct (String.eqb k k') eqn:He; [by apply String.eqb_eq in He |].
    by rewrite IH.
Qed.

Lemma mem_false (k : string) (l : list string) :
  k ∉ l -> mem k l = false.
Proof.
  intros H. destruct (mem k l) eqn:Hm; [| done].
  by apply mem_spec in Hm.
Qed.

Lemma dict_keys_app (m1 m2 : dict) :
  dict_keys (m1 ++ m2) = dict_keys m1 ++ dict_keys m2.
Proof. apply map_app. Qed.

(** What the parser makes of the line written for a scalar. *)
Lemma parse_step_scalar (st : parse_state) (q : gset string) (k s : string) :
  plain_key k = true ->
  order st = dict_keys (metadata st) ->
  k ∉ dict_keys (metadata st) ->
  Py.contains_char (Py.chr 34) s = false ->
  (needs_quotes s = true -> k ∈ q) ->
  parse_step st (k +:+ ": " +:+ format_scalar_value s (bool_decide (k ∈ q)))
  = Some {| metadata := metadata st ++ [(k, VStr s)];
            order := order st ++ [k];
            quoted := if bool_decide (k ∈ q) then {[ k ]} ∪ quoted st
                      else quoted st;
            current_key := Some k |}.
Proof.
  intros Hk Horder Hnew Hdq Hq.
  destruct (plain_key_inv k Hk) as (Hstrip & Hcolon & _ & _ & c & k' & Hkc & _).
  set (fv := format_scalar_value s (bool_decide (k ∈ q))).
  change (k +:+ ": " +:+ fv) with (k +:+ String ":" (String " " fv)).
  destruct (key_line_facts k (String " " fv) Hk) as (H1 & H2 & H3).
  unfold parse_step. rewrite H1, H2, H3. cbn [orb].
  rewrite split_once_key by done. rewrite Hstrip.
  assert (He : Py.is_empty k = false) by (by rewrite Hkc).
  rewrite He. rewrite mem_false by (by rewrite Horder).
  rewrite !dict_set_new by done.
  unfold fv, format_scalar_value.
  destruct (bool_decide (k ∈ q)) eqn:Hb.
  - cbn [orb]. rewrite replace_char_absent by done.
    destruct (quoted_value s) as (Q1 & Q2 & Q3 & Q4).
    rewrite Q1, Q2, Q3, Q4. reflexivity.
  - destruct (needs_quotes s) eqn:Hn.
    { apply bool_decide_eq_false in Hb. by specialize (Hq eq_refl). }
    cbn [orb]. destruct (needs_quotes_false s Hn) as (N1 & N2 & N3 & N4).
    change (Py.strip (String " " s)) with (Py.strip s). rewrite N2, N1.
    unfold dquote, squote.
    rewrite (startswith_absent _ s N3), (startswith_absent _ s N4). done.
Qed.

(** What the parser makes of the line that opens a list. *)
Lemma parse_step_list_key (st : parse_state) (k : string) :
  plain_key k = true ->
  order st = dict_keys (metadata st) ->
  k ∉ dict_keys (metadata st) ->
  parse_step st (k +:+ ":")
  = Some {| metadata := metadata st ++ [(k, VList [])];
            order := order st ++ [k];
            quoted := quoted st;
            current_key := Some k |}.
Proof.
  intros Hk Horder Hnew.
  destruct (plain_key_inv k Hk) as (Hstrip & Hcolon & _ & _ & c & k' & Hkc & _).
  change (k +:+ ":") with (k +:+ String ":" EmptyString).
  destruct (key_line_facts k EmptyString Hk) as (H1 & H2 & H3).
  unfold parse_step. rewrite H1, H2, H3. cbn [orb].
  rewrite split_once_key by done. rewrite Hstrip.
  assert (He : Py.is_empty k = false) by (by rewrite Hkc).
  rewrite He. rewrite mem_false by (by rewrite Horder).
  rewrite dict_set_new by done. done.
Qed.

(** What the parser makes of the line written for a list item. *)
Lemma parse_step_item (m1 : dict) (o : list string) (q1 : gset string)
    (k item : string) (sofar : list string) :
  Py.is_empty k = false ->
  k ∉ dict_keys m1 ->
  needs_quotes item = false ->
  parse_step {| metadata := m1 ++ [(k, VList sofar)]; order := o;
                quoted := q1; current_key := Some k |}
    ("  - " +:+ format_scalar_value item false)
  = Some {| metadata := m1 ++ [(k, VList (sofar ++ [item]))]; order := o;
            quoted := q1; current_key := Some k |}.
Proof.
  intros Hk Hnew Hn.
  destruct (needs_quotes_false item Hn) as (N1 & N2 & _ & _).
  unfold format_scalar_value. rewrite Hn. cbn [orb].
  assert (Hs : Py.strip ("  - " +:+ item) = String "-" (String " " item)).
  { unfold Py.strip, Py.strip_with.
    change (Py.lstrip_with Py.isspace ("  - " +:+ item))
      with (String "-" (String " " item)).
    rewrite !rstrip_with_cons, (stripped_rstrip item N2), N1.
    by rewrite andb_false_r. }
  unfold parse_step. cbn [current_key metadata order quoted].
  rewrite Hs. rewrite Hk, dict_get_middle by done.
  change (Py.is_empty (String "-" (String " " item))) with false.
  change (Py.startswith (String "-" (String " " item)) "#") with false.
  cbn [orb].
  assert (Hp : Py.startswith (String "-" (String " " item)) "- " = true).
  { unfold Py.startswith. cbn. apply prefix_nil. }
  rewrite Hp. cbn [Py.drop_first]. rewrite N2.
  by rewrite dict_set_last.
Qed.

Lemma parse_loop_app (st : parse_state) (a b : list string) :
  parse_loop st (a ++ b)
  = match parse_loop st a with
    | Some st' => parse_loop st' b
    | None => None
    end.
Proof.
  revert st. induction a as [|l a IH]; intros st; [done |].
  cbn [app parse_loop]. by destruct (parse_step st l).
Qed.

Lemma parse_loop_items (m1 : dict) (o : list string) (q1 : gset string)
    (k : string) (items sofar : list string) :
  Py.is_empty k = false ->
  k ∉ dict_keys m1 ->
  Forall (fun item => needs_quotes item = false) items ->
  parse_loop {| metadata := m1 ++ [(k, VList sofar)]; order := o;
                quoted := q1; current_key := Some k |}
    (map (fun item => "  - " +:+ format_scalar_value item false) items)
  = Some {| metadata := m1 ++ [(k, VList (sofar ++ items))]; order := o;
            quoted := q1; current_key := Some k |}.
Proof.
  intros Hk Hnew Hitems. revert sofar.
  induction Hitems as [|item items Hi _ IH]; intros sofar.
  - by rewrite app_nil_r.
  - cbn [map parse_loop]. rewrite parse_step_item by done.
    rewrite IH. by rewrite <- app_assoc.
Qed.

Lemma parse_loop_entries (q : gset string) (m2 : dict) :
  forall st : parse_state,
    order st = dict_keys (metadata st) ->
    NoDup (dict_keys (metadata st ++ m2)) ->
    Forall (plain_entry q) m2 ->
    exists st',
      parse_loop st (concat (map (entry_lines q) m2)) = Some st'
      /\ metadata st' = metadata st ++ m2
      /\ order st' = dict_keys (metadata st ++ m2)
      /\ forall k, k ∈ quoted st' <->
                   k ∈ quoted st \/ (k ∈ q /\ k ∈ dict_keys m2).
Proof.
  induction m2 as [|[k v] m2 IH]; intros st Horder Hdup Hall.
  - exists st. rewrite app_nil_r. split; [done |]. split; [done |].
    split; [done |]. intros k. split; [by left |].
    intros [H | [_ H]]; [done |]. by apply elem_of_nil in H.
  - apply Forall_cons in Hall as [[Hk Hv] Hall]. cbn [fst snd] in Hk, Hv.
    assert (Hnew : k ∉ dict_keys (metadata st)).
    { rewrite dict_keys_app in Hdup. apply NoDup_app in Hdup as (_ & Hd & _).
      intros Hin. apply (Hd k Hin). cbn [dict_keys map fst].
      apply elem_of_cons. by left. }
    assert (Hdup' : forall v', NoDup (dict_keys ((metadata st ++ [(k, v')])
                                                  ++ m2))).
    { intros v'. rewrite <- app_assoc. cbn [app].
      rewrite dict_keys_app in Hdup |- *. exact Hdup. }
    assert (Hkeys : forall v', dict_keys (metadata st ++ [(k, v')])
                               = dict_keys (metadata st) ++ [k]).
    { intros v'. by rewrite dict_keys_app. }
    cbn [map concat]. rewrite parse_loop_app.
    destruct v as [s | items].
    + destruct Hv as [Hdq Hq]. unfold entry_lines at 1. cbn [fst snd].
      cbn [parse_loop]. rewrite parse_step_scalar by done.
      set (st1 := {| metadata := metadata st ++ [(k, VStr s)] |}).
      destruct (IH st1) as (st' & Hloop & Hm & Ho & Hquoted).
      { cbn. by rewrite Hkeys, Horder. }
      { apply Hdup'. }
      { done. }
      exists st'. split; [done |]. unfold st1 in Hm, Ho, Hquoted.
      cbn [metadata quoted] in Hm, Ho, Hquoted.
      rewrite <- app_assoc in Hm, Ho. split; [done |]. split; [done |].
      intros k0. rewrite Hquoted. cbn [dict_keys map fst].
      rewrite elem_of_cons. case_bool_decide as Hb.
      * rewrite elem_of_union, elem_of_singleton. split.
        -- intros [[-> | H] | [H1 H2]]; [by right; split; [| left] | by left |].
           right. split; [done | by right].
        -- intros [H | [H1 [-> | H2]]]; [by left; right | by left; left |].
           by right.
      * split.
        -- intros [H | [H1 H2]]; [by left | right; split; [done | by right]].
        -- intros [H | [H1 [-> | H2]]]; [by left | done | by right].
    + destruct Hv as [Hnq Hitems]. unfold entry_lines at 1. cbn [fst snd].
      cbn [parse_loop]. rewrite parse_step_list_key by done.
      destruct (plain_key_inv k Hk) as (_ & _ & _ & _ & c & k' & Hkc & _).
      rewrite (parse_loop_items (metadata st) _ _ k items [])
        by (done || by rewrite Hkc).
      cbn [app].
      set (st1 := {| metadata := metadata st ++ [(k, VList items)] |}).
      destruct (IH st1) as (st' & Hloop & Hm & Ho & Hquoted).
      { cbn. by rewrite Hkeys, Horder. }
      { apply Hdup'. }
      { done. }
      exists st'. split; [done |]. unfold st1 in Hm, Ho, Hquoted.
      cbn [metadata quoted] in Hm, Ho, Hquoted.
      rewrite <- app_assoc in Hm, Ho. split; [done |]. split; [done |].
      intros k0. rewrite Hquoted. cbn [dict_keys map fst].
      rewrite elem_of_cons. split.
      * intros [H | [H1 H2]]; [by left | right; split; [done | by right]].
      * intros [H | [H1 [-> | H2]]]; [by left | done | by right].
Qed.

Lemma serialize_loop_entries (m : dict) (q : gset string) (m2 : dict) :
  forall (m1 : dict) (seen : list string),
    m = m1 ++ m2 ->
    NoDup (dict_keys m) ->
    (forall k, k ∈ seen <-> k ∈ dict_keys m1) ->
    serialize_loop m q seen (dict_keys m2) = concat (map (entry_lines q) m2).
Proof.
  induction m2 as [|[k v] m2 IH]; intros m1 seen Hm Hdup Hseen; [done |].
  cbn [dict_keys map fst serialize_loop concat].
  assert (Hnew : k ∉ dict_keys m1).
  { rewrite Hm, dict_keys_app in Hdup. apply NoDup_app in Hdup as (_ & Hd & _).
    intros Hin. apply (Hd k Hin). cbn [dict_keys map fst].
    apply elem_of_cons. by left. }
  rewrite mem_false by (by rewrite Hseen).
  f_equal.
  - unfold serialize_key, entry_lines. rewrite Hm, dict_get_middle by done.
    by destruct v.
  - apply (IH (m1 ++ [(k, v)])); [by rewrite <- app_assoc | done |].
    intros k0. rewrite dict_keys_app, elem_of_cons, elem_of_app, Hseen.
    cbn [dict_keys map fst]. rewrite list_elem_of_singleton. tauto.
Qed.

Lemma filter_known_keys (o l : list string) :
  (forall k, k ∈ l -> k ∈ o) ->
  filter (fun k => negb (mem k o)) l = [].
Proof.
  induction l as [|k l IH]; intros H; [done |].
  rewrite filter_cons_False.
  - apply IH. intros k0 Hk0. apply H, elem_of_cons. by right.
  - assert (Hm : mem k o = true)
      by (apply mem_spec, H, elem_of_cons; by left).
    intros Hn. by rewrite Hm in Hn.
Qed.

Lemma parse_block_markers (body : list string) :
  parse_front_matter_block ("---" :: body ++ ["---"])
  = match parse_loop parse_init body with
    | Some st => Some (metadata st, order st, quoted st)
    | None => None
    end.
Proof.
  unfold parse_front_matter_block.
  assert (Hlast : last ("---" :: body ++ ["---"]) = Some "---").
  { change ("---" :: body ++ ["---"]) with (("---" :: body) ++ ["---"]).
    apply last_snoc. }
  rewrite Hlast. change (is_marker "---") with true. cbn [negb orb].
  by rewrite removelast_last.
Qed.

(** X23: a dictionary whose keys are distinct and plain (not empty,
    stripped, without a colon, no comment and no list item at the start
    of a line), whose scalars hold no double quote and are in the set
    of quoted keys when they need quotes, and whose lists are not in
    that set and hold only items that need no quotes, survives the
    round trip: the block that [serialize_front_matter] writes is read
    back by [parse_front_matter_block] as the same dictionary, key
    order and set of quoted keys. *)
Theorem front_matter_round_trip (m : dict) (q : gset string) :
  NoDup (dict_keys m) ->
  Forall (plain_entry q) m ->
  (forall k, k ∈ q -> k ∈ dict_keys m) ->
  parse_front_matter_block (serialize_front_matter m (dict_keys m) q)
  = Some (m, dict_keys m, q).
Proof.
  intros Hdup Hall Hq. unfold serialize_front_matter.
  rewrite filter_known_keys by done. rewrite app_nil_r.
  rewrite (serialize_loop_entries m q m [] []) by done.
  change (["---"] ++ ?x ++ ["---"]) with ("---" :: x ++ ["---"]).
  rewrite parse_block_markers.
  destruct (parse_loop_entries q m parse_init eq_refl Hdup Hall)
    as (st' & -> & Hm & Ho & Hquoted).
  cbn [metadata parse_init app] in Hm, Ho. rewrite Hm, Ho.
  do 2 f_equal. apply set_eq. intros k. rewrite Hquoted.
  cbn [quoted parse_init]. split.
  - intros [H | [H _]]; [by apply not_elem_of_empty in H | done].
  - intros H. right. split; [done | by apply Hq].
Qed.

Lemma front_matter_round_trip_witness :
  parse_front_matter_block
    (serialize_front_matter
       [("title", VStr "My Book"); ("author", VStr "A: B");
        ("tags", VList ["x"; "y z"])]
       ["title"; "author"; "tags"] {[ "author" ]})
  = Some ([("title", VStr "My Book"); ("author", VStr "A: B");
           ("tags", VList ["x"; "y z"])],
          ["title"; "author"; "tags"], {[ "author" ]}).
Proof.
  apply (front_matter_round_trip
           [("title", VStr "My Book"); ("author", VStr "A: B");
            ("tags", VList ["x"; "y z"])] {[ "author" ]}).
  - apply (bool_decide_unpack _). by vm_compute.
  - repeat constructor; try set_solver.
  - intros k Hk. apply elem_of_singleton in Hk. subst k.
    apply elem_of_cons. right. apply elem_of_cons. by left.
Defined.

End FrontMatterRoundTrip.

(** ** The skip patterns of the PDF conversion *)

Section SkipMore.

Import PdfToMarkdown Notions.

Lemma lstrip_with_all (p : ascii -> bool) (s : string) :
  Py.all_chars p s = true -> Py.lstrip_with p s = EmptyString.
Proof.
  induction s as [|c s IH]; [done |]. cbn [Py.all_chars Py.lstrip_with].
  intros H. apply andb_true_iff in H as [Hc Hs]. by rewrite Hc, IH.
Qed.

(** X24: [should_skip_text] looks at the stripped text only; a text
    that one list of patterns skips is skipped by every longer list;
    and with the default patterns, alone or followed by others, a text
    that is blank or made of digits only is always skipped. *)
Theorem should_skip_text_numbers (text : string)
    (patterns extra : list (string -> bool)) :
  should_skip_text (Py.strip text) patterns = should_skip_text text patterns
  /\ (should_skip_text text patterns = true ->
      should_skip_text text (patterns ++ extra) = true)
  /\ (Py.all_chars Py.isdigit (Py.strip text) = true ->
      should_skip_text text (DEFAULT_SKIP_PATTERNS ++ extra) = true).
Proof.
  unfold should_skip_text. split; [| split].
  - unfold Py.strip. by rewrite strip_with_idem.
  - destruct (Py.is_empty (Py.strip text)); [done |].
    rewrite existsb_app. by intros ->.
  - intros Hdigits. destruct (Py.strip text) as [|c r] eqn:Hs; [done |].
    cbn [Py.is_empty DEFAULT_SKIP_PATTERNS app existsb].
    unfold bare_page_number, eat_digits.
    pose proof Hdigits as Hall. cbn [Py.all_chars] in Hdigits.
    apply andb_true_iff in Hdigits as [Hc _].
    by rewrite Hc, (lstrip_with_all Py.isdigit (String c r) Hall).
Qed.

Lemma should_skip_text_numbers_witness :
  should_skip_text " 12 " (DEFAULT_SKIP_PATTERNS ++ []) = true.
Proof.
  apply (proj2 (proj2 (should_skip_text_numbers " 12 " [] []))).
  reflexivity.
Defined.

End SkipMore.
